(** * girschworks_cms: authorization and content-lifecycle core

    A shallow embedding of the Express route handlers of the CMS API
    ([apps/api/src/routes/{pages,media,sites,auth}.ts] and
    [apps/api/src/middleware/auth.ts]) over an explicit model of the
    Prisma store, followed by the properties of the design
    specification that concern them.

    Every handler is an [async] function; it is embedded as a program
    of the [Prog] monad whose [Await] nodes are exactly the awaited
    store calls of the source.  Running a program to its end is the
    handling of one request on its own; interleaving two programs at
    their [Await] nodes is what Node's event loop can do with two
    requests in flight. *)

From Stdlib Require Import String Ascii List ZArith Bool Lia PeanoNat.
Import ListNotations.
Open Scope string_scope.
Open Scope list_scope.

Set Implicit Arguments.
Set Warnings "-register-all".

(** ** JSON values and the request body *)

(** Numbers are integers: the one number a request body carries, the
    [size] of a media file, is only tested for its sign and stored. *)
Inductive Json : Type :=
| JNull
| JBool (b : bool)
| JNum (n : Z)
| JStr (s : string)
| JArr (items : list Json)
| JObj (fields : list (string * Json)).

(** [o.key] on a parsed object: [None] is JavaScript's [undefined]. *)
Fixpoint prop (o : list (string * Json)) (key : string) : option Json :=
  match o with
  | [] => None
  | (k, v) :: rest => if String.eqb k key then Some v else prop rest key
  end.

(** [x] where JavaScript tests a possibly missing string for
    truthiness ([if (x)], [x || d], [x && ...]): the empty string
    counts as missing. *)
Definition given (x : option string) : option string :=
  match x with
  | Some "" => None
  | other => other
  end.

(** ** The option monad, used for everything that may throw a ZodError *)

Definition obind {A B} (x : option A) (f : A -> option B) : option B :=
  match x with
  | Some a => f a
  | None => None
  end.

Notation "x <-? c ; k" := (obind c (fun x => k))
  (at level 61, c at next level, right associativity).

(** ** Collaborators outside the repository

    The checks of [z.string().email()] and [z.string().url()], bcrypt's
    [compare] and the store's case-insensitive [contains] are library
    code; the handlers are embedded over any implementation of them. *)

Class Collaborators : Type := {
  isEmail : string -> bool;
  isUrl : string -> bool;
  bcryptCompare : string -> string -> bool;
  containsInsensitive : string -> string -> bool;
  (** [process.env.JWT_SECRET] *)
  env_JWT_SECRET : option string
}.

(** [bcrypt.hash(password, saltRounds)]; the salt is drawn by the
    library. *)
Class Hashing : Type := {
  bcryptHash : string -> nat -> string -> string
}.

(** Column defaults of the Prisma schema, for the columns a handler
    leaves out of a [create]. *)
Class SchemaDefaults : Type := {
  default_user_isActive : bool;
  default_site_isPublished : bool
}.

(** ** Zod field parsers: [None] stands for a thrown ZodError *)

Module Zod.

Definition zstring (v : option Json) : option string :=
  match v with
  | Some (JStr s) => Some s
  | _ => None
  end.

Definition zboolean (v : option Json) : option bool :=
  match v with
  | Some (JBool b) => Some b
  | _ => None
  end.

(** [.optional()] accepts [undefined] only; [null] is a type error. *)
Definition zoptional {A} (p : option Json -> option A) (v : option Json)
  : option (option A) :=
  match v with
  | None => Some None
  | Some _ => x <-? p v ; Some (Some x)
  end.

Definition refine {A} (ok : A -> bool) (x : A) : option A :=
  if ok x then Some x else None.

(** [z.string().min(1, ...)] *)
Definition zstring_min1 (v : option Json) : option string :=
  s <-? zstring v ; refine (fun s => 1 <=? String.length s)%nat s.

(** [z.record(z.any())]: any plain object. *)
Definition zrecord_any (v : option Json) : option Json :=
  match v with
  | Some (JObj o) => Some (JObj o)
  | _ => None
  end.

(** [z.array(z.string())] *)
Definition is_jstr (j : Json) : bool :=
  match j with JStr _ => true | _ => false end.

Definition zarray_string (v : option Json) : option Json :=
  match v with
  | Some (JArr items) => if forallb is_jstr items then Some (JArr items) else None
  | _ => None
  end.

End Zod.
Import Zod.

(** ** Persisted rows *)

Definition Id := string.

Inductive PageStatus := DRAFT | PUBLISHED | ARCHIVED.

Definition status_eqb (a b : PageStatus) : bool :=
  match a, b with
  | DRAFT, DRAFT | PUBLISHED, PUBLISHED | ARCHIVED, ARCHIVED => true
  | _, _ => false
  end.

Record Tenant := {
  tenant_id : Id;
  tenant_name : string;
  tenant_domain : string
}.

Record User := {
  user_id : Id;
  user_email : string;
  user_password : string;
  user_firstName : string;
  user_lastName : string;
  user_role : string;
  user_tenantId : Id;
  user_isActive : bool
}.

Record Site := {
  site_id : Id;
  site_tenantId : Id;
  site_name : string;
  site_domain : option string;
  site_description : option string;
  site_theme : string;
  site_seoSettings : option Json;
  site_isPublished : bool
}.

Record Page := {
  page_id : Id;
  page_siteId : Id;
  page_title : string;
  page_slug : string;
  page_content : option Json;
  page_excerpt : option string;
  page_status : PageStatus;
  page_isHomePage : bool;
  page_seoTitle : option string;
  page_seoDescription : option string;
  page_featuredImage : option string;
  page_authorId : Id;
  page_publishedAt : option Z
}.

Record Media := {
  media_id : Id;
  media_siteId : Id;
  media_filename : string;
  media_originalName : string;
  media_mimeType : string;
  media_size : Z;
  media_url : string;
  media_alt : option string
}.

(** The store: one list of rows per table. *)
Record DB := {
  tenants : list Tenant;
  users : list User;
  sites : list Site;
  pages : list Page;
  media : list Media
}.

Definition with_sites (db : DB) (l : list Site) : DB :=
  {| tenants := tenants db; users := users db; sites := l;
     pages := pages db; media := media db |}.

Definition with_pages (db : DB) (l : list Page) : DB :=
  {| tenants := tenants db; users := users db; sites := sites db;
     pages := l; media := media db |}.

Definition with_media (db : DB) (l : list Media) : DB :=
  {| tenants := tenants db; users := users db; sites := sites db;
     pages := pages db; media := l |}.

(** ** Programs with await points *)

Inductive Prog (R : Type) : Type :=
| Ret (r : R)
| Await (A : Type) (call : DB -> DB * A) (k : A -> Prog R).

Arguments Ret {R} r.
Arguments Await {R A} call k.

Notation "'let*' x ':=' 'await' c 'in' k" := (Await c (fun x => k))
  (at level 10, x name, c at level 100, k at level 200).

(** One request handled with nothing else in flight. *)
Fixpoint run {R} (p : Prog R) (db : DB) : DB * R :=
  match p with
  | Ret r => (db, r)
  | Await call k => let (db', a) := call db in run (k a) db'
  end.

(** One scheduling step: the store call at the head of the program. *)
Definition step {R} (p : Prog R) (db : DB) : DB * Prog R :=
  match p with
  | Ret r => (db, Ret r)
  | Await call k => let (db', a) := call db in (db', k a)
  end.

(** Two requests in flight.  [sched] says, await by await, which one
    the event loop resumes ([true]: the first); when the schedule is
    used up the first request runs to its end, then the second. *)
Fixpoint interleave {R1 R2} (sched : list bool) (p : Prog R1) (q : Prog R2)
  (db : DB) : DB * (R1 * R2) :=
  match sched with
  | [] =>
      let (db1, r1) := run p db in
      let (db2, r2) := run q db1 in
      (db2, (r1, r2))
  | true :: rest => let (db', p') := step p db in interleave rest p' q db'
  | false :: rest => let (db', q') := step q db in interleave rest p q' db'
  end.

(** ** Requests and responses *)

(** [req.user], as [AuthMiddleware.authenticate] fills it in. *)
Record ReqUser := {
  req_user_id : Id;
  req_user_email : string;
  req_user_role : string;
  req_user_tenantId : Id
}.

(** A signed token of the jsonwebtoken library, symbolically: the
    claims it carries and the key that signed it.  The signature
    verifies under a secret exactly when that secret is the key. *)
Record Jwt := {
  jwt_claims : list (string * Json);
  jwt_key : string
}.

(** What [res.json] is given.  A response is modelled as carrying the
    rows it is built from: the [include]/[select] projections of the
    related author and site rows, the counts, and the choice of the
    user columns that the login response shows (id, email, names and
    role, never the password hash) are left out. *)
Inductive Payload : Type :=
| ErrorMessage (error message : string)
| ErrorOnly (error : string)
| ValidationError
| Message (message : string)
| PageBody (message : option string) (page : Page)
| PagesBody (rows : list Page)
| MediaBody (message : option string) (m : Media)
| MediaListBody (rows : list Media)
| SiteBody (message : option string) (site : Site)
    (site_pages : list Page) (site_media : list Media)
| SitesBody (rows : list (Site * list Page))
| LoginBody (user : User) (tenant : Tenant) (accessToken refreshToken : Jwt).

Record Response := {
  status : nat;
  body : Payload
}.

Definition json (code : nat) (b : Payload) : Response :=
  {| status := code; body := b |}.

(** ** The store calls the handlers await *)

Module Store.

(** Following the [site] relation of a page or media row. *)
Definition siteOf (db : DB) (siteId : Id) : option Site :=
  find (fun s => String.eqb (site_id s) siteId) (sites db).

(** The relation filter [site: { tenantId }]. *)
Definition siteInTenant (db : DB) (siteId tenantId : Id) : bool :=
  match siteOf db siteId with
  | Some s => String.eqb (site_tenantId s) tenantId
  | None => false
  end.

(** [db.site.findFirst({ where: { id, tenantId } })] *)
Definition site_findFirst (id tenantId : Id) (db : DB) : DB * option Site :=
  (db, find (fun s => String.eqb (site_id s) id
                      && String.eqb (site_tenantId s) tenantId) (sites db)).

(** [db.page.findFirst({ where: { id, site: { tenantId } } })] *)
Definition page_findFirst (id tenantId : Id) (db : DB) : DB * option Page :=
  (db, find (fun p => String.eqb (page_id p) id
                      && siteInTenant db (page_siteId p) tenantId) (pages db)).

(** [db.page.findUnique({ where: { siteId_slug: { siteId, slug } } })] *)
Definition page_findUnique_siteId_slug (siteId : Id) (slug : string) (db : DB)
  : DB * option Page :=
  (db, find (fun p => String.eqb (page_siteId p) siteId
                      && String.eqb (page_slug p) slug) (pages db)).

(** [db.page.findMany({ where })] *)
Definition page_findMany (where_ : DB -> Page -> bool) (db : DB)
  : DB * list Page :=
  (db, filter (where_ db) (pages db)).

(** [db.page.updateMany({ where, data })] *)
Definition page_updateMany (where_ : Page -> bool) (data : Page -> Page)
  (db : DB) : DB * unit :=
  (with_pages db (map (fun p => if where_ p then data p else p) (pages db)), tt).

(** The unique constraints of the [Page] table: the primary key and
    the compound key [siteId_slug] that [findUnique] is given. *)
Definition page_id_taken (id : Id) (rows : list Page) : bool :=
  existsb (fun p => String.eqb (page_id p) id) rows.

Definition page_slug_taken (self : Id) (siteId : Id) (slug : string)
  (rows : list Page) : bool :=
  existsb (fun p => negb (String.eqb (page_id p) self)
                    && String.eqb (page_siteId p) siteId
                    && String.eqb (page_slug p) slug) rows.

(** [db.page.create({ data })]; [None] when the store throws on a
    unique constraint. *)
Definition page_create (row : Page) (db : DB) : DB * option Page :=
  if page_id_taken (page_id row) (pages db)
     || page_slug_taken (page_id row) (page_siteId row) (page_slug row) (pages db)
  then (db, None)
  else (with_pages db (pages db ++ [row]), Some row).

(** [db.page.update({ where: { id }, data })]; [None] when the store
    throws (no such row, or a unique constraint). *)
Definition page_update (id : Id) (data : Page -> Page) (db : DB)
  : DB * option Page :=
  match find (fun p => String.eqb (page_id p) id) (pages db) with
  | None => (db, None)
  | Some old =>
      let row := data old in
      if page_slug_taken id (page_siteId row) (page_slug row) (pages db)
      then (db, None)
      else (with_pages db
              (map (fun p => if String.eqb (page_id p) id then data p else p)
                   (pages db)),
            Some row)
  end.

(** [db.page.delete({ where: { id } })]; [false] when the store
    throws because there is no such row. *)
Definition page_delete (id : Id) (db : DB) : DB * bool :=
  if page_id_taken id (pages db)
  then (with_pages db
          (filter (fun p => negb (String.eqb (page_id p) id)) (pages db)), true)
  else (db, false).

(** [db.media.findFirst({ where: { id, site: { tenantId } } })] *)
Definition media_findFirst (id tenantId : Id) (db : DB) : DB * option Media :=
  (db, find (fun m => String.eqb (media_id m) id
                      && siteInTenant db (media_siteId m) tenantId) (media db)).

(** [db.media.findFirst({ where: { siteId, filename } })] *)
Definition media_findFirst_filename (siteId : Id) (filename : string) (db : DB)
  : DB * option Media :=
  (db, find (fun m => String.eqb (media_siteId m) siteId
                      && String.eqb (media_filename m) filename) (media db)).

(** [db.media.findMany({ where })] *)
Definition media_findMany (where_ : DB -> Media -> bool) (db : DB)
  : DB * list Media :=
  (db, filter (where_ db) (media db)).

(** [db.media.update({ where: { id }, data })].  The source looks a
    filename up with [findFirst], not through a compound unique key,
    so the store is given no constraint on it. *)
Definition media_update (id : Id) (data : Media -> Media) (db : DB)
  : DB * option Media :=
  match find (fun m => String.eqb (media_id m) id) (media db) with
  | None => (db, None)
  | Some old =>
      (with_media db
         (map (fun m => if String.eqb (media_id m) id then data m else m)
              (media db)),
       Some (data old))
  end.

(** [db.media.delete({ where: { id } })] *)
Definition media_delete (id : Id) (db : DB) : DB * bool :=
  if existsb (fun m => String.eqb (media_id m) id) (media db)
  then (with_media db
          (filter (fun m => negb (String.eqb (media_id m) id)) (media db)), true)
  else (db, false).

(** [db.site.findMany({ where: { tenantId }, include: { pages } })] *)
Definition pagesOfSite (db : DB) (siteId : Id) : list Page :=
  filter (fun p => String.eqb (page_siteId p) siteId) (pages db).

Definition mediaOfSite (db : DB) (siteId : Id) : list Media :=
  filter (fun m => String.eqb (media_siteId m) siteId) (media db).

Definition site_findMany (tenantId : Id) (db : DB)
  : DB * list (Site * list Page) :=
  (db, map (fun s => (s, pagesOfSite db (site_id s)))
           (filter (fun s => String.eqb (site_tenantId s) tenantId) (sites db))).

(** [db.site.findFirst({ where: { id, tenantId }, include: { pages,
    media: { orderBy: { createdAt: "desc" }, take: 10 } } })]; rows
    are kept in the order they were created. *)
Definition site_findFirst_include (id tenantId : Id) (db : DB)
  : DB * option (Site * list Page * list Media) :=
  (db, match snd (site_findFirst id tenantId db) with
       | Some s => Some (s, pagesOfSite db (site_id s),
                         firstn 10 (rev (mediaOfSite db (site_id s))))
       | None => None
       end).

(** [db.site.findUnique({ where: { domain } })] *)
Definition site_findUnique_domain (domain : string) (db : DB) : DB * option Site :=
  (db, find (fun s => match site_domain s with
                      | Some d => String.eqb d domain
                      | None => false
                      end) (sites db)).

Definition site_domain_taken (self : Id) (domain : option string)
  (rows : list Site) : bool :=
  match domain with
  | None => false
  | Some d =>
      existsb (fun s => negb (String.eqb (site_id s) self)
                        && match site_domain s with
                           | Some d' => String.eqb d' d
                           | None => false
                           end) rows
  end.

(** [db.site.update({ where: { id }, data })]; [domain] is a unique
    column. *)
Definition site_update (id : Id) (data : Site -> Site) (db : DB)
  : DB * option Site :=
  match find (fun s => String.eqb (site_id s) id) (sites db) with
  | None => (db, None)
  | Some old =>
      if site_domain_taken id (site_domain (data old)) (sites db)
      then (db, None)
      else (with_sites db
              (map (fun s => if String.eqb (site_id s) id then data s else s)
                   (sites db)),
            Some (data old))
  end.

(** [db.site.delete({ where: { id } })]: the delete cascades to the
    pages and media of the site. *)
Definition site_delete (id : Id) (db : DB) : DB * bool :=
  if existsb (fun s => String.eqb (site_id s) id) (sites db)
  then ({| tenants := tenants db; users := users db;
           sites := filter (fun s => negb (String.eqb (site_id s) id)) (sites db);
           pages := filter (fun p => negb (String.eqb (page_siteId p) id)) (pages db);
           media := filter (fun m => negb (String.eqb (media_siteId m) id)) (media db) |},
        true)
  else (db, false).

(** The [include: { tenant: true }] of the user lookups. *)
Definition tenantOf (db : DB) (tenantId : Id) : option Tenant :=
  find (fun t => String.eqb (tenant_id t) tenantId) (tenants db).

(** [db.user.findUnique({ where: { id, isActive: true }, include: { tenant } })] *)
Definition user_findUnique_id (id : Id) (db : DB)
  : DB * option (User * option Tenant) :=
  (db, match find (fun u => String.eqb (user_id u) id && user_isActive u) (users db) with
       | Some u => Some (u, tenantOf db (user_tenantId u))
       | None => None
       end).

(** [db.user.findUnique({ where: { email, isActive: true }, include: { tenant } })] *)
Definition user_findUnique_email (email : string) (db : DB)
  : DB * option (User * option Tenant) :=
  (db, match find (fun u => String.eqb (user_email u) email && user_isActive u) (users db) with
       | Some u => Some (u, tenantOf db (user_tenantId u))
       | None => None
       end).

(** The unique columns of the [Site], [Media], [Tenant] and [User]
    tables that the handlers look up with [findUnique]. *)
Definition site_id_taken (id : Id) (rows : list Site) : bool :=
  existsb (fun s => String.eqb (site_id s) id) rows.

(** [db.site.create({ data })] *)
Definition site_create (row : Site) (db : DB) : DB * option Site :=
  if site_id_taken (site_id row) (sites db)
     || site_domain_taken (site_id row) (site_domain row) (sites db)
  then (db, None)
  else (with_sites db (sites db ++ [row]), Some row).

(** [db.media.create({ data })] *)
Definition media_create (row : Media) (db : DB) : DB * option Media :=
  if existsb (fun m => String.eqb (media_id m) (media_id row)) (media db)
  then (db, None)
  else (with_media db (media db ++ [row]), Some row).

(** [db.user.findUnique({ where: { email } })] *)
Definition user_findUnique_email_only (email : string) (db : DB)
  : DB * option User :=
  (db, find (fun u => String.eqb (user_email u) email) (users db)).

(** [db.tenant.findUnique({ where: { domain } })] *)
Definition tenant_findUnique_domain (domain : string) (db : DB)
  : DB * option Tenant :=
  (db, find (fun t => String.eqb (tenant_domain t) domain) (tenants db)).

(** [tx.tenant.create] followed by [tx.user.create] inside
    [db.$transaction]: when either create throws on a unique column
    ([Tenant.id], [Tenant.domain], [User.id], [User.email]) nothing is
    written. *)
Definition tenant_user_transaction (tenant : Tenant) (user : User) (db : DB)
  : DB * option (Tenant * User) :=
  if existsb (fun t => String.eqb (tenant_id t) (tenant_id tenant)
                       || String.eqb (tenant_domain t) (tenant_domain tenant))
       (tenants db)
     || existsb (fun u => String.eqb (user_id u) (user_id user)
                          || String.eqb (user_email u) (user_email user))
          (users db)
  then (db, None)
  else ({| tenants := tenants db ++ [tenant]; users := users db ++ [user];
           sites := sites db; pages := pages db; media := media db |},
        Some (tenant, user)).

End Store.

(** ** The jsonwebtoken library, symbolically *)

Module Jsonwebtoken.

(** What can follow ["Bearer "] in the header. *)
Inductive Token :=
| Malformed (raw : string)
| Signed (j : Jwt).

(** [jwt.sign(payload, secret, { expiresIn, issuer, audience })] at
    time [now], in seconds. *)
Definition sign (payload : list (string * Json)) (secret : string)
  (expiresIn : Z) (issuer audience : string) (now : Z) : Jwt :=
  {| jwt_claims := payload ++ [("iat", JNum now); ("exp", JNum (now + expiresIn));
                               ("aud", JStr audience); ("iss", JStr issuer)];
     jwt_key := secret |}.

(** The [exp] check of [jwt.verify]. *)
Definition not_expired (claims : list (string * Json)) (now : Z) : bool :=
  match prop claims "exp" with
  | None => true
  | Some (JNum exp) => negb (exp <=? now)%Z
  | Some _ => false
  end.

(** The [nbf] check of [jwt.verify]. *)
Definition active (claims : list (string * Json)) (now : Z) : bool :=
  match prop claims "nbf" with
  | None => true
  | Some (JNum nbf) => negb (now <? nbf)%Z
  | Some _ => false
  end.

(** [jwt.verify(token, secret)] with no options: the signature, the
    [nbf] claim and the expiry are checked, issuer and audience are
    not.  [None] is a thrown [JsonWebTokenError] (or one of its
    subclasses [NotBeforeError] and [TokenExpiredError]). *)
Definition verify (token : Token) (secret : string) (now : Z)
  : option (list (string * Json)) :=
  match token with
  | Malformed _ => None
  | Signed j =>
      if negb (String.eqb (jwt_key j) secret) then None
      else if negb (active (jwt_claims j) now) then None
      else if negb (not_expired (jwt_claims j) now) then None
      else Some (jwt_claims j)
  end.

End Jsonwebtoken.

(** ** middleware/auth.ts *)

Module AuthMiddleware.

Import Store.

(** The [Authorization] header of a request. *)
Inductive AuthHeader :=
| NoHeader
| OtherScheme (raw : string)
| Bearer (token : Jsonwebtoken.Token).

(** [req.tenant] *)
Record ReqTenant := {
  req_tenant_id : Id;
  req_tenant_name : string;
  req_tenant_domain : string
}.

Record JWTPayload := {
  userId : string;
  email : string;
  role : string;
  tenantId : string
}.

Section Authenticate.
Context `{Collaborators}.

Definition JWTPayloadSchema (decoded : list (string * Json)) : option JWTPayload :=
  userId <-? zstring (prop decoded "userId") ;
  email <-? (s <-? zstring (prop decoded "email") ; refine isEmail s) ;
  role <-? zstring (prop decoded "role") ;
  tenantId <-? zstring (prop decoded "tenantId") ;
  Some {| userId := userId; email := email; role := role; tenantId := tenantId |}.

Definition JWT_SECRET : string :=
  match given env_JWT_SECRET with
  | Some secret => secret
  | None => "your-super-secret-jwt-key-change-in-production"
  end.

(** [AuthMiddleware.authenticate]; [next] is the rest of the route,
    given the [req.user] and [req.tenant] the middleware has set.  A
    ZodError thrown by [JWTPayloadSchema.parse] is not a
    [JsonWebTokenError] and falls through to the last [return] of the
    [catch] block, as does the TypeError of reading [user.tenant.id]
    should the tenant row be missing. *)
Definition authenticate (authHeader : AuthHeader) (now : Z)
  (next : ReqUser -> ReqTenant -> Prog Response) : Prog Response :=
  let failed :=
    json 500 (ErrorMessage "Authentication failed"
                "Internal server error during authentication") in
  match authHeader with
  | NoHeader | OtherScheme _ =>
      Ret (json 401 (ErrorMessage "Authentication required"
                       "Please provide a valid Bearer token"))
  | Bearer token =>
      match Jsonwebtoken.verify token JWT_SECRET now with
      | None =>
          Ret (json 401 (ErrorMessage "Invalid token"
                           "JWT token is malformed or expired"))
      | Some decoded =>
          match JWTPayloadSchema decoded with
          | None => Ret failed
          | Some payload =>
              let* user := await user_findUnique_id (userId payload) in
              match user with
              | None =>
                  Ret (json 401 (ErrorMessage "Invalid token"
                                   "User not found or inactive"))
              | Some (user, None) => Ret failed
              | Some (user, Some tenant) =>
                  next {| req_user_id := user_id user;
                          req_user_email := user_email user;
                          req_user_role := user_role user;
                          req_user_tenantId := user_tenantId user |}
                       {| req_tenant_id := tenant_id tenant;
                          req_tenant_name := tenant_name tenant;
                          req_tenant_domain := tenant_domain tenant |}
              end
          end
      end
  end.

(** [AuthMiddleware.generateToken] *)
Definition generateToken (id email role tenantId : string) (now : Z) : Jwt :=
  Jsonwebtoken.sign
    [("userId", JStr id); ("email", JStr email); ("role", JStr role);
     ("tenantId", JStr tenantId)]
    JWT_SECRET 86400 "girschworks-cms" "girschworks-cms-users" now.

(** [AuthMiddleware.generateRefreshToken] *)
Definition generateRefreshToken (id : string) (now : Z) : Jwt :=
  Jsonwebtoken.sign
    [("userId", JStr id); ("type", JStr "refresh")]
    JWT_SECRET 604800 "girschworks-cms" "girschworks-cms-users" now.

End Authenticate.

(** [AuthMiddleware.requireRole(...roles)]; [next] is the rest of
    the route. *)
Definition requireRole (roles : list string) (req_user : option ReqUser)
  (next : Prog Response) : Prog Response :=
  match req_user with
  | None => Ret (json 401 (ErrorOnly "Authentication required"))
  | Some u =>
      if negb (existsb (String.eqb (req_user_role u)) roles)
      then Ret (json 403
             (ErrorMessage "Insufficient permissions"
                ("Required role: " ++ String.concat " or " roles
                 ++ ", your role: " ++ req_user_role u)))
      else next
  end.

End AuthMiddleware.

(** ** routes/pages.ts *)

Module PagesRoutes.

Import Store.

(** [/^[a-z0-9-]+$/] *)
Definition slug_char (c : ascii) : bool :=
  let n := nat_of_ascii c in
  ((97 <=? n) && (n <=? 122) || (48 <=? n) && (n <=? 57) || (n =? 45))%nat.

Definition slug_regex (s : string) : bool :=
  (1 <=? String.length s)%nat && forallb slug_char (list_ascii_of_string s).

Definition zslug (v : option Json) : option string :=
  s <-? zstring_min1 v ; refine slug_regex s.

(** [z.enum(["DRAFT", "PUBLISHED", "ARCHIVED"])] *)
Definition zstatus (v : option Json) : option PageStatus :=
  s <-? zstring v ;
  if String.eqb s "DRAFT" then Some DRAFT
  else if String.eqb s "PUBLISHED" then Some PUBLISHED
  else if String.eqb s "ARCHIVED" then Some ARCHIVED
  else None.

Record CreatePageData := {
  cp_siteId : string;
  cp_title : string;
  cp_slug : string;
  cp_content : option Json;
  cp_excerpt : option string;
  cp_status : option PageStatus;
  cp_isHomePage : option bool;
  cp_seoTitle : option string;
  cp_seoDescription : option string;
  cp_featuredImage : option string
}.

Record UpdatePageData := {
  up_title : option string;
  up_slug : option string;
  up_content : option Json;
  up_excerpt : option string;
  up_status : option PageStatus;
  up_isHomePage : option bool;
  up_seoTitle : option string;
  up_seoDescription : option string;
  up_featuredImage : option string
}.

Section Schemas.
Context `{Collaborators}.

Definition zurl (v : option Json) : option string :=
  s <-? zstring v ; refine isUrl s.

Definition CreatePageSchema (body : Json) : option CreatePageData :=
  match body with
  | JObj o =>
      siteId <-? zstring_min1 (prop o "siteId") ;
      title <-? zstring_min1 (prop o "title") ;
      slug <-? zslug (prop o "slug") ;
      content <-? zoptional zrecord_any (prop o "content") ;
      excerpt <-? zoptional zstring (prop o "excerpt") ;
      status <-? zoptional zstatus (prop o "status") ;
      isHomePage <-? zoptional zboolean (prop o "isHomePage") ;
      seoTitle <-? zoptional zstring (prop o "seoTitle") ;
      seoDescription <-? zoptional zstring (prop o "seoDescription") ;
      featuredImage <-? zoptional zurl (prop o "featuredImage") ;
      Some {| cp_siteId := siteId; cp_title := title; cp_slug := slug;
              cp_content := content; cp_excerpt := excerpt;
              cp_status := status; cp_isHomePage := isHomePage;
              cp_seoTitle := seoTitle; cp_seoDescription := seoDescription;
              cp_featuredImage := featuredImage |}
  | _ => None
  end.

(** [CreatePageSchema.partial().omit({ siteId: true })] *)
Definition UpdatePageSchema (body : Json) : option UpdatePageData :=
  match body with
  | JObj o =>
      title <-? zoptional zstring_min1 (prop o "title") ;
      slug <-? zoptional zslug (prop o "slug") ;
      content <-? zoptional zrecord_any (prop o "content") ;
      excerpt <-? zoptional zstring (prop o "excerpt") ;
      status <-? zoptional zstatus (prop o "status") ;
      isHomePage <-? zoptional zboolean (prop o "isHomePage") ;
      seoTitle <-? zoptional zstring (prop o "seoTitle") ;
      seoDescription <-? zoptional zstring (prop o "seoDescription") ;
      featuredImage <-? zoptional zurl (prop o "featuredImage") ;
      Some {| up_title := title; up_slug := slug;
              up_content := content; up_excerpt := excerpt;
              up_status := status; up_isHomePage := isHomePage;
              up_seoTitle := seoTitle; up_seoDescription := seoDescription;
              up_featuredImage := featuredImage |}
  | _ => None
  end.

End Schemas.

(** [z.object({ status: z.enum([...]) })] *)
Definition PublishPageSchema (body : Json) : option PageStatus :=
  match body with
  | JObj o => zstatus (prop o "status")
  | _ => None
  end.

(** JavaScript's [a || b] on an optional value. *)
Definition or_else {A} (a : option A) (b : A) : A :=
  match a with Some x => x | None => b end.

(** [if (data.isHomePage)] *)
Definition truthy (b : option bool) : bool := or_else b false.

Definition set_isHomePage (b : bool) (p : Page) : Page :=
  {| page_id := page_id p; page_siteId := page_siteId p;
     page_title := page_title p; page_slug := page_slug p;
     page_content := page_content p; page_excerpt := page_excerpt p;
     page_status := page_status p; page_isHomePage := b;
     page_seoTitle := page_seoTitle p;
     page_seoDescription := page_seoDescription p;
     page_featuredImage := page_featuredImage p;
     page_authorId := page_authorId p;
     page_publishedAt := page_publishedAt p |}.

(** A nullable column under [data: { field }]: [undefined] leaves
    the column as it is. *)
Definition patch {A} (new : option A) (old : option A) : option A :=
  match new with Some x => Some x | None => old end.

(** The row written by [db.page.update({ data: updateData })]:
    [updateData] is [{ ...data }], with [publishedAt] when stamped. *)
Definition apply_updateData (data : UpdatePageData) (publishedAt : option Z)
  (p : Page) : Page :=
  {| page_id := page_id p; page_siteId := page_siteId p;
     page_title := or_else (up_title data) (page_title p);
     page_slug := or_else (up_slug data) (page_slug p);
     page_content := patch (up_content data) (page_content p);
     page_excerpt := patch (up_excerpt data) (page_excerpt p);
     page_status := or_else (up_status data) (page_status p);
     page_isHomePage := or_else (up_isHomePage data) (page_isHomePage p);
     page_seoTitle := patch (up_seoTitle data) (page_seoTitle p);
     page_seoDescription := patch (up_seoDescription data) (page_seoDescription p);
     page_featuredImage := patch (up_featuredImage data) (page_featuredImage p);
     page_authorId := page_authorId p;
     page_publishedAt := patch publishedAt (page_publishedAt p) |}.

(** The row written by [PATCH /pages/:id/publish]. *)
Definition apply_status (st : PageStatus) (publishedAt : option Z)
  (p : Page) : Page :=
  {| page_id := page_id p; page_siteId := page_siteId p;
     page_title := page_title p; page_slug := page_slug p;
     page_content := page_content p; page_excerpt := page_excerpt p;
     page_status := st; page_isHomePage := page_isHomePage p;
     page_seoTitle := page_seoTitle p;
     page_seoDescription := page_seoDescription p;
     page_featuredImage := page_featuredImage p;
     page_authorId := page_authorId p;
     page_publishedAt := patch publishedAt (page_publishedAt p) |}.

Definition not_found : Response :=
  json 404 (ErrorMessage "Page not found"
    "The requested page does not exist or you don't have access to it").

Definition site_not_found : Response :=
  json 404 (ErrorMessage "Site not found"
    "The specified site does not exist or you don't have access to it").

Definition slug_exists : Response :=
  json 400 (ErrorMessage "Slug already exists"
    "A page with this slug already exists in this site").

Definition validation_error : Response := json 400 ValidationError.

Definition not_owner (message : string) : Response :=
  json 403 (ErrorMessage "Insufficient permissions" message).

Definition internal (error : string) : Response :=
  json 500 (ErrorMessage error "Internal server error").

Definition mutators : list string := ["ADMIN"; "EDITOR"; "SUPER_ADMIN"].

(** [req.query] of [GET /pages]. *)
Record PagesQuery := {
  q_siteId : option string;
  q_status : option string;
  q_search : option string
}.

Definition status_of_string (s : string) : option PageStatus :=
  zstatus (Some (JStr s)).

(** [status.toLowerCase()] *)
Definition toLowerCase (st : PageStatus) : string :=
  match st with
  | DRAFT => "draft"
  | PUBLISHED => "published"
  | ARCHIVED => "archived"
  end.

Section Handlers.
Context `{Collaborators}.

Definition matches (search : string) (field : option string) : bool :=
  match field with
  | Some text => containsInsensitive text search
  | None => false
  end.

(** The [whereClause] of [GET /pages]. *)
Definition whereClause (u : ReqUser) (q : PagesQuery)
  (st : option PageStatus) (db : DB) (p : Page) : bool :=
  siteInTenant db (page_siteId p) (req_user_tenantId u)
  && match given (q_siteId q) with
     | Some siteId => String.eqb (page_siteId p) siteId
     | None => true
     end
  && match st with
     | Some s => status_eqb (page_status p) s
     | None => true
     end
  && match given (q_search q) with
     | Some search =>
         matches search (Some (page_title p)) || matches search (page_excerpt p)
     | None => true
     end.

(** [router.get("/", authenticate, ...)]; a [status] the enum does
    not have makes the store call throw. *)
Definition get_list (u : ReqUser) (q : PagesQuery) : Prog Response :=
  match given (q_status q) with
  | None =>
      let* rows := await page_findMany (whereClause u q None) in
      Ret (json 200 (PagesBody rows))
  | Some s =>
      match status_of_string s with
      | None => Ret (internal "Failed to fetch pages")
      | Some st =>
          let* rows := await page_findMany (whereClause u q (Some st)) in
          Ret (json 200 (PagesBody rows))
      end
  end.

(** [router.get("/:id", authenticate, ...)] *)
Definition get_by_id (u : ReqUser) (id : Id) : Prog Response :=
  let* page := await page_findFirst id (req_user_tenantId u) in
  match page with
  | None => Ret not_found
  | Some p => Ret (json 200 (PageBody None p))
  end.

(** The row [db.page.create] is given by [POST /pages]. *)
Definition new_page (u : ReqUser) (data : CreatePageData) (newId : Id)
  (now : Z) : Page :=
  {| page_id := newId; page_siteId := cp_siteId data;
     page_title := cp_title data; page_slug := cp_slug data;
     page_content := cp_content data; page_excerpt := cp_excerpt data;
     page_status := or_else (cp_status data) DRAFT;
     page_isHomePage := or_else (cp_isHomePage data) false;
     page_seoTitle := cp_seoTitle data;
     page_seoDescription := cp_seoDescription data;
     page_featuredImage := cp_featuredImage data;
     page_authorId := req_user_id u;
     page_publishedAt :=
       if status_eqb (or_else (cp_status data) DRAFT) PUBLISHED
       then Some now else None |}.

(** The handler of [router.post("/", ...)].  [newId] is the id the
    store generates for the row and [now] is [new Date()]. *)
Definition post_handler (u : ReqUser) (body : Json) (newId : Id) (now : Z)
  : Prog Response :=
  match CreatePageSchema body with
  | None => Ret validation_error
  | Some data =>
      let* site := await site_findFirst (cp_siteId data) (req_user_tenantId u) in
      match site with
      | None => Ret site_not_found
      | Some _ =>
          let* existingPage :=
            await page_findUnique_siteId_slug (cp_siteId data) (cp_slug data) in
          match existingPage with
          | Some _ => Ret slug_exists
          | None =>
              let create :=
                let* page := await page_create (new_page u data newId now) in
                match page with
                | None => Ret (internal "Failed to create page")
                | Some row =>
                    Ret (json 201 (PageBody (Some "Page created successfully") row))
                end in
              if truthy (cp_isHomePage data)
              then
                let* _ := await page_updateMany
                    (fun p => String.eqb (page_siteId p) (cp_siteId data)
                              && page_isHomePage p)
                    (set_isHomePage false) in
                create
              else create
          end
      end
  end.

(** The handler of [router.put("/:id", ...)]. *)
Definition put_handler (u : ReqUser) (id : Id) (body : Json) (now : Z)
  : Prog Response :=
  match UpdatePageSchema body with
  | None => Ret validation_error
  | Some data =>
      let* existingPage := await page_findFirst id (req_user_tenantId u) in
      match existingPage with
      | None => Ret not_found
      | Some existingPage =>
          if String.eqb (req_user_role u) "EDITOR"
             && negb (String.eqb (page_authorId existingPage) (req_user_id u))
          then Ret (not_owner "You can only edit your own pages")
          else
            let write :=
              let publishedAt :=
                match up_status data with
                | Some PUBLISHED =>
                    if negb (status_eqb (page_status existingPage) PUBLISHED)
                    then Some now else None
                | _ => None
                end in
              let* page := await page_update id (apply_updateData data publishedAt) in
              match page with
              | None => Ret (internal "Failed to update page")
              | Some row =>
                  Ret (json 200 (PageBody (Some "Page updated successfully") row))
              end in
            let home :=
              if truthy (up_isHomePage data)
              then
                let* _ := await page_updateMany
                    (fun p => String.eqb (page_siteId p) (page_siteId existingPage)
                              && page_isHomePage p
                              && negb (String.eqb (page_id p) id))
                    (set_isHomePage false) in
                write
              else write in
            match given (up_slug data) with
            | Some slug =>
                if negb (String.eqb slug (page_slug existingPage))
                then
                  let* slugTaken :=
                    await page_findUnique_siteId_slug (page_siteId existingPage) slug in
                  match slugTaken with
                  | Some _ => Ret slug_exists
                  | None => home
                  end
                else home
            | None => home
            end
      end
  end.

(** The handler of [router.patch("/:id/publish", ...)]. *)
Definition publish_handler (u : ReqUser) (id : Id) (body : Json) (now : Z)
  : Prog Response :=
  match PublishPageSchema body with
  | None => Ret validation_error
  | Some st =>
      let* existingPage := await page_findFirst id (req_user_tenantId u) in
      match existingPage with
      | None => Ret not_found
      | Some existingPage =>
          if String.eqb (req_user_role u) "EDITOR"
             && negb (String.eqb (page_authorId existingPage) (req_user_id u))
          then Ret (not_owner "You can only modify your own pages")
          else
            let publishedAt :=
              if status_eqb st PUBLISHED
                 && negb (status_eqb (page_status existingPage) PUBLISHED)
              then Some now else None in
            let* page := await page_update id (apply_status st publishedAt) in
            match page with
            | None => Ret (internal "Failed to update page status")
            | Some row =>
                Ret (json 200
                  (PageBody (Some ("Page " ++ toLowerCase st ++ " successfully")%string) row))
            end
      end
  end.

(** The handler of [router.delete("/:id", ...)]. *)
Definition delete_handler (u : ReqUser) (id : Id) : Prog Response :=
  let* page := await page_findFirst id (req_user_tenantId u) in
  match page with
  | None => Ret not_found
  | Some page =>
      if String.eqb (req_user_role u) "EDITOR"
         && negb (String.eqb (page_authorId page) (req_user_id u))
      then Ret (not_owner "You can only delete your own pages")
      else
        let* deleted := await page_delete id in
        if deleted : bool
        then Ret (json 200 (Message "Page deleted successfully"))
        else Ret (internal "Failed to delete page")
  end.

(** The routes behind [AuthMiddleware.authenticate], which has set
    [req.user] to [u]. *)
Definition post (u : ReqUser) (body : Json) (newId : Id) (now : Z) :=
  AuthMiddleware.requireRole mutators (Some u) (post_handler u body newId now).

Definition put (u : ReqUser) (id : Id) (body : Json) (now : Z) :=
  AuthMiddleware.requireRole mutators (Some u) (put_handler u id body now).

Definition publish (u : ReqUser) (id : Id) (body : Json) (now : Z) :=
  AuthMiddleware.requireRole mutators (Some u) (publish_handler u id body now).

Definition delete (u : ReqUser) (id : Id) :=
  AuthMiddleware.requireRole mutators (Some u) (delete_handler u id).

End Handlers.

End PagesRoutes.

(** ** routes/media.ts *)

Module MediaRoutes.

Import Store.

Record UpdateMediaData := {
  um_filename : option string;
  um_alt : option string
}.

Definition UpdateMediaSchema (body : Json) : option UpdateMediaData :=
  match body with
  | JObj o =>
      filename <-? zoptional zstring (prop o "filename") ;
      alt <-? zoptional zstring (prop o "alt") ;
      Some {| um_filename := filename; um_alt := alt |}
  | _ => None
  end.

(** The row written by [db.media.update({ data })]. *)
Definition apply_data (data : UpdateMediaData) (m : Media) : Media :=
  {| media_id := media_id m; media_siteId := media_siteId m;
     media_filename := PagesRoutes.or_else (um_filename data) (media_filename m);
     media_originalName := media_originalName m;
     media_mimeType := media_mimeType m;
     media_size := media_size m; media_url := media_url m;
     media_alt := PagesRoutes.patch (um_alt data) (media_alt m) |}.

Definition not_found : Response :=
  json 404 (ErrorMessage "Media not found"
    "The requested media file does not exist or you don't have access to it").

Definition filename_exists : Response :=
  json 400 (ErrorMessage "Filename already exists"
    "A media file with this filename already exists in this site").

Definition documents : list string :=
  ["application/pdf"; "application/msword";
   "application/vnd.openxmlformats-officedocument.wordprocessingml.document";
   "text/plain"].

(** [req.query] of [GET /media]. *)
Record MediaQuery := {
  q_siteId : option string;
  q_type : option string;
  q_search : option string
}.

Section Handlers.
Context `{Collaborators}.

(** The [whereClause] of [GET /media]. *)
Definition whereClause (u : ReqUser) (q : MediaQuery) (db : DB) (m : Media) : bool :=
  siteInTenant db (media_siteId m) (req_user_tenantId u)
  && match given (q_siteId q) with
     | Some siteId => String.eqb (media_siteId m) siteId
     | None => true
     end
  && match given (q_type q) with
     | Some type =>
         if String.eqb type "images" then String.prefix "image/" (media_mimeType m)
         else if String.eqb type "documents"
              then existsb (String.eqb (media_mimeType m)) documents
         else if String.eqb type "videos" then String.prefix "video/" (media_mimeType m)
         else true
     | None => true
     end
  && match given (q_search q) with
     | Some search =>
         PagesRoutes.matches search (Some (media_originalName m))
         || PagesRoutes.matches search (Some (media_filename m))
         || PagesRoutes.matches search (media_alt m)
     | None => true
     end.

(** [router.get("/", authenticate, ...)]; the [grouped] and [total]
    members of the response are computed from [media]. *)
Definition get_list (u : ReqUser) (q : MediaQuery) : Prog Response :=
  let* rows := await media_findMany (whereClause u q) in
  Ret (json 200 (MediaListBody rows)).

(** [router.get("/:id", authenticate, ...)] *)
Definition get_by_id (u : ReqUser) (id : Id) : Prog Response :=
  let* found := await media_findFirst id (req_user_tenantId u) in
  match found with
  | None => Ret not_found
  | Some m => Ret (json 200 (MediaBody None m))
  end.

End Handlers.

(** The handler of [router.put("/:id", ...)]. *)
Definition put_handler (u : ReqUser) (id : Id) (body : Json) : Prog Response :=
  match UpdateMediaSchema body with
  | None => Ret PagesRoutes.validation_error
  | Some data =>
      let* existingMedia := await media_findFirst id (req_user_tenantId u) in
      match existingMedia with
      | None => Ret not_found
      | Some existingMedia =>
          let write :=
            let* row := await media_update id (apply_data data) in
            match row with
            | None => Ret (PagesRoutes.internal "Failed to update media")
            | Some m => Ret (json 200 (MediaBody (Some "Media updated successfully") m))
            end in
          match given (um_filename data) with
          | Some filename =>
              if negb (String.eqb filename (media_filename existingMedia))
              then
                let* filenameTaken :=
                  await media_findFirst_filename (media_siteId existingMedia) filename in
                match filenameTaken with
                | Some _ => Ret filename_exists
                | None => write
                end
              else write
          | None => write
          end
      end
  end.

(** The handler of [router.delete("/:id", ...)]. *)
Definition delete_handler (u : ReqUser) (id : Id) : Prog Response :=
  let* found := await media_findFirst id (req_user_tenantId u) in
  match found with
  | None => Ret not_found
  | Some _ =>
      let* deleted := await media_delete id in
      if deleted : bool
      then Ret (json 200 (Message "Media deleted successfully"))
      else Ret (PagesRoutes.internal "Failed to delete media")
  end.

Definition put (u : ReqUser) (id : Id) (body : Json) :=
  AuthMiddleware.requireRole PagesRoutes.mutators (Some u) (put_handler u id body).

Definition delete (u : ReqUser) (id : Id) :=
  AuthMiddleware.requireRole PagesRoutes.mutators (Some u) (delete_handler u id).

Record CreateMediaData := {
  cm_siteId : string;
  cm_filename : string;
  cm_originalName : string;
  cm_mimeType : string;
  cm_size : Z;
  cm_url : string;
  cm_alt : option string
}.

(** [z.number().positive(...)] *)
Definition zpositive (v : option Json) : option Z :=
  match v with
  | Some (JNum n) => if (0 <? n)%Z then Some n else None
  | _ => None
  end.

Section Create.
Context `{Collaborators}.

Definition CreateMediaSchema (body : Json) : option CreateMediaData :=
  match body with
  | JObj o =>
      siteId <-? zstring_min1 (prop o "siteId") ;
      filename <-? zstring_min1 (prop o "filename") ;
      originalName <-? zstring_min1 (prop o "originalName") ;
      mimeType <-? zstring_min1 (prop o "mimeType") ;
      size <-? zpositive (prop o "size") ;
      url <-? PagesRoutes.zurl (prop o "url") ;
      alt <-? zoptional zstring (prop o "alt") ;
      Some {| cm_siteId := siteId; cm_filename := filename;
              cm_originalName := originalName; cm_mimeType := mimeType;
              cm_size := size; cm_url := url; cm_alt := alt |}
  | _ => None
  end.

Definition new_media (data : CreateMediaData) (newId : Id) : Media :=
  {| media_id := newId; media_siteId := cm_siteId data;
     media_filename := cm_filename data;
     media_originalName := cm_originalName data;
     media_mimeType := cm_mimeType data; media_size := cm_size data;
     media_url := cm_url data; media_alt := cm_alt data |}.

(** The handler of [router.post("/", ...)]; [newId] is the id the
    store generates. *)
Definition post_handler (u : ReqUser) (body : Json) (newId : Id) : Prog Response :=
  match CreateMediaSchema body with
  | None => Ret PagesRoutes.validation_error
  | Some data =>
      let* site := await site_findFirst (cm_siteId data) (req_user_tenantId u) in
      match site with
      | None => Ret PagesRoutes.site_not_found
      | Some _ =>
          let* existingMedia :=
            await media_findFirst_filename (cm_siteId data) (cm_filename data) in
          match existingMedia with
          | Some _ => Ret filename_exists
          | None =>
              let* created := await media_create (new_media data newId) in
              match created with
              | None => Ret (PagesRoutes.internal "Failed to upload media")
              | Some m =>
                  Ret (json 201 (MediaBody (Some "Media uploaded successfully") m))
              end
          end
      end
  end.

Definition post (u : ReqUser) (body : Json) (newId : Id) :=
  AuthMiddleware.requireRole PagesRoutes.mutators (Some u) (post_handler u body newId).

End Create.

End MediaRoutes.

(** ** routes/sites.ts *)

Module SitesRoutes.

Import Store.

Record UpdateSiteData := {
  us_name : option string;
  us_domain : option string;
  us_description : option string;
  us_theme : option string;
  us_seoSettings : option Json
}.

(** One member of a parsed object, kept when it is present. *)
Definition member (key : string) (v : option Json) : list (string * Json) :=
  match v with Some j => [(key, j)] | None => [] end.

(** The [seoSettings] object schema; unknown keys are stripped. *)
Definition zseoSettings (v : option Json) : option Json :=
  match v with
  | Some (JObj o) =>
      defaultTitle <-? zoptional zstring (prop o "defaultTitle") ;
      defaultDescription <-? zoptional zstring (prop o "defaultDescription") ;
      keywords <-? zoptional zarray_string (prop o "keywords") ;
      Some (JObj (member "defaultTitle" (option_map JStr defaultTitle)
                  ++ member "defaultDescription" (option_map JStr defaultDescription)
                  ++ member "keywords" keywords))
  | _ => None
  end.

(** [CreateSiteSchema.partial()]: under [.optional()] a missing
    [theme] stays missing, the default is not applied. *)
Definition UpdateSiteSchema (body : Json) : option UpdateSiteData :=
  match body with
  | JObj o =>
      name <-? zoptional zstring_min1 (prop o "name") ;
      domain <-? zoptional zstring (prop o "domain") ;
      description <-? zoptional zstring (prop o "description") ;
      theme <-? zoptional zstring (prop o "theme") ;
      seoSettings <-? zoptional zseoSettings (prop o "seoSettings") ;
      Some {| us_name := name; us_domain := domain; us_description := description;
              us_theme := theme; us_seoSettings := seoSettings |}
  | _ => None
  end.

(** [z.object({ isPublished: z.boolean() })] *)
Definition PublishSiteSchema (body : Json) : option bool :=
  match body with
  | JObj o => zboolean (prop o "isPublished")
  | _ => None
  end.

Definition apply_data (data : UpdateSiteData) (s : Site) : Site :=
  {| site_id := site_id s; site_tenantId := site_tenantId s;
     site_name := PagesRoutes.or_else (us_name data) (site_name s);
     site_domain := PagesRoutes.patch (us_domain data) (site_domain s);
     site_description := PagesRoutes.patch (us_description data) (site_description s);
     site_theme := PagesRoutes.or_else (us_theme data) (site_theme s);
     site_seoSettings := PagesRoutes.patch (us_seoSettings data) (site_seoSettings s);
     site_isPublished := site_isPublished s |}.

Definition set_isPublished (b : bool) (s : Site) : Site :=
  {| site_id := site_id s; site_tenantId := site_tenantId s;
     site_name := site_name s; site_domain := site_domain s;
     site_description := site_description s; site_theme := site_theme s;
     site_seoSettings := site_seoSettings s; site_isPublished := b |}.

Definition not_found : Response :=
  json 404 (ErrorMessage "Site not found"
    "The requested site does not exist or you don't have access to it").

Definition domain_taken : Response :=
  json 400 (ErrorMessage "Domain already taken"
    "A site with this domain already exists").

Definition admins : list string := ["ADMIN"; "SUPER_ADMIN"].

(** [router.get("/", authenticate, ...)]; [pageCount] and
    [mediaCount] are left out of the rows. *)
Definition get_list (u : ReqUser) : Prog Response :=
  let* rows := await site_findMany (req_user_tenantId u) in
  Ret (json 200 (SitesBody rows)).

(** [router.get("/:id", authenticate, ...)] *)
Definition get_by_id (u : ReqUser) (id : Id) : Prog Response :=
  let* found := await site_findFirst_include id (req_user_tenantId u) in
  match found with
  | None => Ret not_found
  | Some (s, ps, ms) => Ret (json 200 (SiteBody None s ps ms))
  end.

(** The handler of [router.put("/:id", ...)]. *)
Definition put_handler (u : ReqUser) (id : Id) (body : Json) : Prog Response :=
  match UpdateSiteSchema body with
  | None => Ret PagesRoutes.validation_error
  | Some data =>
      let* existingSite := await site_findFirst id (req_user_tenantId u) in
      match existingSite with
      | None => Ret not_found
      | Some existingSite =>
          let write :=
            let* row := await site_update id (apply_data data) in
            match row with
            | None => Ret (PagesRoutes.internal "Failed to update site")
            | Some s =>
                Ret (json 200 (SiteBody (Some "Site updated successfully") s [] []))
            end in
          match given (us_domain data) with
          | Some domain =>
              if match site_domain existingSite with
                 | Some d => negb (String.eqb domain d)
                 | None => true
                 end
              then
                let* domainTaken := await site_findUnique_domain domain in
                match domainTaken with
                | Some _ => Ret domain_taken
                | None => write
                end
              else write
          | None => write
          end
      end
  end.

(** The handler of [router.patch("/:id/publish", ...)]. *)
Definition publish_handler (u : ReqUser) (id : Id) (body : Json) : Prog Response :=
  match PublishSiteSchema body with
  | None => Ret PagesRoutes.validation_error
  | Some isPublished =>
      let* site := await site_findFirst id (req_user_tenantId u) in
      match site with
      | None => Ret not_found
      | Some _ =>
          let* updatedSite := await site_update id (set_isPublished isPublished) in
          match updatedSite with
          | None => Ret (PagesRoutes.internal "Failed to publish site")
          | Some s =>
              Ret (json 200
                (SiteBody
                   (Some ("Site " ++ (if isPublished : bool then "published" else "unpublished")
                          ++ " successfully")%string) s [] []))
          end
      end
  end.

(** The handler of [router.delete("/:id", ...)]. *)
Definition delete_handler (u : ReqUser) (id : Id) : Prog Response :=
  let* site := await site_findFirst id (req_user_tenantId u) in
  match site with
  | None => Ret not_found
  | Some _ =>
      let* deleted := await site_delete id in
      if deleted : bool
      then Ret (json 200 (Message "Site deleted successfully"))
      else Ret (PagesRoutes.internal "Failed to delete site")
  end.

Definition put (u : ReqUser) (id : Id) (body : Json) :=
  AuthMiddleware.requireRole admins (Some u) (put_handler u id body).

Definition publish (u : ReqUser) (id : Id) (body : Json) :=
  AuthMiddleware.requireRole admins (Some u) (publish_handler u id body).

Definition delete (u : ReqUser) (id : Id) :=
  AuthMiddleware.requireRole admins (Some u) (delete_handler u id).

Record CreateSiteData := {
  cs_name : string;
  cs_domain : option string;
  cs_description : option string;
  cs_theme : string;
  cs_seoSettings : option Json
}.

(** [z.string().default("default")] *)
Definition ztheme (v : option Json) : option string :=
  match v with
  | None => Some "default"
  | Some _ => zstring v
  end.

Definition CreateSiteSchema (body : Json) : option CreateSiteData :=
  match body with
  | JObj o =>
      name <-? zstring_min1 (prop o "name") ;
      domain <-? zoptional zstring (prop o "domain") ;
      description <-? zoptional zstring (prop o "description") ;
      theme <-? ztheme (prop o "theme") ;
      seoSettings <-? zoptional zseoSettings (prop o "seoSettings") ;
      Some {| cs_name := name; cs_domain := domain; cs_description := description;
              cs_theme := theme; cs_seoSettings := seoSettings |}
  | _ => None
  end.

Section Create.
Context `{SchemaDefaults}.

(** The row of [db.site.create({ data: { ...data, tenantId } })]. *)
Definition new_site (u : ReqUser) (data : CreateSiteData) (newId : Id) : Site :=
  {| site_id := newId; site_tenantId := req_user_tenantId u;
     site_name := cs_name data; site_domain := cs_domain data;
     site_description := cs_description data; site_theme := cs_theme data;
     site_seoSettings := cs_seoSettings data;
     site_isPublished := default_site_isPublished |}.

(** The handler of [router.post("/", ...)]; [newId] is the id the
    store generates. *)
Definition post_handler (u : ReqUser) (body : Json) (newId : Id) : Prog Response :=
  match CreateSiteSchema body with
  | None => Ret PagesRoutes.validation_error
  | Some data =>
      let create :=
        let* site := await site_create (new_site u data newId) in
        match site with
        | None => Ret (PagesRoutes.internal "Failed to create site")
        | Some s =>
            Ret (json 201 (SiteBody (Some "Site created successfully") s [] []))
        end in
      match given (cs_domain data) with
      | Some domain =>
          let* existingSite := await site_findUnique_domain domain in
          match existingSite with
          | Some _ => Ret domain_taken
          | None => create
          end
      | None => create
      end
  end.

Definition post (u : ReqUser) (body : Json) (newId : Id) :=
  AuthMiddleware.requireRole admins (Some u) (post_handler u body newId).

End Create.

End SitesRoutes.

(** ** routes/auth.ts *)

Module AuthRoutes.

Import Store.

Section Login.
Context `{Collaborators}.

Definition LoginSchema (body : Json) : option (string * string) :=
  match body with
  | JObj o =>
      email <-? (s <-? zstring (prop o "email") ; refine isEmail s) ;
      password <-? zstring_min1 (prop o "password") ;
      Some (email, password)
  | _ => None
  end.

Definition invalid_credentials : Response :=
  json 401 (ErrorMessage "Invalid credentials" "Email or password is incorrect").

(** [router.post("/login", ...)]; [now] is the clock [jwt.sign] reads. *)
Definition login (body : Json) (now : Z) : Prog Response :=
  match LoginSchema body with
  | None => Ret PagesRoutes.validation_error
  | Some (email, password) =>
      let* user := await user_findUnique_email email in
      match user with
      | None => Ret invalid_credentials
      | Some (user, tenant) =>
          if negb (bcryptCompare password (user_password user))
          then Ret invalid_credentials
          else
            let accessToken :=
              AuthMiddleware.generateToken (user_id user) (user_email user)
                (user_role user) (user_tenantId user) now in
            let refreshToken := AuthMiddleware.generateRefreshToken (user_id user) now in
            match tenant with
            | None => Ret (PagesRoutes.internal "Login failed")
            | Some tenant =>
                Ret (json 200 (LoginBody user tenant accessToken refreshToken))
            end
      end
  end.

End Login.

Record RegisterData := {
  rg_email : string;
  rg_password : string;
  rg_firstName : string;
  rg_lastName : string;
  rg_tenantName : string;
  rg_tenantDomain : string
}.

Section Register.
Context `{Collaborators} `{Hashing} `{SchemaDefaults}.

(** [String.length] counts the bytes of the password where
    [z.string().min(8)] counts UTF-16 code units; the two agree on
    ASCII text, and elsewhere the byte count is the larger. *)
Definition RegisterSchema (body : Json) : option RegisterData :=
  match body with
  | JObj o =>
      email <-? (s <-? zstring (prop o "email") ; refine isEmail s) ;
      password <-? (s <-? zstring (prop o "password") ;
                    refine (fun s => 8 <=? String.length s)%nat s) ;
      firstName <-? zstring_min1 (prop o "firstName") ;
      lastName <-? zstring_min1 (prop o "lastName") ;
      tenantName <-? zstring_min1 (prop o "tenantName") ;
      tenantDomain <-? zstring_min1 (prop o "tenantDomain") ;
      Some {| rg_email := email; rg_password := password;
              rg_firstName := firstName; rg_lastName := lastName;
              rg_tenantName := tenantName; rg_tenantDomain := tenantDomain |}
  | _ => None
  end.

Definition new_tenant (data : RegisterData) (tenantId : Id) : Tenant :=
  {| tenant_id := tenantId; tenant_name := rg_tenantName data;
     tenant_domain := rg_tenantDomain data |}.

Definition new_user (data : RegisterData) (hashedPassword : string)
  (tenantId userId : Id) : User :=
  {| user_id := userId; user_email := rg_email data;
     user_password := hashedPassword;
     user_firstName := rg_firstName data; user_lastName := rg_lastName data;
     user_role := "ADMIN"; user_tenantId := tenantId;
     user_isActive := default_user_isActive |}.

(** [router.post("/register", ...)]; [tenantId] and [userId] are the
    ids the store generates, [salt] the salt bcrypt draws, [now] the
    clock [jwt.sign] reads.  The 201 body has the members of the
    login body ([user], [tenant], [tokens]); its [message] text is
    left out of the payload. *)
Definition register (body : Json) (tenantId userId : Id) (salt : string) (now : Z)
  : Prog Response :=
  match RegisterSchema body with
  | None => Ret PagesRoutes.validation_error
  | Some data =>
      let* existingUser := await user_findUnique_email_only (rg_email data) in
      match existingUser with
      | Some _ =>
          Ret (json 400 (ErrorMessage "User already exists"
                           "An account with this email already exists"))
      | None =>
          let* existingTenant := await tenant_findUnique_domain (rg_tenantDomain data) in
          match existingTenant with
          | Some _ =>
              Ret (json 400 (ErrorMessage "Domain already taken"
                               "This domain is already registered"))
          | None =>
              let* hashedPassword :=
                await (fun db => (db, bcryptHash (rg_password data) 12 salt)) in
              let* result :=
                await tenant_user_transaction (new_tenant data tenantId)
                        (new_user data hashedPassword tenantId userId) in
              match result with
              | None => Ret (PagesRoutes.internal "Registration failed")
              | Some (tenant, user) =>
                  Ret (json 201
                    (LoginBody user tenant
                       (AuthMiddleware.generateToken (user_id user) (user_email user)
                          (user_role user) (user_tenantId user) now)
                       (AuthMiddleware.generateRefreshToken (user_id user) now)))
              end
          end
      end
  end.

End Register.

End AuthRoutes.

(** * Vocabulary of the specification *)

(** The primary key of the [Page] table. *)
Definition pagesKeyed (db : DB) : Prop := NoDup (map page_id (pages db)).

Definition isHomeOf (siteId : Id) (p : Page) : bool :=
  String.eqb (page_siteId p) siteId && page_isHomePage p.

(** The home pages of a site. *)
Definition homePages (db : DB) (siteId : Id) : list Page :=
  filter (isHomeOf siteId) (pages db).

(** At most one page per site has [isHomePage = true]. *)
Definition homeSingleton (db : DB) : Prop :=
  forall siteId, length (homePages db siteId) <= 1.

(** The mutating requests of [routes/pages.ts], by an authenticated
    user. *)
Inductive PageRequest :=
| Create (u : ReqUser) (body : Json) (newId : Id) (now : Z)
| Update (u : ReqUser) (id : Id) (body : Json) (now : Z)
| Publish (u : ReqUser) (id : Id) (body : Json) (now : Z)
| Delete (u : ReqUser) (id : Id).

Definition route `{Collaborators} (r : PageRequest) : Prog Response :=
  match r with
  | Create u body newId now => PagesRoutes.post u body newId now
  | Update u id body now => PagesRoutes.put u id body now
  | Publish u id body now => PagesRoutes.publish u id body now
  | Delete u id => PagesRoutes.delete u id
  end.

(** The store after one request, and after a sequence of them. *)
Definition serve `{Collaborators} (db : DB) (r : PageRequest) : DB :=
  fst (run (route r) db).

Definition serveAll `{Collaborators} (rs : list PageRequest) (db : DB) : DB :=
  fold_left serve rs db.

(** [id] is the one home page of [siteId]. *)
Definition onlyHome (db : DB) (siteId id : Id) : Prop :=
  (exists row, In row (pages db) /\ page_id row = id
               /\ page_siteId row = siteId /\ page_isHomePage row = true)
  /\ (forall q, In q (pages db) -> page_siteId q = siteId ->
                page_isHomePage q = true -> page_id q = id).

(** One implementation of the collaborators, for running examples. *)
Definition exampleCollaborators : Collaborators :=
  {| isEmail := fun s => existsb (Ascii.eqb "@") (list_ascii_of_string s);
     isUrl := String.prefix "https://";
     bcryptCompare := fun password hash => String.eqb ("bcrypt:" ++ password) hash;
     containsInsensitive := fun text s =>
       match String.index 0 s text with Some _ => true | None => false end;
     env_JWT_SECRET := None |}.

(** A store with one tenant and one site, and an administrator of
    that tenant. *)
Definition demoSite : Site :=
  {| site_id := "s1"; site_tenantId := "acme"; site_name := "Blog";
     site_domain := None; site_description := None; site_theme := "default";
     site_seoSettings := None; site_isPublished := false |}.

Definition demoStore : DB :=
  {| tenants := [{| tenant_id := "acme"; tenant_name := "Acme";
                    tenant_domain := "acme.com" |}];
     users := []; sites := [demoSite]; pages := []; media := [] |}.

Definition demoAdmin : ReqUser :=
  {| req_user_id := "u1"; req_user_email := "a@acme.com";
     req_user_role := "ADMIN"; req_user_tenantId := "acme" |}.

Definition createBody (slug : string) (home : bool) : Json :=
  JObj [("siteId", JStr "s1"); ("title", JStr slug); ("slug", JStr slug);
        ("isHomePage", JBool home)].

(** The end of [PUT /pages/:id], from the home-page test on: the
    other home pages of the site are cleared, then the row is written. *)
Definition put_tail (id : Id) (data : PagesRoutes.UpdatePageData)
  (publishedAt : option Z) (existing : Page) : Prog Response :=
  if PagesRoutes.truthy (PagesRoutes.up_isHomePage data)
  then
    let* _ := await Store.page_updateMany
        (fun p => String.eqb (page_siteId p) (page_siteId existing)
                  && page_isHomePage p
                  && negb (String.eqb (page_id p) id))
        (PagesRoutes.set_isHomePage false) in
    let* page := await Store.page_update id
        (PagesRoutes.apply_updateData data publishedAt) in
    match page with
    | None => Ret (PagesRoutes.internal "Failed to update page")
    | Some row => Ret (json 200 (PageBody (Some "Page updated successfully") row))
    end
  else
    let* page := await Store.page_update id
        (PagesRoutes.apply_updateData data publishedAt) in
    match page with
    | None => Ret (PagesRoutes.internal "Failed to update page")
    | Some row => Ret (json 200 (PageBody (Some "Page updated successfully") row))
    end.

(** [updateData.publishedAt] of [PUT /pages/:id], when it is set. *)
Definition put_publishedAt (data : PagesRoutes.UpdatePageData)
  (existing : Page) (now : Z) : option Z :=
  match PagesRoutes.up_status data with
  | Some PUBLISHED =>
      if negb (status_eqb (page_status existing) PUBLISHED)
      then Some now else None
  | _ => None
  end.

(** [q'] is [q] after a transition that entered [PUBLISHED]. *)
Definition entered (q q' : Page) : bool :=
  status_eqb (page_status q') PUBLISHED
  && negb (status_eqb (page_status q) PUBLISHED).

(** [q'] is the row [q] with its [publishedAt] not cleared. *)
Definition kept (q q' : Page) : Prop :=
  page_id q' = page_id q
  /\ (page_publishedAt q <> None -> page_publishedAt q' <> None).

(** [publishedAt] is left alone unless the row entered [PUBLISHED],
    and is then the time of the request. *)
Definition stamped (now : Z) (q q' : Page) : Prop :=
  forall t, page_publishedAt q = Some t ->
    page_publishedAt q' = if entered q q' then Some now else Some t.

Definition isTransition (r : PageRequest) : Prop :=
  match r with
  | Update _ _ _ _ | Publish _ _ _ _ => True
  | _ => False
  end.

(** [new Date()] of a request. *)
Definition timeOf (r : PageRequest) : Z :=
  match r with
  | Create _ _ _ now | Update _ _ _ now | Publish _ _ _ now => now
  | Delete _ _ => 0
  end.

(** How a page request rewrites the rows of the page table. *)
Definition rewrites (now : Z) (db db' : DB) : Prop :=
  exists h : Page -> Page,
    pages db' = map h (pages db)
    /\ (forall q, kept q (h q))
    /\ (pagesKeyed db -> forall q, In q (pages db) -> stamped now q (h q)).

Definition publishedBody : Json :=
  JObj [("siteId", JStr "s1"); ("title", JStr "News"); ("slug", JStr "news");
        ("status", JStr "PUBLISHED")].

Definition statusBody (st : string) : Json := JObj [("status", JStr st)].

(** A page created as [PUBLISHED] at time 100, then moved to [DRAFT]
    and to [ARCHIVED]. *)
Definition archivedStore : DB :=
  serveAll (H := exampleCollaborators)
    [Create demoAdmin publishedBody "p1" 100;
     Publish demoAdmin "p1" (statusBody "DRAFT") 120;
     Publish demoAdmin "p1" (statusBody "ARCHIVED") 150] demoStore.

Definition archivedPage : Page :=
  {| page_id := "p1"; page_siteId := "s1"; page_title := "News";
     page_slug := "news"; page_content := None; page_excerpt := None;
     page_status := ARCHIVED; page_isHomePage := false;
     page_seoTitle := None; page_seoDescription := None;
     page_featuredImage := None; page_authorId := "u1";
     page_publishedAt := Some 100%Z |}.

(** The responses of a request that was turned down: a validation
    error or a conflict (400), a missing role or ownership (403), a
    resource that is not there for the caller (404). *)
Definition rejected (r : Response) : Prop :=
  status r = 400 \/ status r = 403 \/ status r = 404.

(** The role gate of the page and media mutations lets the user pass. *)
Definition mayMutate (u : ReqUser) : Prop :=
  existsb (String.eqb (req_user_role u)) PagesRoutes.mutators = true.

(** The ownership test of the page mutations lets the user pass. *)
Definition passesOwnership (u : ReqUser) (p : Page) : Prop :=
  String.eqb (req_user_role u) "EDITOR"
  && negb (String.eqb (page_authorId p) (req_user_id u)) = false.

(** A second site of the same tenant, and a store where the slug
    [news] is taken in the first site only. *)
Definition otherSite : Site :=
  {| site_id := "s2"; site_tenantId := "acme"; site_name := "Shop";
     site_domain := None; site_description := None; site_theme := "default";
     site_seoSettings := None; site_isPublished := false |}.

Definition twoSiteStore : DB :=
  with_sites archivedStore [demoSite; otherSite].

Definition newsBody (siteId : string) : Json :=
  JObj [("siteId", JStr siteId); ("title", JStr "News"); ("slug", JStr "news")].

Definition newsData (siteId : string) : PagesRoutes.CreatePageData :=
  {| PagesRoutes.cp_siteId := siteId; PagesRoutes.cp_title := "News";
     PagesRoutes.cp_slug := "news"; PagesRoutes.cp_content := None;
     PagesRoutes.cp_excerpt := None; PagesRoutes.cp_status := None;
     PagesRoutes.cp_isHomePage := None; PagesRoutes.cp_seoTitle := None;
     PagesRoutes.cp_seoDescription := None;
     PagesRoutes.cp_featuredImage := None |}.

(** The compound unique key [siteId_slug] of the [Page] table. *)
Definition slugsUnique (db : DB) : Prop :=
  forall p q, In p (pages db) -> In q (pages db) ->
    page_siteId p = page_siteId q -> page_slug p = page_slug q ->
    page_id p = page_id q.

(** The user may act on page [p] under the ownership rule. *)
Definition mayActOn (u : ReqUser) (p : Page) : Prop :=
  req_user_role u = "ADMIN" \/ req_user_role u = "SUPER_ADMIN"
  \/ (req_user_role u = "EDITOR" /\ page_authorId p = req_user_id u).

(** An editor of the same tenant who wrote none of the pages. *)
Definition otherEditor : ReqUser :=
  {| req_user_id := "u2"; req_user_email := "e@acme.com";
     req_user_role := "EDITOR"; req_user_tenantId := "acme" |}.

(** A registered user of the demo tenant, with the hash the example
    [bcryptCompare] accepts for the password [secret]. *)
Definition demoUser : User :=
  {| user_id := "u1"; user_email := "a@acme.com";
     user_password := "bcrypt:secret"; user_firstName := "Ada";
     user_lastName := "Admin"; user_role := "ADMIN";
     user_tenantId := "acme"; user_isActive := true |}.

Definition userStore : DB :=
  {| tenants := tenants demoStore; users := [demoUser];
     sites := sites demoStore; pages := []; media := [] |}.

Definition loginBody (email password : string) : Json :=
  JObj [("email", JStr email); ("password", JStr password)].

(** A media row of the demo site. *)
Definition demoMedia : Media :=
  {| media_id := "m1"; media_siteId := "s1"; media_filename := "logo.png";
     media_originalName := "Logo.png"; media_mimeType := "image/png";
     media_size := 1024; media_url := "https://cdn.example/logo.png";
     media_alt := None |}.

Definition mediaStore : DB := with_media demoStore [demoMedia].

(** Two pages of the demo site, neither the home page, and the
    requests that make one of them the home page. *)
Definition plainPage (id slug : string) : Page :=
  {| page_id := id; page_siteId := "s1"; page_title := slug;
     page_slug := slug; page_content := None; page_excerpt := None;
     page_status := DRAFT; page_isHomePage := false;
     page_seoTitle := None; page_seoDescription := None;
     page_featuredImage := None; page_authorId := "u1";
     page_publishedAt := None |}.

Definition twoPageStore : DB :=
  with_pages demoStore [plainPage "p1" "home"; plainPage "p2" "about"].

Definition homeBody : Json := JObj [("isHomePage", JBool true)].

(** Both requests reach their write before either has written. *)
Definition createsRace : list bool :=
  [true; true; true; false; false; false; true; false].

Definition updatesRace : list bool :=
  [true; true; false; false; true; false].

Definition slugRace : list bool :=
  [true; true; false; false; true; false].

(** The three kinds of tenant-owned resources and the requests that
    address one of them by id. *)
Inductive Kind := KSite | KPage | KMedia.

Inductive ByIdAction :=
| GetPage
| PutPage (body : Json) (now : Z)
| PublishPage (body : Json) (now : Z)
| DeletePage
| GetMedia
| PutMedia (body : Json)
| DeleteMedia
| GetSite
| PutSite (body : Json)
| PublishSite (body : Json)
| DeleteSite.

Definition kindOf (a : ByIdAction) : Kind :=
  match a with
  | GetPage | PutPage _ _ | PublishPage _ _ | DeletePage => KPage
  | GetMedia | PutMedia _ | DeleteMedia => KMedia
  | GetSite | PutSite _ | PublishSite _ | DeleteSite => KSite
  end.

(** The route of each request, behind [authenticate]. *)
Definition byId `{Collaborators} (u : ReqUser) (a : ByIdAction) (id : Id)
  : Prog Response :=
  match a with
  | GetPage => PagesRoutes.get_by_id u id
  | PutPage body now => PagesRoutes.put u id body now
  | PublishPage body now => PagesRoutes.publish u id body now
  | DeletePage => PagesRoutes.delete u id
  | GetMedia => MediaRoutes.get_by_id u id
  | PutMedia body => MediaRoutes.put u id body
  | DeleteMedia => MediaRoutes.delete u id
  | GetSite => SitesRoutes.get_by_id u id
  | PutSite body => SitesRoutes.put u id body
  | PublishSite body => SitesRoutes.publish u id body
  | DeleteSite => SitesRoutes.delete u id
  end.

(** The roles [requireRole] is given on the route; the reads have no
    role gate. *)
Definition gateRoles (a : ByIdAction) : option (list string) :=
  match a with
  | GetPage | GetMedia | GetSite => None
  | PutPage _ _ | PublishPage _ _ | DeletePage | PutMedia _ | DeleteMedia =>
      Some PagesRoutes.mutators
  | PutSite _ | PublishSite _ | DeleteSite => Some SitesRoutes.admins
  end.

Definition passesGate (u : ReqUser) (a : ByIdAction) : bool :=
  match gateRoles a with
  | None => true
  | Some roles => existsb (String.eqb (req_user_role u)) roles
  end.

Definition isSome {A} (x : option A) : bool :=
  match x with Some _ => true | None => false end.

(** The schema of the route accepts the body. *)
Definition bodyAccepted `{Collaborators} (a : ByIdAction) : bool :=
  match a with
  | PutPage body _ => isSome (PagesRoutes.UpdatePageSchema body)
  | PublishPage body _ => isSome (PagesRoutes.PublishPageSchema body)
  | PutMedia body => isSome (MediaRoutes.UpdateMediaSchema body)
  | PutSite body => isSome (SitesRoutes.UpdateSiteSchema body)
  | PublishSite body => isSome (SitesRoutes.PublishSiteSchema body)
  | _ => true
  end.

Definition notFound (k : Kind) : Response :=
  match k with
  | KSite => SitesRoutes.not_found
  | KPage => PagesRoutes.not_found
  | KMedia => MediaRoutes.not_found
  end.

(** What a request is answered when its resource is not there for the
    caller: the answer of the role gate, else the validation error,
    else the 404 of the resource. *)
Definition turnedDown `{Collaborators} (u : ReqUser) (a : ByIdAction) : Response :=
  if passesGate u a
  then if bodyAccepted a then notFound (kindOf a) else PagesRoutes.validation_error
  else json 403
         (ErrorMessage "Insufficient permissions"
            ("Required role: "
             ++ String.concat " or " (PagesRoutes.or_else (gateRoles a) [])
             ++ ", your role: " ++ req_user_role u)).

(** The primary keys of the three tables. *)
Definition storeKeyed (db : DB) : Prop :=
  NoDup (map site_id (sites db)) /\ pagesKeyed db
  /\ NoDup (map media_id (media db)).

(** The tenant that owns the site [siteId]. *)
Definition siteTenant (db : DB) (siteId : Id) : option Id :=
  option_map site_tenantId (Store.siteOf db siteId).

(** The resource [id] of kind [k] exists and tenant [t] owns it. *)
Definition ownedBy (db : DB) (k : Kind) (id t : Id) : Prop :=
  match k with
  | KSite => exists s, In s (sites db) /\ site_id s = id /\ site_tenantId s = t
  | KPage => exists p, In p (pages db) /\ page_id p = id
                       /\ siteTenant db (page_siteId p) = Some t
  | KMedia => exists m, In m (media db) /\ media_id m = id
                        /\ siteTenant db (media_siteId m) = Some t
  end.

(** No resource of kind [k] has the id. *)
Definition absent (db : DB) (k : Kind) (id : Id) : Prop :=
  match k with
  | KSite => forall s, In s (sites db) -> site_id s <> id
  | KPage => forall p, In p (pages db) -> page_id p <> id
  | KMedia => forall m, In m (media db) -> media_id m <> id
  end.

(** The tenant-scoped lookup of the handlers finds nothing. *)
Definition lookupFails (db : DB) (u : ReqUser) (k : Kind) (id : Id) : Prop :=
  match k with
  | KSite => snd (Store.site_findFirst id (req_user_tenantId u) db) = None
  | KPage => snd (Store.page_findFirst id (req_user_tenantId u) db) = None
  | KMedia => snd (Store.media_findFirst id (req_user_tenantId u) db) = None
  end.

(** The read requests, and the rows a response carries. *)
Inductive Read :=
| ReadPage (id : Id)
| ReadPages (q : PagesRoutes.PagesQuery)
| ReadMedia (id : Id)
| ReadMediaList (q : MediaRoutes.MediaQuery)
| ReadSite (id : Id)
| ReadSites.

Definition read `{Collaborators} (u : ReqUser) (r : Read) : Prog Response :=
  match r with
  | ReadPage id => PagesRoutes.get_by_id u id
  | ReadPages q => PagesRoutes.get_list u q
  | ReadMedia id => MediaRoutes.get_by_id u id
  | ReadMediaList q => MediaRoutes.get_list u q
  | ReadSite id => SitesRoutes.get_by_id u id
  | ReadSites => SitesRoutes.get_list u
  end.

Inductive Row :=
| SiteRow (s : Site)
| PageRow (p : Page)
| MediaRow (m : Media).

Definition returned (b : Payload) : list Row :=
  match b with
  | PageBody _ p => [PageRow p]
  | PagesBody rows => map PageRow rows
  | MediaBody _ m => [MediaRow m]
  | MediaListBody rows => map MediaRow rows
  | SiteBody _ s ps ms => SiteRow s :: map PageRow ps ++ map MediaRow ms
  | SitesBody rows =>
      flat_map (fun sp => SiteRow (fst sp) :: map PageRow (snd sp)) rows
  | _ => []
  end.

Definition tenantOfRow (db : DB) (r : Row) : option Id :=
  match r with
  | SiteRow s => Some (site_tenantId s)
  | PageRow p => siteTenant db (page_siteId p)
  | MediaRow m => siteTenant db (media_siteId m)
  end.

(** Users of another tenant. *)
Definition outsideViewer : ReqUser :=
  {| req_user_id := "v9"; req_user_email := "v@globex.com";
     req_user_role := "VIEWER"; req_user_tenantId := "globex" |}.

Definition outsideAdmin : ReqUser :=
  {| req_user_id := "a9"; req_user_email := "a@globex.com";
     req_user_role := "ADMIN"; req_user_tenantId := "globex" |}.

(** The invariant of the page table. *)
Definition Inv (db : DB) : Prop := pagesKeyed db /\ homeSingleton db.

(** [req.user] and [req.tenant] as [authenticate] builds them from
    the rows it has read. *)
Definition identityOf (usr : User) : ReqUser :=
  {| req_user_id := user_id usr; req_user_email := user_email usr;
     req_user_role := user_role usr; req_user_tenantId := user_tenantId usr |}.

Definition reqTenantOf (t : Tenant) : AuthMiddleware.ReqTenant :=
  {| AuthMiddleware.req_tenant_id := tenant_id t;
     AuthMiddleware.req_tenant_name := tenant_name t;
     AuthMiddleware.req_tenant_domain := tenant_domain t |}.

(** The primary key of the [User] table. *)
Definition usersKeyed (db : DB) : Prop := NoDup (map user_id (users db)).

Definition invalid_token : Response :=
  json 401 (ErrorMessage "Invalid token" "JWT token is malformed or expired").

(** Every request of the content routes: the requests by id, and the
    three creates. *)
Inductive Mutation :=
| ById (a : ByIdAction) (id : Id)
| NewPage (body : Json) (newId : Id) (now : Z)
| NewMedia (body : Json) (newId : Id)
| NewSite (body : Json) (newId : Id).

Definition mutate `{Collaborators} `{SchemaDefaults} (u : ReqUser) (m : Mutation)
  : Prog Response :=
  match m with
  | ById a id => byId u a id
  | NewPage body newId now => PagesRoutes.post u body newId now
  | NewMedia body newId => MediaRoutes.post u body newId
  | NewSite body newId => SitesRoutes.post u body newId
  end.

(** The roles the route of a request is gated with. *)
Definition rolesFor (m : Mutation) : option (list string) :=
  match m with
  | ById a _ => gateRoles a
  | NewPage _ _ _ | NewMedia _ _ => Some PagesRoutes.mutators
  | NewSite _ _ => Some SitesRoutes.admins
  end.

(** The answer of [requireRole] to a role that is not listed. *)
Definition insufficient (roles : list string) (u : ReqUser) : Response :=
  json 403
    (ErrorMessage "Insufficient permissions"
       ("Required role: " ++ String.concat " or " roles
        ++ ", your role: " ++ req_user_role u)).

Definition exampleDefaults : SchemaDefaults :=
  {| default_user_isActive := true; default_site_isPublished := false |}.

(** The row is in its table. *)
Definition rowIn (db : DB) (r : Row) : Prop :=
  match r with
  | SiteRow s => In s (sites db)
  | PageRow p => In p (pages db)
  | MediaRow m => In m (media db)
  end.

(** What a request of a user of tenant [tu] leaves alone: the tenant
    and user tables, and every site, page and media row that another
    tenant owns, together with its ownership. *)
Definition frame (tu : Id) (db db' : DB) : Prop :=
  tenants db' = tenants db /\ users db' = users db
  /\ (forall sid t2, siteTenant db sid = Some t2 -> t2 <> tu ->
        siteTenant db' sid = Some t2)
  /\ (forall s, In s (sites db) -> site_tenantId s <> tu -> In s (sites db'))
  /\ (forall q t2, In q (pages db) -> siteTenant db (page_siteId q) = Some t2 ->
        t2 <> tu -> In q (pages db'))
  /\ (forall m t2, In m (media db) -> siteTenant db (media_siteId m) = Some t2 ->
        t2 <> tu -> In m (media db')).

(** A store with a page and a media row of tenant [acme], seen by the
    administrator of another tenant who owns a site of their own. *)
Definition globexSite : Site :=
  {| site_id := "g1"; site_tenantId := "globex"; site_name := "Globex";
     site_domain := None; site_description := None; site_theme := "default";
     site_seoSettings := None; site_isPublished := false |}.

Definition sharedStore : DB :=
  {| tenants := tenants demoStore; users := [];
     sites := [demoSite; globexSite];
     pages := [plainPage "p1" "home"]; media := [demoMedia] |}.

(** [updateData.publishedAt] of [PATCH /pages/:id/publish], when it
    is set. *)
Definition publish_publishedAt (st : PageStatus) (existing : Page) (now : Z)
  : option Z :=
  if status_eqb st PUBLISHED && negb (status_eqb (page_status existing) PUBLISHED)
  then Some now else None.

(** The rows a page request can put in the place of the row [q]: [q]
    itself, [q] with its home flag cleared, [q] written by [PUT] (its
    home flag cleared first or not), [q] written by [PATCH publish]. *)
Inductive rewritten (now : Z) (q : Page) : Page -> Prop :=
| rewritten_same : rewritten now q q
| rewritten_cleared : rewritten now q (PagesRoutes.set_isHomePage false q)
| rewritten_put (data : PagesRoutes.UpdatePageData) (c : bool) :
    rewritten now q
      (PagesRoutes.apply_updateData data (put_publishedAt data q now)
         (if c then PagesRoutes.set_isHomePage false q else q))
| rewritten_publish (st : PageStatus) :
    rewritten now q
      (PagesRoutes.apply_status st (publish_publishedAt st q now) q).

(** Every published page carries the time of its publication. *)
Definition publishedDated (db : DB) : Prop :=
  forall p, In p (pages db) -> page_status p = PUBLISHED ->
            page_publishedAt p <> None.

(** The unique keys of the page table. *)
Definition pageKeys (db : DB) : Prop := pagesKeyed db /\ slugsUnique db.

(** A hash the example [bcryptCompare] accepts. *)
Definition exampleHashing : Hashing :=
  {| bcryptHash := fun password _ _ => ("bcrypt:" ++ password)%string |}.

Definition registerBody (email password tenantDomain : string) : Json :=
  JObj [("email", JStr email); ("password", JStr password);
        ("firstName", JStr "Grace"); ("lastName", JStr "Hopper");
        ("tenantName", JStr "Globex"); ("tenantDomain", JStr tenantDomain)].

(** The answers of [POST /auth/register] to an email or a tenant
    domain that is in use. *)
Definition user_exists : Response :=
  json 400 (ErrorMessage "User already exists"
              "An account with this email already exists").

Definition tenant_domain_taken : Response :=
  json 400 (ErrorMessage "Domain already taken"
              "This domain is already registered").

(** Every page and media row belongs to a site of the store. *)
Definition pagesHaveSites (db : DB) : Prop :=
  forall p, In p (pages db) -> In (page_siteId p) (map site_id (sites db)).

Definition mediaHaveSites (db : DB) : Prop :=
  forall m, In m (media db) -> In (media_siteId m) (map site_id (sites db)).

Definition noOrphans (db : DB) : Prop := pagesHaveSites db /\ mediaHaveSites db.

(** No two sites share a domain. *)
Definition domainsUnique (db : DB) : Prop :=
  forall s1 s2 d, In s1 (sites db) -> In s2 (sites db) ->
    site_domain s1 = Some d -> site_domain s2 = Some d -> site_id s1 = site_id s2.

Definition sitesKeyed (db : DB) : Prop :=
  NoDup (map site_id (sites db)) /\ domainsUnique db.

(** No two media rows of a site share a filename. *)
Definition filenamesUnique (db : DB) : Prop :=
  forall m1 m2, In m1 (media db) -> In m2 (media db) ->
    media_siteId m1 = media_siteId m2 -> media_filename m1 = media_filename m2 ->
    media_id m1 = media_id m2.

(** The keys and relations of the content tables. *)
Definition storeSound (db : DB) : Prop :=
  storeKeyed db /\ slugsUnique db /\ domainsUnique db /\ noOrphans db.

(** What a write to the page table, to the media table, and to the
    site table alone keeps. *)
Definition pageWrite (db db' : DB) : Prop :=
  tenants db' = tenants db /\ users db' = users db /\ sites db' = sites db
  /\ media db' = media db
  /\ (pagesHaveSites db -> pagesHaveSites db').

Definition mediaWrite (db db' : DB) : Prop :=
  tenants db' = tenants db /\ users db' = users db /\ sites db' = sites db
  /\ pages db' = pages db
  /\ (NoDup (map media_id (media db)) -> NoDup (map media_id (media db')))
  /\ (mediaHaveSites db -> mediaHaveSites db').

Definition siteWrite (db db' : DB) : Prop :=
  tenants db' = tenants db /\ users db' = users db /\ pages db' = pages db
  /\ media db' = media db
  /\ (forall sid, In sid (map site_id (sites db)) -> In sid (map site_id (sites db')))
  /\ (sitesKeyed db -> sitesKeyed db').

(** The store after a sequence of requests of the content routes,
    each with the user who sends it. *)
Definition mutateAll `{Collaborators} `{SchemaDefaults}
  (ms : list (ReqUser * Mutation)) (db : DB) : DB :=
  fold_left (fun db um => fst (run (mutate (fst um) (snd um)) db)) ms db.

(** A site of another tenant that holds a domain, and a body that
    asks for a domain. *)
Definition shopSite : Site :=
  {| site_id := "s3"; site_tenantId := "globex"; site_name := "Shop";
     site_domain := Some "shop.example"; site_description := None;
     site_theme := "default"; site_seoSettings := None; site_isPublished := true |}.

Definition domainStore : DB := with_sites demoStore [demoSite; shopSite].

Definition siteBody (name domain : string) : Json :=
  JObj [("name", JStr name); ("domain", JStr domain)].

(** The role passes the gate of the site routes. *)
Definition mayAdminister (u : ReqUser) : Prop :=
  existsb (String.eqb (req_user_role u)) SitesRoutes.admins = true.

(** The request is a [PUT /media/:id] whose body carries the empty
    filename. *)
Definition namesEmpty (m : Mutation) : bool :=
  match m with
  | ById (PutMedia body) _ =>
      match MediaRoutes.UpdateMediaSchema body with
      | Some data =>
          match MediaRoutes.um_filename data with
          | Some "" => true
          | _ => false
          end
      | None => false
      end
  | _ => false
  end.

(** Two media rows of the demo site. *)
Definition otherMedia : Media :=
  {| media_id := "m2"; media_siteId := "s1"; media_filename := "hero.png";
     media_originalName := "Hero.png"; media_mimeType := "image/png";
     media_size := 2048; media_url := "https://cdn.example/hero.png";
     media_alt := None |}.

Definition twoMediaStore : DB := with_media demoStore [demoMedia; otherMedia].

Definition filenameBody (filename : string) : Json :=
  JObj [("filename", JStr filename)].


(** The row [row] is the page [p] with the members the body of a
    [PUT /pages/:id] carries written over its columns, and every other
    column but [publishedAt] as it was. *)
Definition pageWritten (data : PagesRoutes.UpdatePageData) (p row : Page) : Prop :=
  page_id row = page_id p /\ page_siteId row = page_siteId p
  /\ page_authorId row = page_authorId p
  /\ page_title row
     = match PagesRoutes.up_title data with Some v => v | None => page_title p end
  /\ page_slug row
     = match PagesRoutes.up_slug data with Some v => v | None => page_slug p end
  /\ page_content row
     = match PagesRoutes.up_content data with
       | Some v => Some v | None => page_content p end
  /\ page_excerpt row
     = match PagesRoutes.up_excerpt data with
       | Some v => Some v | None => page_excerpt p end
  /\ page_status row
     = match PagesRoutes.up_status data with Some v => v | None => page_status p end
  /\ page_isHomePage row
     = match PagesRoutes.up_isHomePage data with
       | Some v => v | None => page_isHomePage p end
  /\ page_seoTitle row
     = match PagesRoutes.up_seoTitle data with
       | Some v => Some v | None => page_seoTitle p end
  /\ page_seoDescription row
     = match PagesRoutes.up_seoDescription data with
       | Some v => Some v | None => page_seoDescription p end
  /\ page_featuredImage row
     = match PagesRoutes.up_featuredImage data with
       | Some v => Some v | None => page_featuredImage p end.

(** The row [row] is the media row [m] with the members the body of
    a [PUT /media/:id] carries written over its columns, and every
    other column as it was. *)
Definition mediaWritten (data : MediaRoutes.UpdateMediaData) (m row : Media) : Prop :=
  media_id row = media_id m /\ media_siteId row = media_siteId m
  /\ media_originalName row = media_originalName m
  /\ media_mimeType row = media_mimeType m
  /\ media_size row = media_size m /\ media_url row = media_url m
  /\ media_filename row
     = match MediaRoutes.um_filename data with
       | Some v => v | None => media_filename m end
  /\ media_alt row
     = match MediaRoutes.um_alt data with Some v => Some v | None => media_alt m end.

(** A title for the archived page, and a new filename and
    description for the demo media row. *)
Definition titleBody (title : string) : Json := JObj [("title", JStr title)].

Definition renameBody (filename alt : string) : Json :=
  JObj [("filename", JStr filename); ("alt", JStr alt)].

(** A store whose site has a home page, and the schedule on which two
    creates are both past the slug check before either writes. *)
Definition frontPage : Page :=
  PagesRoutes.set_isHomePage true (plainPage "h0" "front").

Definition frontStore : DB := with_pages demoStore [frontPage].

Definition conflictRace : list bool := [true; true; false; false].

(** The id the store generates for a create is the id of no row. *)
Definition freshFor (r : PageRequest) (db : DB) : Prop :=
  match r with
  | Create _ _ newId _ => Store.page_id_taken newId (pages db) = false
  | _ => True
  end.

(** * Properties *)

(** ** Lists of rows *)

Section Rows.
Variables (A : Type) (key : A -> string).

Lemma filter_length_le (P : A -> bool) (l : list A) :
  length (filter P l) <= length l.
Proof.
  induction l as [|a l IH]; simpl; [lia|].
  destruct (P a); simpl; lia.
Qed.

Lemma filter_map_length_le (P Q : A -> bool) (f : A -> A) (l : list A) :
  (forall a, In a l -> Q (f a) = true -> P a = true) ->
  length (filter Q (map f l)) <= length (filter P l).
Proof.
  induction l as [|a l IH]; simpl; intros Hf; [lia|].
  assert (IH' : length (filter Q (map f l)) <= length (filter P l))
    by (apply IH; intros; apply Hf; auto).
  destruct (Q (f a)) eqn:Eq.
  - rewrite (Hf a (or_introl eq_refl) Eq). simpl. lia.
  - destruct (P a); simpl; lia.
Qed.

Lemma filter_filter_length_le (P Q : A -> bool) (l : list A) :
  length (filter P (filter Q l)) <= length (filter P l).
Proof.
  induction l as [|a l IH]; simpl; [lia|].
  destruct (Q a), (P a) eqn:Ep; simpl; rewrite ?Ep; simpl; lia.
Qed.

Lemma filter_none (P : A -> bool) (l : list A) :
  (forall a, In a l -> P a = false) -> filter P l = [].
Proof.
  induction l as [|a l IH]; simpl; intros Hn; [reflexivity|].
  rewrite (Hn a (or_introl eq_refl)). apply IH. intros; apply Hn; auto.
Qed.

Lemma keyed_unique (l : list A) (a b : A) :
  NoDup (map key l) -> In a l -> In b l -> key a = key b -> a = b.
Proof.
  induction l as [|c l IH]; simpl; intros Hnd Ha Hb Hk; [contradiction|].
  inversion Hnd as [|? ? Hnotin Hnd']; subst.
  destruct Ha as [->|Ha], Hb as [->|Hb]; auto.
  - exfalso. apply Hnotin. rewrite Hk. now apply in_map.
  - exfalso. apply Hnotin. rewrite <- Hk. now apply in_map.
Qed.

Lemma keyed_filter_le_1 (P : A -> bool) (k : string) (l : list A) :
  NoDup (map key l) ->
  (forall a, In a l -> P a = true -> key a = k) ->
  length (filter P l) <= 1.
Proof.
  induction l as [|a l IH]; simpl; intros Hnd Hk; [lia|].
  inversion Hnd as [|? ? Hnotin Hnd']; subst.
  destruct (P a) eqn:Ep.
  - rewrite filter_none; [simpl; lia|].
    intros b Hb. destruct (P b) eqn:Eb; [|reflexivity].
    exfalso. apply Hnotin.
    rewrite (Hk a (or_introl eq_refl) Ep), <- (Hk b (or_intror Hb) Eb).
    now apply in_map.
  - apply IH; auto.
Qed.

Lemma keyed_map (f : A -> A) (l : list A) :
  (forall a, key (f a) = key a) -> map key (map f l) = map key l.
Proof.
  intros Hf. rewrite map_map. apply map_ext. exact Hf.
Qed.

Lemma keyed_filter (P : A -> bool) (l : list A) :
  NoDup (map key l) -> NoDup (map key (filter P l)).
Proof.
  induction l as [|a l IH]; simpl; intros Hnd; [constructor|].
  inversion Hnd as [|? ? Hnotin Hnd']; subst.
  destruct (P a); simpl; auto.
  constructor; auto.
  intros Hin. apply Hnotin.
  apply in_map_iff in Hin. destruct Hin as (b & Hb & Hin).
  apply filter_In in Hin. rewrite <- Hb. apply in_map. tauto.
Qed.

Lemma key_not_taken (k : string) (l : list A) :
  existsb (fun a => String.eqb (key a) k) l = false -> ~ In k (map key l).
Proof.
  intros Hex Hin. apply in_map_iff in Hin. destruct Hin as (a & Ha & Hin).
  assert (existsb (fun a => String.eqb (key a) k) l = true); [|congruence].
  apply existsb_exists. exists a. split; auto. now apply String.eqb_eq.
Qed.

Lemma find_keyed (P : A -> bool) (k : string) (l : list A) (a : A) :
  NoDup (map key l) -> In a l -> key a = k -> P a = true ->
  (forall b, P b = true -> key b = k) ->
  find P l = Some a.
Proof.
  intros Hnd Hin Hk Hp Hall.
  destruct (find P l) as [b|] eqn:Ef.
  - apply find_some in Ef. destruct Ef as [Hb Hpb].
    f_equal. apply (keyed_unique l); auto.
    rewrite Hk. now apply Hall.
  - exfalso. pose proof (find_none _ _ Ef a Hin). congruence.
Qed.

End Rows.

(** ** Reasoning about handlers *)

Tactic Notation "case_find" constr(l) :=
  match goal with
  | |- context [find ?f l] => destruct (find f l) eqn:?
  end.

Lemma NoDup_snoc (A : Type) (l : list A) (a : A) :
  NoDup l -> ~ In a l -> NoDup (l ++ [a]).
Proof.
  induction l as [|b l IH]; simpl; intros Hnd Hin.
  - constructor; [tauto|constructor].
  - inversion Hnd; subst. constructor.
    + rewrite in_app_iff; simpl. intuition congruence.
    + apply IH; tauto.
Qed.

Lemma run_requireRole (roles : list string) (u : ReqUser)
  (next : Prog Response) (db : DB) :
  run (AuthMiddleware.requireRole roles (Some u) next) db =
  if existsb (String.eqb (req_user_role u)) roles then run next db
  else (db, json 403 (ErrorMessage "Insufficient permissions"
              ("Required role: " ++ String.concat " or " roles
               ++ ", your role: " ++ req_user_role u))).
Proof.
  unfold AuthMiddleware.requireRole.
  destruct (existsb _ roles); reflexivity.
Qed.

(** ** The home page of a site *)

Section HomePage.
Context `{Collaborators}.
Import PagesRoutes Store.

Lemma home_le (f : Page -> Page) (db : DB) (siteId : Id) :
  (forall p, In p (pages db) -> isHomeOf siteId (f p) = true -> isHomeOf siteId p = true) ->
  length (filter (isHomeOf siteId) (map f (pages db))) <= length (homePages db siteId).
Proof. apply filter_map_length_le. Qed.

Lemma updateMany_inv (where_ : Page -> bool) (db : DB) :
  Inv db ->
  Inv (with_pages db
         (map (fun p => if where_ p then set_isHomePage false p else p) (pages db))).
Proof.
  intros [K Hs]. split.
  - unfold pagesKeyed; simpl. rewrite keyed_map; auto.
    intros p; destruct (where_ p); reflexivity.
  - intros siteId. unfold homePages; simpl.
    etransitivity; [apply home_le|apply Hs].
    intros p _. destruct (where_ p); auto.
    unfold isHomeOf; simpl. rewrite andb_false_r. discriminate.
Qed.

Lemma create_inv (row : Page) (db : DB) :
  Inv db ->
  (page_isHomePage row = true -> homePages db (page_siteId row) = []) ->
  Inv (fst (page_create row db)).
Proof.
  intros [K Hs] Hhome. unfold page_create.
  destruct (page_id_taken _ _ || _) eqn:E; simpl; [split; auto|].
  apply orb_false_iff in E. destruct E as [Eid _].
  split.
  - unfold pagesKeyed; simpl. rewrite map_app; simpl.
    apply NoDup_snoc; auto. now apply key_not_taken.
  - intros siteId. unfold homePages; simpl.
    rewrite filter_app, length_app; simpl.
    destruct (isHomeOf siteId row) eqn:Er; simpl.
    + unfold isHomeOf in Er. apply andb_true_iff in Er. destruct Er as [Es Eh].
      apply String.eqb_eq in Es. subst siteId.
      fold (homePages db (page_siteId row)). rewrite (Hhome Eh). simpl. lia.
    + specialize (Hs siteId). unfold homePages in Hs. lia.
Qed.


Lemma update_inv_mono (id : Id) (f : Page -> Page) (db : DB) :
  Inv db ->
  (forall p, page_id (f p) = page_id p /\ page_siteId (f p) = page_siteId p) ->
  (forall p, page_isHomePage (f p) = true -> page_isHomePage p = true) ->
  Inv (fst (page_update id f db)).
Proof.
  intros [K Hs] Hf Hm. unfold page_update.
  case_find (pages db); [|split; auto].
  destruct (page_slug_taken _ _ _ _); simpl; [split; auto|].
  split.
  - unfold pagesKeyed; simpl. rewrite keyed_map; auto.
    intros q; destruct (String.eqb _ _); auto. apply Hf.
  - intros siteId. unfold homePages; simpl.
    etransitivity; [apply home_le|apply Hs].
    intros q _. destruct (String.eqb (page_id q) id); auto.
    unfold isHomeOf. rewrite !andb_true_iff.
    destruct (Hf q) as [_ ->]. intuition.
Qed.

Lemma update_inv_home (id : Id) (f : Page -> Page) (db : DB) :
  Inv db ->
  (forall p, page_id (f p) = page_id p /\ page_siteId (f p) = page_siteId p) ->
  (forall p q, In p (pages db) -> In q (pages db) ->
     page_isHomePage p = true -> page_id p <> id -> page_id q = id ->
     page_siteId p <> page_siteId q) ->
  Inv (fst (page_update id f db)).
Proof.
  intros [K Hs] Hf Hothers. unfold page_update.
  case_find (pages db); [|split; auto].
  destruct (page_slug_taken _ _ _ _); simpl; [split; auto|].
  set (g := fun p => if String.eqb (page_id p) id then f p else p).
  assert (Hg : forall p, page_id (g p) = page_id p).
  { intros q; unfold g; destruct (String.eqb _ _); auto. apply Hf. }
  assert (K' : NoDup (map page_id (map g (pages db)))) by (rewrite keyed_map; auto).
  split; [exact K'|].
  intros siteId. unfold homePages; simpl. fold g.
  destruct (existsb (fun q => String.eqb (page_id q) id
                              && String.eqb (page_siteId q) siteId) (pages db)) eqn:Ex.
  - apply existsb_exists in Ex. destruct Ex as (e & He & Ee).
    apply andb_true_iff in Ee. destruct Ee as [Eid Esite].
    apply String.eqb_eq in Eid, Esite.
    apply (keyed_filter_le_1 page_id) with (k := id); auto.
    intros q' Hq' Hhome. apply in_map_iff in Hq'. destruct Hq' as (q & <- & Hq).
    rewrite Hg. destruct (String.eqb (page_id q) id) eqn:Eq.
    + now apply String.eqb_eq.
    + exfalso. unfold g in Hhome. rewrite Eq in Hhome.
      unfold isHomeOf in Hhome. apply andb_true_iff in Hhome.
      destruct Hhome as [Hsite Hh]. apply String.eqb_eq in Hsite.
      apply String.eqb_neq in Eq.
      apply (Hothers q e); auto. congruence.
  - etransitivity; [apply home_le|apply Hs].
    intros q Hq. unfold g. destruct (String.eqb (page_id q) id) eqn:Eq; auto.
    intros Hhome. exfalso.
    unfold isHomeOf in Hhome. apply andb_true_iff in Hhome. destruct Hhome as [Hsite _].
    destruct (Hf q) as [_ Hsq]. rewrite Hsq in Hsite.
    assert (existsb (fun q => String.eqb (page_id q) id
                              && String.eqb (page_siteId q) siteId) (pages db) = true);
      [|congruence].
    apply existsb_exists. exists q. rewrite Eq, Hsite. auto.
Qed.

Lemma delete_inv (id : Id) (db : DB) : Inv db -> Inv (fst (page_delete id db)).
Proof.
  intros [K Hs]. unfold page_delete.
  destruct (page_id_taken id (pages db)); simpl; [|split; auto].
  split.
  - unfold pagesKeyed; simpl. now apply keyed_filter.
  - intros siteId. unfold homePages; simpl.
    etransitivity; [apply filter_filter_length_le|apply Hs].
Qed.

Lemma cleared_home (siteId : Id) (db : DB) :
  filter (isHomeOf siteId)
    (map (fun p => if String.eqb (page_siteId p) siteId && page_isHomePage p
                   then set_isHomePage false p else p) (pages db)) = [].
Proof.
  apply filter_none. intros q Hq.
  apply in_map_iff in Hq. destruct Hq as (p & <- & _).
  unfold isHomeOf.
  destruct (String.eqb (page_siteId p) siteId && page_isHomePage p) eqn:E; simpl; auto.
  apply andb_false_r.
Qed.

Lemma post_handler_inv u body newId now db :
  Inv db -> Inv (fst (run (post_handler u body newId now) db)).
Proof.
  intros I. unfold post_handler.
  destruct (CreatePageSchema body) as [data|]; [|exact I].
  simpl. case_find (sites db); [|exact I].
  simpl. case_find (pages db); [exact I|].
  unfold truthy.
  destruct (or_else (cp_isHomePage data) false) eqn:Eh; simpl.
  - match goal with
    | |- Inv (fst (let (_, _) := page_create ?row ?d in _)) =>
        pose proof (create_inv row (db := d)) as Hc;
        destruct (page_create row d) as [db' [r|]]
    end; simpl in *; apply Hc.
    all: try (apply updateMany_inv; exact I).
    all: intros _; unfold homePages; simpl; apply cleared_home.
  - match goal with
    | |- Inv (fst (let (_, _) := page_create ?row ?d in _)) =>
        pose proof (create_inv row (db := d)) as Hc;
        destruct (page_create row d) as [db' [r|]]
    end; simpl in *; apply Hc; auto.
    all: rewrite Eh; discriminate.
Qed.

End HomePage.

Section HomePageRoutes.
Context `{Collaborators}.
Import PagesRoutes Store.

Lemma findFirst_found (id tenantId : Id) (db : DB) (p : Page) :
  snd (page_findFirst id tenantId db) = Some p ->
  In p (pages db) /\ page_id p = id
  /\ siteInTenant db (page_siteId p) tenantId = true.
Proof.
  unfold page_findFirst; simpl. intros Hf. apply find_some in Hf.
  destruct Hf as [Hin Hc]. apply andb_true_iff in Hc. destruct Hc as [Hid Ht].
  apply String.eqb_eq in Hid. auto.
Qed.

Lemma apply_updateData_keys data at_ p :
  page_id (apply_updateData data at_ p) = page_id p
  /\ page_siteId (apply_updateData data at_ p) = page_siteId p.
Proof. split; reflexivity. Qed.

Lemma cleared_keys (c : bool) (p : Page) :
  page_id (if c then set_isHomePage false p else p) = page_id p
  /\ page_siteId (if c then set_isHomePage false p else p) = page_siteId p.
Proof. destruct c; split; reflexivity. Qed.

Lemma cleared_is_home (c : bool) (p : Page) :
  page_isHomePage (if c then set_isHomePage false p else p) = true ->
  c = false /\ page_isHomePage p = true.
Proof. destruct c; simpl; [discriminate|auto]. Qed.

(** The two last awaits of [PUT /pages/:id]: clearing the other home
    pages of the site, then writing the row. *)
Lemma put_write_inv (id : Id) (data : UpdatePageData) (at_ : option Z)
  (existing : Page) (db : DB) :
  Inv db -> In existing (pages db) -> page_id existing = id ->
  Inv (fst (run (put_tail id data at_ existing) db)).
Proof.
  intros I Hin Hid. unfold put_tail, truthy.
  destruct (or_else (up_isHomePage data) false) eqn:Eh; simpl.
  - match goal with
    | |- Inv (fst (let (_, _) := page_update ?i ?f ?d in _)) =>
        pose proof (@update_inv_home i f d) as Hu;
        destruct (page_update i f d) as [db' [r|]]
    end; simpl in *; apply Hu; clear Hu.
    all: try (apply updateMany_inv; exact I).
    all: try (intros; split; reflexivity).
    all: intros p' q' Hp' Hq' Hhome Hne Heq;
      apply in_map_iff in Hp'; destruct Hp' as (p & <- & Hp);
      apply in_map_iff in Hq'; destruct Hq' as (q & <- & Hq).
    all: rewrite (proj1 (cleared_keys _ _)) in Hne; rewrite (proj1 (cleared_keys _ _)) in Heq.
    all: rewrite !(proj2 (cleared_keys _ _)).
    all: apply cleared_is_home in Hhome; destruct Hhome as [Hc Hhome].
    all: assert (Hqe : q = existing)
      by (apply (keyed_unique page_id (pages db)); try apply I; auto; congruence).
    all: subst q; rewrite Hhome in Hc.
    all: apply String.eqb_neq in Hne; rewrite Hne in Hc; simpl in Hc.
    all: rewrite !andb_true_r in Hc; apply String.eqb_neq in Hc; exact Hc.
  - match goal with
    | |- Inv (fst (let (_, _) := page_update ?i ?f ?d in _)) =>
        pose proof (@update_inv_mono i f d) as Hu;
        destruct (page_update i f d) as [db' [r|]]
    end; simpl in *; apply Hu; auto.
    all: try (intros; split; reflexivity).
    all: intros p; simpl; destruct (up_isHomePage data) as [[|]|];
      simpl in *; congruence.
Qed.


Lemma put_handler_inv u id body now db :
  Inv db -> Inv (fst (run (put_handler u id body now) db)).
Proof.
  intros I. unfold put_handler.
  destruct (UpdatePageSchema body) as [data|]; [|exact I].
  simpl. destruct (find _ (pages db)) as [existing|] eqn:Ef; [|exact I].
  destruct (findFirst_found id (req_user_tenantId u) db Ef) as (Hin & Hid & _).
  destruct (_ && _); [exact I|].
  destruct (given (up_slug data)) as [slug|]; [|now apply put_write_inv].
  destruct (negb _); [|now apply put_write_inv].
  simpl. case_find (pages db); [exact I|now apply put_write_inv].
Qed.

Lemma publish_handler_inv u id body now db :
  Inv db -> Inv (fst (run (publish_handler u id body now) db)).
Proof.
  intros I. unfold publish_handler.
  destruct (PublishPageSchema body) as [st|]; [|exact I].
  simpl. destruct (find _ (pages db)) as [existing|] eqn:Ef; [|exact I].
  destruct (_ && _); [exact I|].
  simpl.
  match goal with
  | |- Inv (fst (let (_, _) := page_update ?i ?f ?d in _)) =>
      pose proof (@update_inv_mono i f d) as Hu;
      destruct (page_update i f d) as [db' [r|]]
  end; simpl; apply Hu; auto.
  all: intros p; try split; auto.
Qed.

Lemma delete_handler_inv u id db :
  Inv db -> Inv (fst (run (delete_handler u id) db)).
Proof.
  intros I. unfold delete_handler.
  simpl. destruct (find _ (pages db)) as [existing|] eqn:Ef; [|exact I].
  destruct (_ && _); [exact I|].
  simpl. pose proof (delete_inv id I) as Hd.
  destruct (page_delete id db) as [db' [|]]; exact Hd.
Qed.

Lemma serve_inv (r : PageRequest) (db : DB) : Inv db -> Inv (serve db r).
Proof.
  intros I. unfold serve.
  destruct r; simpl; unfold post, put, publish, delete;
    rewrite run_requireRole; destruct (existsb _ _); auto.
  - now apply post_handler_inv.
  - now apply put_handler_inv.
  - now apply publish_handler_inv.
  - now apply delete_handler_inv.
Qed.

Lemma serveAll_inv (rs : list PageRequest) (db : DB) :
  Inv db -> Inv (serveAll rs db).
Proof.
  revert db. induction rs as [|r rs IH]; intros db I; simpl; auto.
  apply IH. now apply serve_inv.
Qed.

End HomePageRoutes.

Section HomePageSet.
Context `{Collaborators}.
Import PagesRoutes Store.

Lemma post_sets_home u body newId now data db :
  CreatePageSchema body = Some data -> cp_isHomePage data = Some true ->
  status (snd (run (post u body newId now) db)) = 201 ->
  onlyHome (fst (run (post u body newId now) db)) (cp_siteId data) newId.
Proof.
  intros Hparse Hhome. unfold post. rewrite run_requireRole.
  destruct (existsb _ _); [|discriminate].
  unfold post_handler. rewrite Hparse. simpl.
  case_find (sites db); [|discriminate].
  simpl. case_find (pages db); [discriminate|].
  rewrite Hhome. simpl. unfold page_create.
  destruct (_ || _); simpl; [discriminate|]. intros _.
  split.
  - exists (new_page u data newId now). simpl. rewrite Hhome.
    repeat split; auto. apply in_or_app. right. left. reflexivity.
  - intros q Hq Hsite Hh. simpl in Hq. rewrite in_app_iff in Hq. destruct Hq as [Hq|[<-|[]]]; auto.
    exfalso. apply in_map_iff in Hq. destruct Hq as (p & <- & Hp).
    rewrite (proj2 (cleared_keys _ _)) in Hsite.
    apply cleared_is_home in Hh. destruct Hh as [Hc Hh].
    apply String.eqb_eq in Hsite. rewrite Hsite, Hh in Hc. discriminate.
Qed.

Lemma put_write_sets_home (id : Id) (data : UpdatePageData) (at_ : option Z)
  (existing : Page) (db : DB) :
  pagesKeyed db -> In existing (pages db) -> page_id existing = id ->
  up_isHomePage data = Some true ->
  status (snd (run (put_tail id data at_ existing) db)) = 200 ->
  onlyHome (fst (run (put_tail id data at_ existing) db)) (page_siteId existing) id.
Proof.
  intros K Hin Hid Hhome. unfold put_tail. rewrite Hhome. simpl.
  unfold page_update. simpl.
  match goal with
  | |- context [find ?f ?l] => destruct (find f l) as [old|] eqn:Eold
  end; [|discriminate].
  destruct (page_slug_taken _ _ _ _); simpl; [discriminate|]. intros _.
  apply find_some in Eold. destruct Eold as [Hold Eid]. apply String.eqb_eq in Eid.
  apply in_map_iff in Hold. destruct Hold as (p0 & Hp0 & Hin0).
  assert (p0 = existing).
  { apply (keyed_unique page_id (pages db)); auto.
    rewrite <- Hp0, (proj1 (cleared_keys _ _)) in Eid. congruence. }
  subst p0. split.
  - exists (apply_updateData data at_ old). repeat split.
    + apply in_map_iff. exists old. rewrite Eid, String.eqb_refl. split; auto.
      apply in_map_iff. exists existing. auto.
    + exact Eid.
    + simpl. rewrite <- Hp0. apply cleared_keys.
    + simpl. rewrite Hhome. reflexivity.
  - intros q' Hq' Hsite Hh.
    apply in_map_iff in Hq'. destruct Hq' as (q & <- & Hq).
    destruct (String.eqb (page_id q) id) eqn:Eq; [now apply String.eqb_eq in Eq|].
    exfalso.
    apply in_map_iff in Hq. destruct Hq as (p & <- & Hp).
    rewrite (proj1 (cleared_keys _ _)) in Eq.
    rewrite (proj2 (cleared_keys _ _)) in Hsite.
    apply cleared_is_home in Hh. destruct Hh as [Hc Hh].
    apply String.eqb_eq in Hsite. rewrite Hsite, Hh, Eq in Hc. discriminate.
Qed.

Lemma put_sets_home u id body now data db :
  pagesKeyed db ->
  UpdatePageSchema body = Some data -> up_isHomePage data = Some true ->
  status (snd (run (put u id body now) db)) = 200 ->
  exists siteId, onlyHome (fst (run (put u id body now) db)) siteId id.
Proof.
  intros K Hparse Hhome. unfold put. rewrite run_requireRole.
  destruct (existsb _ _); [|discriminate].
  unfold put_handler. rewrite Hparse. simpl.
  destruct (find _ (pages db)) as [existing|] eqn:Ef; [|discriminate].
  destruct (findFirst_found id (req_user_tenantId u) db Ef) as (Hin & Hid & _).
  intros Hst. exists (page_siteId existing). revert Hst.
  destruct (_ && _); [discriminate|].
  destruct (given (up_slug data)) as [slug|]; [|now apply put_write_sets_home].
  destruct (negb _); [|now apply put_write_sets_home].
  simpl. case_find (pages db); [discriminate|now apply put_write_sets_home].
Qed.

End HomePageSet.

(** C1.  Starting from a store that respects the primary key of the
    page table and has at most one home page per site, every sequence
    of page create, update, publish and delete requests leaves at most
    one home page per site; and in the store so reached a create or
    update request that sets [isHomePage = true] and succeeds leaves
    the created or updated page as the only home page of its site. *)
Theorem home_page_singleton `{Collaborators} (db : DB) (rs : list PageRequest) :
  pagesKeyed db -> homeSingleton db ->
  homeSingleton (serveAll rs db)
  /\ (forall u body newId now data,
        PagesRoutes.CreatePageSchema body = Some data ->
        PagesRoutes.cp_isHomePage data = Some true ->
        status (snd (run (PagesRoutes.post u body newId now) (serveAll rs db))) = 201 ->
        onlyHome (fst (run (PagesRoutes.post u body newId now) (serveAll rs db)))
          (PagesRoutes.cp_siteId data) newId)
  /\ (forall u id body now data,
        PagesRoutes.UpdatePageSchema body = Some data ->
        PagesRoutes.up_isHomePage data = Some true ->
        status (snd (run (PagesRoutes.put u id body now) (serveAll rs db))) = 200 ->
        exists siteId,
          onlyHome (fst (run (PagesRoutes.put u id body now) (serveAll rs db))) siteId id).
Proof.
  intros K Hs.
  destruct (serveAll_inv rs (db := db) (conj K Hs)) as [K' Hs'].
  split; [exact Hs'|split].
  - intros. now apply post_sets_home.
  - intros. now apply put_sets_home with (data := data).
Qed.

Lemma home_page_singleton_witness :
  homeSingleton
    (serveAll (H := exampleCollaborators)
       [Create demoAdmin (createBody "home" true) "p1" 10;
        Create demoAdmin (createBody "about" true) "p2" 20] demoStore)
  /\ map (fun p => (page_slug p, page_isHomePage p))
       (pages (serveAll (H := exampleCollaborators)
          [Create demoAdmin (createBody "home" true) "p1" 10;
           Create demoAdmin (createBody "about" true) "p2" 20] demoStore))
     = [("home", false); ("about", true)].
Proof.
  split; [|reflexivity].
  apply (@home_page_singleton exampleCollaborators demoStore).
  - constructor.
  - intros siteId. simpl. lia.
Defined.

(** ** The handlers of [routes/pages.ts], await by await *)

Section PagesUnfold.
Context `{Collaborators}.
Import PagesRoutes Store.

Lemma run_post_handler u body newId now db :
  run (post_handler u body newId now) db =
  match CreatePageSchema body with
  | None => (db, validation_error)
  | Some data =>
      match snd (site_findFirst (cp_siteId data) (req_user_tenantId u) db) with
      | None => (db, site_not_found)
      | Some _ =>
          match snd (page_findUnique_siteId_slug (cp_siteId data) (cp_slug data) db) with
          | Some _ => (db, slug_exists)
          | None =>
              let db1 :=
                if truthy (cp_isHomePage data)
                then fst (page_updateMany
                            (fun p => String.eqb (page_siteId p) (cp_siteId data)
                                      && page_isHomePage p)
                            (set_isHomePage false) db)
                else db in
              match snd (page_create (new_page u data newId now) db1) with
              | None => (fst (page_create (new_page u data newId now) db1),
                         internal "Failed to create page")
              | Some row =>
                  (fst (page_create (new_page u data newId now) db1),
                   json 201 (PageBody (Some "Page created successfully") row))
              end
          end
      end
  end.
Proof.
  unfold post_handler.
  destruct (CreatePageSchema body) as [data|]; [|reflexivity].
  simpl. case_find (sites db); [|reflexivity].
  simpl. case_find (pages db); [reflexivity|].
  destruct (truthy (cp_isHomePage data)); simpl;
    match goal with
    | |- context [page_create ?row ?d] => destruct (page_create row d) as [? [?|]]
    end; reflexivity.
Qed.

Lemma run_put_handler u id body now db :
  run (put_handler u id body now) db =
  match UpdatePageSchema body with
  | None => (db, validation_error)
  | Some data =>
      match snd (page_findFirst id (req_user_tenantId u) db) with
      | None => (db, not_found)
      | Some existing =>
          if String.eqb (req_user_role u) "EDITOR"
             && negb (String.eqb (page_authorId existing) (req_user_id u))
          then (db, not_owner "You can only edit your own pages")
          else
            let tail := put_tail id data (put_publishedAt data existing now) existing in
            match given (up_slug data) with
            | Some slug =>
                if negb (String.eqb slug (page_slug existing))
                then
                  match snd (page_findUnique_siteId_slug (page_siteId existing) slug db) with
                  | Some _ => (db, slug_exists)
                  | None => run tail db
                  end
                else run tail db
            | None => run tail db
            end
      end
  end.
Proof.
  unfold put_handler.
  destruct (UpdatePageSchema body) as [data|]; [|reflexivity].
  simpl. case_find (pages db); [|reflexivity].
  destruct (_ && _); [reflexivity|].
  destruct (given (up_slug data)); [|reflexivity].
  destruct (negb _); [|reflexivity].
  simpl. case_find (pages db); reflexivity.
Qed.

Lemma run_publish_handler u id body now db :
  run (publish_handler u id body now) db =
  match PublishPageSchema body with
  | None => (db, validation_error)
  | Some st =>
      match snd (page_findFirst id (req_user_tenantId u) db) with
      | None => (db, not_found)
      | Some existing =>
          if String.eqb (req_user_role u) "EDITOR"
             && negb (String.eqb (page_authorId existing) (req_user_id u))
          then (db, not_owner "You can only modify your own pages")
          else
            let at_ := if status_eqb st PUBLISHED
                          && negb (status_eqb (page_status existing) PUBLISHED)
                       then Some now else None in
            match snd (page_update id (apply_status st at_) db) with
            | None => (fst (page_update id (apply_status st at_) db),
                       internal "Failed to update page status")
            | Some row =>
                (fst (page_update id (apply_status st at_) db),
                 json 200 (PageBody
                   (Some ("Page " ++ toLowerCase st ++ " successfully")%string) row))
            end
      end
  end.
Proof.
  unfold publish_handler.
  destruct (PublishPageSchema body) as [st|]; [|reflexivity].
  simpl. case_find (pages db); [|reflexivity].
  destruct (_ && _); [reflexivity|].
  simpl.
  match goal with
  | |- context [page_update ?i ?f ?d] => destruct (page_update i f d) as [? [?|]]
  end; reflexivity.
Qed.

Lemma run_delete_handler u id db :
  run (delete_handler u id) db =
  match snd (page_findFirst id (req_user_tenantId u) db) with
  | None => (db, not_found)
  | Some page =>
      if String.eqb (req_user_role u) "EDITOR"
         && negb (String.eqb (page_authorId page) (req_user_id u))
      then (db, not_owner "You can only delete your own pages")
      else if snd (page_delete id db)
           then (fst (page_delete id db), json 200 (Message "Page deleted successfully"))
           else (fst (page_delete id db), internal "Failed to delete page")
  end.
Proof.
  unfold delete_handler.
  simpl. case_find (pages db); [|reflexivity].
  destruct (_ && _); [reflexivity|].
  simpl. destruct (page_delete id db) as [? [|]]; reflexivity.
Qed.

End PagesUnfold.

(** ** publishedAt *)

Section PublishedAt.
Context `{Collaborators}.
Import PagesRoutes Store.

Lemma entered_same (q q' : Page) :
  page_status q' = page_status q -> entered q q' = false.
Proof.
  unfold entered. intros ->. destruct (status_eqb _ _); reflexivity.
Qed.

Lemma stamped_cleared (now : Z) (c : bool) (q : Page) :
  stamped now q (if c then set_isHomePage false q else q).
Proof.
  intros t Ht. rewrite entered_same; destruct c; auto.
Qed.

Lemma stamped_put (now : Z) (data : UpdatePageData) (c : bool) (q : Page) :
  stamped now q
    (apply_updateData data (put_publishedAt data q now)
       (if c then set_isHomePage false q else q)).
Proof.
  intros t Ht. unfold entered, put_publishedAt.
  destruct c; simpl; rewrite Ht;
    destruct (up_status data) as [[| |]|]; destruct (page_status q); reflexivity.
Qed.

Lemma stamped_publish (now : Z) (st : PageStatus) (q : Page) :
  stamped now q
    (apply_status st
       (if status_eqb st PUBLISHED && negb (status_eqb (page_status q) PUBLISHED)
        then Some now else None) q).
Proof.
  intros t Ht. unfold entered. simpl. rewrite Ht.
  destruct st; destruct (page_status q); reflexivity.
Qed.

Lemma rewrites_refl (now : Z) (db : DB) : rewrites now db db.
Proof.
  exists (fun q => q). split; [symmetry; apply map_id|]. split.
  - intros q; split; auto.
  - intros _ q _ t Ht. rewrite entered_same; auto.
Qed.

Lemma page_update_pages (id : Id) (f : Page -> Page) (db : DB) :
  pages (fst (page_update id f db)) = pages db
  \/ pages (fst (page_update id f db))
     = map (fun q => if String.eqb (page_id q) id then f q else q) (pages db).
Proof.
  unfold page_update. case_find (pages db); auto.
  destruct (page_slug_taken _ _ _ _); simpl; auto.
Qed.

Lemma patch_kept (at_ : option Z) (old : option Z) :
  old <> None -> patch at_ old <> None.
Proof. destruct at_; simpl; auto. discriminate. Qed.

Lemma put_tail_rewrites id data now existing db :
  In existing (pages db) -> page_id existing = id ->
  rewrites now db
    (fst (run (put_tail id data (put_publishedAt data existing now) existing) db)).
Proof.
  intros Hin Hid.
  set (at_ := put_publishedAt data existing now).
  set (c := fun p => String.eqb (page_siteId p) (page_siteId existing)
                     && page_isHomePage p && negb (String.eqb (page_id p) id)).
  set (cl := fun p => if c p then set_isHomePage false p else p).
  assert (Hstamp : forall (k : Page -> Page),
             (forall q, k q = q \/ k q = cl q) ->
             forall h, (forall q, h q = k q
                                  \/ (page_id q = id /\ h q = apply_updateData data at_ (k q))) ->
             forall l, l = map h (pages db) ->
             exists h, l = map h (pages db)
               /\ (forall q, kept q (h q))
               /\ (pagesKeyed db -> forall q, In q (pages db) -> stamped now q (h q))).
  { intros k Hk h Hh l ->. exists h. split; [reflexivity|]. split.
    - intros q. destruct (Hh q) as [->|[_ ->]]; destruct (Hk q) as [->| ->];
        unfold cl; destruct (c q); split; simpl; auto using patch_kept.
    - intros K q Hq. destruct (Hh q) as [->|[Hqid ->]].
      + destruct (Hk q) as [->| ->]; [|apply stamped_cleared].
        apply (stamped_cleared now false).
      + assert (q = existing)
          by (apply (keyed_unique page_id (pages db)); auto; congruence).
        subst q. unfold at_.
        destruct (Hk existing) as [->| ->]; [apply (stamped_put now data false)|].
        apply stamped_put. }
  unfold rewrites, put_tail, truthy.
  destruct (or_else (up_isHomePage data) false); simpl.
  - match goal with
    | |- context [page_update ?i ?f ?d] =>
        destruct (page_update_pages i f d) as [Hp|Hp];
        destruct (page_update i f d) as [db' [r|]]
    end; simpl in *.
    all: first
      [ apply (Hstamp cl (fun q => or_intror eq_refl) cl (fun q => or_introl eq_refl));
        exact Hp
      | apply (Hstamp cl (fun q => or_intror eq_refl)
                 (fun q => if String.eqb (page_id (cl q)) id
                           then apply_updateData data at_ (cl q) else cl q));
        [ intros q; destruct (String.eqb (page_id (cl q)) id) eqn:E; auto;
          right; split; auto; apply String.eqb_eq in E;
          unfold cl in E; destruct (c q); exact E
        | rewrite Hp, map_map; reflexivity ] ].
  - match goal with
    | |- context [page_update ?i ?f ?d] =>
        destruct (page_update_pages i f d) as [Hp|Hp];
        destruct (page_update i f d) as [db' [r|]]
    end; simpl in *.
    all: first
      [ apply (Hstamp (fun q => q) (fun q => or_introl eq_refl)
                 (fun q => q) (fun q => or_introl eq_refl));
        rewrite map_id; exact Hp
      | apply (Hstamp (fun q => q) (fun q => or_introl eq_refl)
                 (fun q => if String.eqb (page_id q) id
                           then apply_updateData data at_ q else q));
        [ intros q; destruct (String.eqb (page_id q) id) eqn:E; auto;
          right; split; auto; now apply String.eqb_eq in E
        | exact Hp ] ].
Qed.


Lemma serve_rewrites (r : PageRequest) (db : DB) :
  isTransition r -> rewrites (timeOf r) db (serve db r).
Proof.
  destruct r as [| u id body now | u id body now |]; simpl; try contradiction; intros _.
  - unfold serve; simpl. unfold put. rewrite run_requireRole.
    destruct (existsb _ _); [|apply rewrites_refl].
    rewrite run_put_handler.
    destruct (UpdatePageSchema body) as [data|]; [|apply rewrites_refl].
    destruct (snd (page_findFirst _ _ _)) as [existing|] eqn:Ef; [|apply rewrites_refl].
    destruct (findFirst_found _ _ _ Ef) as (Hin & Hid & _).
    destruct (_ && _); [apply rewrites_refl|]. cbv zeta.
    destruct (given (up_slug data)); [|now apply put_tail_rewrites].
    destruct (negb _); [|now apply put_tail_rewrites].
    destruct (snd (page_findUnique_siteId_slug _ _ _));
      [apply rewrites_refl|now apply put_tail_rewrites].
  - unfold serve; simpl. unfold publish. rewrite run_requireRole.
    destruct (existsb _ _); [|apply rewrites_refl].
    rewrite run_publish_handler.
    destruct (PublishPageSchema body) as [st|]; [|apply rewrites_refl].
    destruct (snd (page_findFirst _ _ _)) as [existing|] eqn:Ef; [|apply rewrites_refl].
    destruct (findFirst_found _ _ _ Ef) as (Hin & Hid & _).
    destruct (_ && _); [apply rewrites_refl|]. cbv zeta.
    match goal with
    | |- context [page_update ?i ?f ?d] =>
        destruct (page_update_pages i f d) as [Hp|Hp];
        destruct (page_update i f d) as [db' [r|]]
    end; simpl in *.
    1, 2: (exists (fun q => q); rewrite map_id; split; [exact Hp|];
           split; [intros q; split; auto|];
           intros _ q _ t Ht; rewrite entered_same; auto).
    all: eexists; split; [exact Hp|]; split.
    all: try (intros q; destruct (String.eqb (page_id q) id); split; simpl;
              auto using patch_kept).
    all: intros K q Hq; destruct (String.eqb (page_id q) id) eqn:E;
      [|apply (stamped_cleared now false)].
    all: apply String.eqb_eq in E;
      assert (q = existing)
        by (apply (keyed_unique page_id (pages db)); auto; congruence);
      subst q; apply stamped_publish.
Qed.

Lemma serveAll_kept (rs : list PageRequest) (db : DB) :
  Forall isTransition rs ->
  exists h, pages (serveAll rs db) = map h (pages db) /\ forall q, kept q (h q).
Proof.
  revert db. induction rs as [|r rs IH]; intros db Hall.
  - exists (fun q => q). split; [symmetry; apply map_id|]. intros q; split; auto.
  - inversion Hall as [|? ? Hr Hrs]; subst. simpl.
    destruct (serve_rewrites r db Hr) as (h1 & E1 & K1 & _).
    destruct (IH (serve db r) Hrs) as (h2 & E2 & K2).
    exists (fun q => h2 (h1 q)). split.
    + unfold serveAll in *. rewrite E2, E1, map_map. reflexivity.
    + intros q. destruct (K1 q) as [I1 P1], (K2 (h1 q)) as [I2 P2].
      split; [congruence|auto].
Qed.

End PublishedAt.

(** C3, as the code has it.  A page whose [publishedAt] is set keeps a
    set [publishedAt] through every sequence of update and publish
    requests; one such request leaves the timestamp as it was unless
    it moves the page from a status other than [PUBLISHED] into
    [PUBLISHED], and then the timestamp becomes the time of that
    request. *)
Theorem publishedAt_kept_or_restamped `{Collaborators} :
  (forall db r p t,
      isTransition r -> pagesKeyed db ->
      In p (pages db) -> page_publishedAt p = Some t ->
      (exists p', In p' (pages (serve db r)) /\ page_id p' = page_id p)
      /\ (forall p', In p' (pages (serve db r)) -> page_id p' = page_id p ->
            page_publishedAt p'
            = if entered p p' then Some (timeOf r) else Some t))
  /\ (forall db rs p,
        Forall isTransition rs ->
        In p (pages db) -> page_publishedAt p <> None ->
        exists p', In p' (pages (serveAll rs db))
                   /\ page_id p' = page_id p /\ page_publishedAt p' <> None).
Proof.
  split.
  - intros db r p t Hr K Hp Ht.
    destruct (serve_rewrites r db Hr) as (h & E & Hk & Hs). split.
    + exists (h p). rewrite E. split; [now apply in_map|apply Hk].
    + intros p' Hp' Hid. rewrite E in Hp'.
      apply in_map_iff in Hp'. destruct Hp' as (q & <- & Hq).
      assert (q = p).
      { apply (keyed_unique page_id (pages db)); auto.
        destruct (Hk q) as [Hkq _]. congruence. }
      subst q. now apply Hs.
  - intros db rs p Hall Hp Hset.
    destruct (serveAll_kept db Hall) as (h & E & Hk).
    exists (h p). rewrite E. destruct (Hk p) as [Hid Hkept].
    split; [now apply in_map|]. split; auto.
Qed.

Lemma publishedAt_kept_or_restamped_witness :
  pages archivedStore = [archivedPage]
  /\ forall p',
      In p' (pages (serve (H := exampleCollaborators) archivedStore
                      (Publish demoAdmin "p1" (statusBody "PUBLISHED") 200))) ->
      page_id p' = "p1" ->
      page_publishedAt p'
      = if entered archivedPage p' then Some 200%Z else Some 100%Z.
Proof.
  split; [reflexivity|].
  apply (proj1 (@publishedAt_kept_or_restamped exampleCollaborators)
           archivedStore (Publish demoAdmin "p1" (statusBody "PUBLISHED") 200)
           archivedPage 100%Z).
  - exact I.
  - vm_compute. constructor; [intros []|constructor].
  - vm_compute. left. reflexivity.
  - reflexivity.
Defined.

(** The claim of C3 fails on a republish: the page of [archivedStore]
    was first published at time 100, and publishing it again at time
    200 overwrites the timestamp. *)
Lemma publishedAt_restamped_on_republish :
  map page_publishedAt (pages archivedStore) = [Some 100%Z]
  /\ map page_status (pages archivedStore) = [ARCHIVED]
  /\ map page_publishedAt
       (pages (serve (H := exampleCollaborators) archivedStore
                 (Publish demoAdmin "p1" (statusBody "PUBLISHED") 200)))
     = [Some 200%Z]
  /\ map page_publishedAt
       (pages (serve (H := exampleCollaborators) archivedStore
                 (Update demoAdmin "p1" (statusBody "PUBLISHED") 300)))
     = [Some 300%Z].
Proof. repeat split; reflexivity. Qed.

(** ** Requests that are turned down *)

Section Rejected.
Context `{Collaborators}.
Import PagesRoutes Store.

Lemma put_tail_status id data at_ existing db :
  status (snd (run (put_tail id data at_ existing) db)) = 200
  \/ status (snd (run (put_tail id data at_ existing) db)) = 500.
Proof.
  unfold put_tail. destruct (truthy _); simpl;
    match goal with
    | |- context [page_update ?i ?f ?d] => destruct (page_update i f d) as [? [?|]]
    end; simpl; auto.
Qed.

Lemma not_rejected (r : Response) :
  status r = 200 \/ status r = 201 \/ status r = 500 -> ~ rejected r.
Proof. unfold rejected. intros H1 H2. lia. Qed.

Lemma post_rejected u body newId now db :
  rejected (snd (run (post u body newId now) db)) ->
  fst (run (post u body newId now) db) = db.
Proof.
  unfold post. rewrite run_requireRole.
  destruct (existsb _ _); [|reflexivity].
  rewrite run_post_handler.
  destruct (CreatePageSchema body) as [data|]; [|reflexivity].
  destruct (snd (site_findFirst _ _ _)); [|reflexivity].
  destruct (snd (page_findUnique_siteId_slug _ _ _)); [reflexivity|].
  cbv zeta. destruct (snd (page_create _ _)); simpl; intros Hr;
    exfalso; revert Hr; apply not_rejected; simpl; auto.
Qed.

Lemma put_rejected u id body now db :
  rejected (snd (run (put u id body now) db)) ->
  fst (run (put u id body now) db) = db.
Proof.
  unfold put. rewrite run_requireRole.
  destruct (existsb _ _); [|reflexivity].
  rewrite run_put_handler.
  destruct (UpdatePageSchema body) as [data|]; [|reflexivity].
  destruct (snd (page_findFirst _ _ _)) as [existing|]; [|reflexivity].
  destruct (_ && _); [reflexivity|]. cbv zeta.
  assert (Htail : forall at_,
             rejected (snd (run (put_tail id data at_ existing) db)) ->
             fst (run (put_tail id data at_ existing) db) = db).
  { intros at_ Hr. exfalso. revert Hr. apply not_rejected.
    destruct (put_tail_status id data at_ existing db); auto. }
  destruct (given (up_slug data)); [|apply Htail].
  destruct (negb _); [|apply Htail].
  destruct (snd (page_findUnique_siteId_slug _ _ _)); [reflexivity|apply Htail].
Qed.

End Rejected.

(** C6, on the code.  Run with nothing else in flight, a page create
    or update that is answered with a validation error, a not-found, a
    missing permission or a slug conflict leaves the store as it was:
    every check comes before the first write.  With a second request
    in flight it does not, for the handlers await the store call by
    call with no transaction around the calls.  Two creates of one
    slug that both set the home page, both past the slug check before
    either writes: the first is answered 201; the second clears the
    home flag of the page the first has just created, then its
    [create] throws on the compound key and it is answered 500.  The
    failed request has left the site without a home page.  Run one
    after the other, the second is answered with the slug conflict
    and the page of the first keeps its flag. *)
Theorem failed_page_request_is_atomic_only_alone `{Collaborators}
  (db : DB) (u : ReqUser) (id newId : Id) (body : Json) (now : Z) :
  ((rejected (snd (run (PagesRoutes.post u body newId now) db)) ->
    fst (run (PagesRoutes.post u body newId now) db) = db)
   /\ (rejected (snd (run (PagesRoutes.put u id body now) db)) ->
       fst (run (PagesRoutes.put u id body now) db) = db))
  /\ (let '(db', (rA, rB)) :=
        interleave conflictRace
          (PagesRoutes.post (H := exampleCollaborators) demoAdmin
             (createBody "news" true) "p1" 10)
          (PagesRoutes.post (H := exampleCollaborators) demoAdmin
             (createBody "news" true) "p2" 11)
          frontStore in
      status rA = 201
      /\ rB = PagesRoutes.internal "Failed to create page"
      /\ map (fun p => (page_id p, page_isHomePage p)) (pages db')
         = [("h0", false); ("p1", false)])
  /\ (let '(db', (rA, rB)) :=
        interleave []
          (PagesRoutes.post (H := exampleCollaborators) demoAdmin
             (createBody "news" true) "p1" 10)
          (PagesRoutes.post (H := exampleCollaborators) demoAdmin
             (createBody "news" true) "p2" 11)
          frontStore in
      status rA = 201
      /\ rB = PagesRoutes.slug_exists
      /\ map (fun p => (page_id p, page_isHomePage p)) (pages db')
         = [("h0", false); ("p1", true)]).
Proof.
  split; [split; [apply post_rejected|apply put_rejected]|].
  vm_compute. repeat split; reflexivity.
Qed.

Lemma failed_page_request_is_atomic_only_alone_witness :
  snd (run (PagesRoutes.post (H := exampleCollaborators) demoAdmin publishedBody "p2" 300)
         archivedStore) = PagesRoutes.slug_exists
  /\ fst (run (PagesRoutes.post (H := exampleCollaborators) demoAdmin publishedBody "p2" 300)
            archivedStore) = archivedStore.
Proof.
  split; [reflexivity|].
  apply (proj1 (proj1 (@failed_page_request_is_atomic_only_alone exampleCollaborators
                         archivedStore demoAdmin "p1" "p2" publishedBody 300%Z))).
  left. reflexivity.
Defined.

(** ** Slugs *)

Section Slugs.
Context `{Collaborators}.
Import PagesRoutes Store.

Lemma find_none_iff (A : Type) (P : A -> bool) (l : list A) :
  (forall a, In a l -> P a = false) -> find P l = None.
Proof.
  intros Hn. destruct (find P l) as [a|] eqn:E; [|reflexivity].
  apply find_some in E. destruct E as [Hin Hp]. rewrite (Hn a Hin) in Hp.
  discriminate.
Qed.

Lemma find_is_some (A : Type) (P : A -> bool) (l : list A) (a : A) :
  In a l -> P a = true -> find P l <> None.
Proof.
  intros Hin Hp E. pose proof (find_none _ _ E a Hin). congruence.
Qed.

Lemma existsb_false (A : Type) (P : A -> bool) (l : list A) :
  (forall a, In a l -> P a = false) -> existsb P l = false.
Proof.
  intros Hn. destruct (existsb P l) eqn:E; [|reflexivity].
  apply existsb_exists in E. destruct E as (a & Hin & Hp).
  rewrite (Hn a Hin) in Hp. discriminate.
Qed.

Lemma UpdatePageSchema_slug body data slug :
  UpdatePageSchema body = Some data -> up_slug data = Some slug -> slug <> "".
Proof.
  unfold UpdatePageSchema. destruct body as [| | | | |o]; try discriminate.
  unfold obind.
  destruct (zoptional zstring_min1 _); [|discriminate].
  destruct (zoptional zslug (prop o "slug")) as [oslug|] eqn:Eslug; [|discriminate].
  repeat match goal with
         | |- context [match ?x with Some _ => _ | None => _ end] =>
             destruct x; try discriminate
         end.
  intros [= <-]. simpl. intros ->.
  unfold zoptional, zslug, zstring_min1, zstring, refine, obind in Eslug.
  destruct (prop o "slug") as [[| | |s| |]|]; try discriminate.
  destruct s as [|c s']; [discriminate|].
  replace ((1 <=? String.length (String c s'))%nat) with true in Eslug by reflexivity.
  destruct (slug_regex (String c s')); [|discriminate].
  injection Eslug as <-. discriminate.
Qed.

Lemma post_conflict u body newId now data p db :
  mayMutate u ->
  CreatePageSchema body = Some data ->
  snd (site_findFirst (cp_siteId data) (req_user_tenantId u) db) <> None ->
  In p (pages db) -> page_siteId p = cp_siteId data -> page_slug p = cp_slug data ->
  run (post u body newId now) db = (db, slug_exists).
Proof.
  intros Hgate Hparse Hsite Hin Hps Hpl.
  unfold post. rewrite run_requireRole, Hgate, run_post_handler, Hparse.
  destruct (snd (site_findFirst _ _ _)); [|congruence].
  destruct (snd (page_findUnique_siteId_slug _ _ _)) eqn:E; [reflexivity|].
  exfalso. revert E. simpl. apply find_is_some with (a := p); auto.
  rewrite Hps, Hpl, !String.eqb_refl. reflexivity.
Qed.

Lemma post_other_site u body newId now data db :
  mayMutate u ->
  CreatePageSchema body = Some data ->
  snd (site_findFirst (cp_siteId data) (req_user_tenantId u) db) <> None ->
  (forall p, In p (pages db) -> page_siteId p = cp_siteId data ->
             page_slug p <> cp_slug data) ->
  (forall p, In p (pages db) -> page_id p <> newId) ->
  status (snd (run (post u body newId now) db)) = 201
  /\ In (new_page u data newId now) (pages (fst (run (post u body newId now) db))).
Proof.
  intros Hgate Hparse Hsite Hfree Hfresh.
  unfold post. rewrite run_requireRole, Hgate, run_post_handler, Hparse.
  destruct (snd (site_findFirst _ _ _)); [|congruence].
  assert (Hnone : snd (page_findUnique_siteId_slug (cp_siteId data) (cp_slug data) db) = None).
  { simpl. apply find_none_iff. intros p Hp.
    destruct (String.eqb (page_siteId p) (cp_siteId data)) eqn:Es; auto.
    apply String.eqb_eq in Es. simpl. apply String.eqb_neq. auto. }
  rewrite Hnone. cbv zeta.
  set (db1 := if truthy (cp_isHomePage data) then _ else db).
  assert (Hrows : forall q, In q (pages db1) ->
             exists p, In p (pages db) /\ page_id q = page_id p
                       /\ page_siteId q = page_siteId p /\ page_slug q = page_slug p).
  { subst db1. destruct (truthy _); simpl; intros q Hq.
    - apply in_map_iff in Hq. destruct Hq as (p & <- & Hp). exists p.
      destruct (_ && _); auto.
    - exists q; auto. }
  unfold page_create.
  replace (page_id_taken _ _ || page_slug_taken _ _ _ _) with false.
  - simpl. split; auto. apply in_or_app. right. left. reflexivity.
  - symmetry. apply orb_false_iff. split; apply existsb_false; intros q Hq;
      destruct (Hrows q Hq) as (p & Hp & Ei & Es & El); simpl.
    + rewrite Ei. apply String.eqb_neq. auto.
    + rewrite Ei, Es, El.
      destruct (String.eqb (page_siteId p) (cp_siteId data)) eqn:E;
        [|rewrite andb_false_r; reflexivity].
      apply String.eqb_eq in E.
      replace (String.eqb (page_slug p) (cp_slug data)) with false;
        [apply andb_false_r|].
      symmetry. apply String.eqb_neq. auto.
Qed.

Lemma put_slug_check u id body now data existing db :
  mayMutate u ->
  UpdatePageSchema body = Some data ->
  snd (page_findFirst id (req_user_tenantId u) db) = Some existing ->
  passesOwnership u existing ->
  let tail := put_tail id data (put_publishedAt data existing now) existing in
  ((up_slug data = None \/ up_slug data = Some (page_slug existing)) ->
   run (put u id body now) db = run tail db)
  /\ (forall slug, up_slug data = Some slug -> slug <> page_slug existing ->
        ((exists q, In q (pages db) /\ page_siteId q = page_siteId existing
                    /\ page_slug q = slug) ->
         run (put u id body now) db = (db, slug_exists))
        /\ ((forall q, In q (pages db) -> page_siteId q = page_siteId existing ->
                       page_slug q <> slug) ->
            run (put u id body now) db = run tail db))
  /\ snd (run tail db) <> slug_exists.
Proof.
  intros Hgate Hparse Hfound Hown tail.
  assert (Hput : run (put u id body now) db =
            match given (up_slug data) with
            | Some slug =>
                if negb (String.eqb slug (page_slug existing))
                then
                  match snd (page_findUnique_siteId_slug (page_siteId existing) slug db) with
                  | Some _ => (db, slug_exists)
                  | None => run tail db
                  end
                else run tail db
            | None => run tail db
            end).
  { unfold post, put. rewrite run_requireRole, Hgate, run_put_handler, Hparse, Hfound.
    unfold passesOwnership in Hown. rewrite Hown. reflexivity. }
  split; [|split].
  - intros [E|E]; rewrite Hput, E; simpl; [reflexivity|].
    destruct (page_slug existing); [reflexivity|].
    unfold given. rewrite String.eqb_refl. reflexivity.
  - intros slug E Hne. rewrite Hput, E.
    assert (Hg : given (Some slug) = Some slug).
    { pose proof (UpdatePageSchema_slug _ Hparse E). destruct slug; [congruence|reflexivity]. }
    rewrite Hg. apply String.eqb_neq in Hne. rewrite Hne. simpl. split.
    + intros (q & Hq & Es & El).
      match goal with
      | |- context [find ?f ?l] => destruct (find f l) eqn:Ef
      end; [reflexivity|].
      exfalso. revert Ef. apply find_is_some with (a := q); auto.
      rewrite Es, El, !String.eqb_refl. reflexivity.
    + intros Hfree. rewrite find_none_iff; [reflexivity|].
      intros q Hq. destruct (String.eqb (page_siteId q) (page_siteId existing)) eqn:Es; auto.
      apply String.eqb_eq in Es. simpl. apply String.eqb_neq. auto.
  - intros E. destruct (put_tail_status id data (put_publishedAt data existing now) existing db)
      as [E2|E2]; fold tail in E2; rewrite E in E2; discriminate.
Qed.

End Slugs.

(** C7.  For a user the role gate lets through: creating a page whose
    slug an existing page of the same site holds is answered with the
    slug conflict and changes nothing; it succeeds when no page of that
    site holds the slug, whatever pages of other sites hold it.  On
    update, the handler goes straight to the write when no slug is
    supplied or the slug is the page's own, and looks the slug up in
    the page's site only when it is supplied and differs. *)
Theorem slug_unique_within_site `{Collaborators} (db : DB) (u : ReqUser) :
  mayMutate u ->
  (forall body newId now data,
      PagesRoutes.CreatePageSchema body = Some data ->
      snd (Store.site_findFirst (PagesRoutes.cp_siteId data) (req_user_tenantId u) db)
        <> None ->
      (forall p, In p (pages db) ->
                 page_siteId p = PagesRoutes.cp_siteId data ->
                 page_slug p = PagesRoutes.cp_slug data ->
                 run (PagesRoutes.post u body newId now) db
                 = (db, PagesRoutes.slug_exists))
      /\ ((forall p, In p (pages db) ->
                     page_siteId p = PagesRoutes.cp_siteId data ->
                     page_slug p <> PagesRoutes.cp_slug data) ->
          (forall p, In p (pages db) -> page_id p <> newId) ->
          status (snd (run (PagesRoutes.post u body newId now) db)) = 201
          /\ In (PagesRoutes.new_page u data newId now)
                (pages (fst (run (PagesRoutes.post u body newId now) db)))))
  /\ (forall id body now data existing,
        PagesRoutes.UpdatePageSchema body = Some data ->
        snd (Store.page_findFirst id (req_user_tenantId u) db) = Some existing ->
        passesOwnership u existing ->
        let tail := put_tail id data (put_publishedAt data existing now) existing in
        ((PagesRoutes.up_slug data = None
          \/ PagesRoutes.up_slug data = Some (page_slug existing)) ->
         run (PagesRoutes.put u id body now) db = run tail db)
        /\ (forall slug,
              PagesRoutes.up_slug data = Some slug -> slug <> page_slug existing ->
              ((exists q, In q (pages db) /\ page_siteId q = page_siteId existing
                          /\ page_slug q = slug) ->
               run (PagesRoutes.put u id body now) db = (db, PagesRoutes.slug_exists))
              /\ ((forall q, In q (pages db) ->
                             page_siteId q = page_siteId existing ->
                             page_slug q <> slug) ->
                  run (PagesRoutes.put u id body now) db = run tail db))
        /\ snd (run tail db) <> PagesRoutes.slug_exists).
Proof.
  intros Hgate. split.
  - intros body newId now data Hparse Hsite. split.
    + intros p Hp Es El. now apply post_conflict with (data := data) (p := p).
    + intros Hfree Hfresh. now apply post_other_site.
  - intros id body now data existing Hparse Hfound Hown.
    now apply put_slug_check.
Qed.

Lemma slug_unique_within_site_witness :
  run (PagesRoutes.post (H := exampleCollaborators) demoAdmin (newsBody "s1") "p2" 300)
    twoSiteStore = (twoSiteStore, PagesRoutes.slug_exists)
  /\ status (snd (run (PagesRoutes.post (H := exampleCollaborators) demoAdmin
                         (newsBody "s2") "p2" 300) twoSiteStore)) = 201.
Proof.
  destruct (@slug_unique_within_site exampleCollaborators twoSiteStore demoAdmin eq_refl)
    as [Hcreate _].
  split.
  - destruct (Hcreate (newsBody "s1") "p2" 300%Z (newsData "s1") eq_refl) as [Hconflict _].
    + vm_compute. discriminate.
    + apply (Hconflict archivedPage); [|reflexivity|reflexivity].
      vm_compute. left. reflexivity.
  - destruct (Hcreate (newsBody "s2") "p2" 300%Z (newsData "s2") eq_refl) as [_ Hfree].
    + vm_compute. discriminate.
    + refine (proj1 (Hfree _ _)).
      * intros p Hp. vm_compute in Hp. destruct Hp as [<-|[]]. discriminate.
      * intros p Hp. vm_compute in Hp. destruct Hp as [<-|[]]. discriminate.
Defined.

(** ** Ownership of pages *)

Section Ownership.
Context `{Collaborators}.
Import PagesRoutes Store.

Lemma findFirst_row (db : DB) (p : Page) (tenantId : Id) :
  pagesKeyed db -> In p (pages db) ->
  siteInTenant db (page_siteId p) tenantId = true ->
  snd (page_findFirst (page_id p) tenantId db) = Some p.
Proof.
  intros K Hin Ht. simpl.
  apply (find_keyed page_id) with (k := page_id p); auto.
  - rewrite String.eqb_refl, Ht. reflexivity.
  - intros b Hb. apply andb_true_iff in Hb. destruct Hb as [Hb _].
    now apply String.eqb_eq.
Qed.

Lemma mayActOn_gate u p : mayActOn u p -> mayMutate u /\ passesOwnership u p.
Proof.
  unfold mayActOn, mayMutate, passesOwnership.
  intros [E|[E|[E Ea]]]; rewrite E; simpl; auto.
  rewrite Ea, String.eqb_refl. auto.
Qed.

(** Writing the row [id] once the rows have gone through [cl], which
    keeps the keys: the store accepts the write when the new slug is
    the row's own or is free in its site. *)
Lemma update_accepted (cl f : Page -> Page) (db db1 : DB) (id : Id)
  (existing : Page) (slug : string) :
  pagesKeyed db -> slugsUnique db ->
  In existing (pages db) -> page_id existing = id ->
  pages db1 = map cl (pages db) ->
  (forall q, page_id (cl q) = page_id q /\ page_siteId (cl q) = page_siteId q
             /\ page_slug (cl q) = page_slug q) ->
  page_siteId (f (cl existing)) = page_siteId existing ->
  page_slug (f (cl existing)) = slug ->
  (slug = page_slug existing
   \/ forall q, In q (pages db) -> page_siteId q = page_siteId existing ->
                page_slug q <> slug) ->
  snd (page_update id f db1) = Some (f (cl existing))
  /\ pages (fst (page_update id f db1))
     = map (fun q => if String.eqb (page_id q) id then f q else q) (pages db1).
Proof.
  intros K U Hin Hid Hrows Hcl Hfs Hfl Hslug. unfold page_update.
  assert (Hold : find (fun p => String.eqb (page_id p) id) (pages db1)
                 = Some (cl existing)).
  { apply (find_keyed page_id) with (k := id).
    - rewrite Hrows, keyed_map; auto. intros q; apply Hcl.
    - rewrite Hrows. now apply in_map.
    - rewrite (proj1 (Hcl existing)). exact Hid.
    - rewrite (proj1 (Hcl existing)), Hid. apply String.eqb_refl.
    - intros b Hb. now apply String.eqb_eq. }
  rewrite Hold, Hfs, Hfl.
  replace (page_slug_taken id (page_siteId existing) slug (pages db1)) with false;
    [simpl; auto|].
  symmetry. apply existsb_false. intros q' Hq'.
  rewrite Hrows in Hq'. apply in_map_iff in Hq'. destruct Hq' as (q & <- & Hq).
  destruct (Hcl q) as (-> & -> & ->).
  destruct (String.eqb (page_id q) id) eqn:Ei; [reflexivity|]. simpl.
  destruct (String.eqb (page_siteId q) (page_siteId existing)) eqn:Es; [|reflexivity].
  simpl. apply String.eqb_neq. apply String.eqb_eq in Es. apply String.eqb_neq in Ei.
  destruct Hslug as [->|Hfree]; [|now apply Hfree].
  intros El. apply Ei. rewrite <- Hid. now apply U.
Qed.

Lemma put_tail_accepted id data at_ existing db :
  pagesKeyed db -> slugsUnique db ->
  In existing (pages db) -> page_id existing = id ->
  (or_else (up_slug data) (page_slug existing) = page_slug existing
   \/ forall q, In q (pages db) -> page_siteId q = page_siteId existing ->
                page_slug q <> or_else (up_slug data) (page_slug existing)) ->
  status (snd (run (put_tail id data at_ existing) db)) = 200.
Proof.
  intros K U Hin Hid Hslug. unfold put_tail.
  destruct (truthy (up_isHomePage data)); simpl.
  - match goal with
    | |- context [page_update id ?f ?d] =>
        destruct (@update_accepted
                    (fun p => if String.eqb (page_siteId p) (page_siteId existing)
                                 && page_isHomePage p
                                 && negb (String.eqb (page_id p) id)
                              then set_isHomePage false p else p)
                    f db d id existing
                    (or_else (up_slug data) (page_slug existing))) as [E _];
          auto;
          [ intros q; destruct (_ && _); auto
          | destruct (_ && _); reflexivity
          | simpl; destruct (_ && _); reflexivity
          | destruct (page_update id f d) as [? [?|]]; simpl in *;
            [reflexivity|discriminate] ]
    end.
  - match goal with
    | |- context [page_update id ?f ?d] =>
        destruct (@update_accepted (fun p => p) f db d id existing
                    (or_else (up_slug data) (page_slug existing))) as [E _];
          auto;
          [ symmetry; apply map_id
          | destruct (page_update id f d) as [? [?|]]; simpl in *;
            [reflexivity|discriminate] ]
    end.
Qed.

Lemma put_tail_written id data at_ existing db :
  pagesKeyed db -> slugsUnique db ->
  In existing (pages db) -> page_id existing = id ->
  (or_else (up_slug data) (page_slug existing) = page_slug existing
   \/ forall q, In q (pages db) -> page_siteId q = page_siteId existing ->
                page_slug q <> or_else (up_slug data) (page_slug existing)) ->
  snd (run (put_tail id data at_ existing) db)
  = json 200 (PageBody (Some "Page updated successfully")
                (apply_updateData data at_ existing))
  /\ In (apply_updateData data at_ existing)
        (pages (fst (run (put_tail id data at_ existing) db))).
Proof.
  intros K U Hin Hid Hslug.
  assert (Hwritten : forall (cl : Page -> Page) (db1 db' : DB) (row : Page),
            cl existing = existing -> pages db1 = map cl (pages db) ->
            Some row = Some (apply_updateData data at_ (cl existing)) ->
            pages db'
            = map (fun q => if String.eqb (page_id q) id
                            then apply_updateData data at_ q else q) (pages db1) ->
            json 200 (PageBody (Some "Page updated successfully") row)
            = json 200 (PageBody (Some "Page updated successfully")
                          (apply_updateData data at_ existing))
            /\ In (apply_updateData data at_ existing) (pages db')).
  { intros cl db1 db' row Hcl Hrows [= ->] Erows. rewrite Hcl. split; [reflexivity|].
    rewrite Erows, Hrows. apply in_map_iff. exists existing. split.
    - rewrite Hid, String.eqb_refl. reflexivity.
    - rewrite <- Hcl. now apply in_map. }
  unfold put_tail.
  destruct (truthy (up_isHomePage data)); simpl.
  - match goal with
    | |- context [page_update id ?f ?d] =>
        destruct (@update_accepted
                    (fun p => if String.eqb (page_siteId p) (page_siteId existing)
                                 && page_isHomePage p
                                 && negb (String.eqb (page_id p) id)
                              then set_isHomePage false p else p)
                    f db d id existing
                    (or_else (up_slug data) (page_slug existing))) as [E Erows];
          auto;
          [ intros q; destruct (_ && _); auto
          | destruct (_ && _); reflexivity
          | simpl; destruct (_ && _); reflexivity
          | destruct (page_update id f d) as [db' [row|]]; simpl in E, Erows |- *;
            [|discriminate] ]
    end.
    apply (Hwritten
             (fun p => if String.eqb (page_siteId p) (page_siteId existing)
                          && page_isHomePage p
                          && negb (String.eqb (page_id p) id)
                       then set_isHomePage false p else p)
             (with_pages db
                (map (fun p => if String.eqb (page_siteId p) (page_siteId existing)
                                  && page_isHomePage p
                                  && negb (String.eqb (page_id p) id)
                               then set_isHomePage false p else p) (pages db)))
             db' row); [|reflexivity|exact E|exact Erows].
    rewrite Hid, !String.eqb_refl. simpl negb. rewrite andb_false_r. reflexivity.
  - match goal with
    | |- context [page_update id ?f ?d] =>
        destruct (@update_accepted (fun p => p) f db d id existing
                    (or_else (up_slug data) (page_slug existing))) as [E Erows];
          auto;
          [ symmetry; apply map_id
          | destruct (page_update id f d) as [db' [row|]]; simpl in E, Erows |- *;
            [|discriminate] ]
    end.
    apply (Hwritten (fun p => p) db db' row);
      [reflexivity|symmetry; apply map_id|exact E|exact Erows].
Qed.

Lemma put_not_owner u p body now db :
  pagesKeyed db -> In p (pages db) ->
  siteInTenant db (page_siteId p) (req_user_tenantId u) = true ->
  req_user_role u = "EDITOR" -> page_authorId p <> req_user_id u ->
  UpdatePageSchema body <> None ->
  run (put u (page_id p) body now) db
  = (db, not_owner "You can only edit your own pages").
Proof.
  intros K Hin Ht Hrole Hauthor Hbody.
  assert (G : mayMutate u) by (unfold mayMutate; rewrite Hrole; reflexivity).
  unfold put. rewrite run_requireRole, G.
  rewrite run_put_handler. destruct (UpdatePageSchema body); [|congruence].
  rewrite findFirst_row, Hrole; auto.
  apply String.eqb_neq in Hauthor. rewrite Hauthor. reflexivity.
Qed.

Lemma publish_not_owner u p body now db :
  pagesKeyed db -> In p (pages db) ->
  siteInTenant db (page_siteId p) (req_user_tenantId u) = true ->
  req_user_role u = "EDITOR" -> page_authorId p <> req_user_id u ->
  PublishPageSchema body <> None ->
  run (publish u (page_id p) body now) db
  = (db, not_owner "You can only modify your own pages").
Proof.
  intros K Hin Ht Hrole Hauthor Hbody.
  assert (G : mayMutate u) by (unfold mayMutate; rewrite Hrole; reflexivity).
  unfold publish. rewrite run_requireRole, G.
  rewrite run_publish_handler. destruct (PublishPageSchema body); [|congruence].
  rewrite findFirst_row, Hrole; auto.
  apply String.eqb_neq in Hauthor. rewrite Hauthor. reflexivity.
Qed.

Lemma delete_not_owner u p db :
  pagesKeyed db -> In p (pages db) ->
  siteInTenant db (page_siteId p) (req_user_tenantId u) = true ->
  req_user_role u = "EDITOR" -> page_authorId p <> req_user_id u ->
  run (delete u (page_id p)) db
  = (db, not_owner "You can only delete your own pages").
Proof.
  intros K Hin Ht Hrole Hauthor.
  assert (G : mayMutate u) by (unfold mayMutate; rewrite Hrole; reflexivity).
  unfold delete. rewrite run_requireRole, G.
  rewrite run_delete_handler, findFirst_row, Hrole; auto.
  apply String.eqb_neq in Hauthor. rewrite Hauthor. reflexivity.
Qed.


Lemma pageWritten_apply data at_ p : pageWritten data p (apply_updateData data at_ p).
Proof. repeat split. Qed.

Lemma put_written u p body now data db :
  pagesKeyed db -> slugsUnique db -> In p (pages db) ->
  siteInTenant db (page_siteId p) (req_user_tenantId u) = true ->
  mayActOn u p -> UpdatePageSchema body = Some data ->
  (exists row,
      snd (run (put u (page_id p) body now) db)
      = json 200 (PageBody (Some "Page updated successfully") row)
      /\ In row (pages (fst (run (put u (page_id p) body now) db)))
      /\ pageWritten data p row)
  \/ (run (put u (page_id p) body now) db = (db, slug_exists)
      /\ exists slug q,
           up_slug data = Some slug /\ slug <> page_slug p
           /\ In q (pages db) /\ page_siteId q = page_siteId p
           /\ page_slug q = slug).
Proof.
  intros K U Hin Ht Hmay Hparse.
  destruct (mayActOn_gate Hmay) as [G O]. unfold passesOwnership in O.
  unfold put. rewrite run_requireRole, G, run_put_handler, Hparse.
  rewrite findFirst_row, O; auto. cbv zeta.
  assert (Hdone : or_else (up_slug data) (page_slug p) = page_slug p
                  \/ (forall q, In q (pages db) -> page_siteId q = page_siteId p ->
                         page_slug q <> or_else (up_slug data) (page_slug p)) ->
                  exists row,
                    snd (run (put_tail (page_id p) data (put_publishedAt data p now) p) db)
                    = json 200 (PageBody (Some "Page updated successfully") row)
                    /\ In row (pages (fst (run (put_tail (page_id p) data
                                                  (put_publishedAt data p now) p) db)))
                    /\ pageWritten data p row).
  { intros Hslug.
    destruct (@put_tail_written (page_id p) data (put_publishedAt data p now) p db
                K U Hin eq_refl Hslug) as [E Hrow].
    eexists. split; [exact E|]. split; [exact Hrow|apply pageWritten_apply]. }
  destruct (up_slug data) as [slug|] eqn:E.
  - assert (Hg : given (Some slug) = Some slug).
    { pose proof (UpdatePageSchema_slug _ Hparse E). destruct slug; [congruence|reflexivity]. }
    rewrite Hg. destruct (String.eqb slug (page_slug p)) eqn:Es; simpl negb; cbv iota.
    + left. apply Hdone. left. simpl. now apply String.eqb_eq.
    + destruct (snd (page_findUnique_siteId_slug (page_siteId p) slug db))
        as [q|] eqn:Ef.
      * right. split; [reflexivity|]. exists slug, q.
        simpl in Ef. apply find_some in Ef. destruct Ef as [Hq Hc].
        apply andb_true_iff in Hc. destruct Hc as [Hs Hl].
        apply String.eqb_eq in Hs, Hl. apply String.eqb_neq in Es. auto.
      * left. apply Hdone. right. simpl.
        intros q Hq Hs Hl. simpl in Ef. pose proof (find_none _ _ Ef q Hq) as Hn.
        simpl in Hn. rewrite Hs, Hl, !String.eqb_refl in Hn. discriminate.
  - simpl given. left. apply Hdone. left. reflexivity.
Qed.

Lemma publish_allowed u p body now st db :
  pagesKeyed db -> slugsUnique db -> In p (pages db) ->
  siteInTenant db (page_siteId p) (req_user_tenantId u) = true ->
  mayActOn u p -> PublishPageSchema body = Some st ->
  status (snd (run (publish u (page_id p) body now) db)) = 200
  /\ exists p', In p' (pages (fst (run (publish u (page_id p) body now) db)))
                /\ page_id p' = page_id p /\ page_status p' = st.
Proof.
  intros K U Hin Ht Hmay Hparse.
  destruct (mayActOn_gate Hmay) as [G O]. unfold passesOwnership in O.
  unfold publish. rewrite run_requireRole, G, run_publish_handler, Hparse.
  rewrite findFirst_row, O; auto. cbv zeta.
  match goal with
  | |- context [page_update ?i ?f db] =>
      destruct (@update_accepted (fun q => q) f db db i p (page_slug p))
        as [E Erows]; auto;
        [ symmetry; apply map_id
        | destruct (page_update i f db) as [db' [row|]]; simpl in *;
          [|discriminate] ]
  end.
  split; [reflexivity|].
  clear E.
  match type of Erows with
  | context [apply_status st ?a] => exists (apply_status st a p)
  end.
  split; [|split; reflexivity].
  rewrite Erows. apply in_map_iff. exists p.
  rewrite String.eqb_refl. auto.
Qed.

Lemma delete_allowed u p db :
  pagesKeyed db -> In p (pages db) ->
  siteInTenant db (page_siteId p) (req_user_tenantId u) = true ->
  mayActOn u p ->
  status (snd (run (delete u (page_id p)) db)) = 200
  /\ forall q, In q (pages (fst (run (delete u (page_id p)) db))) ->
               page_id q <> page_id p.
Proof.
  intros K Hin Ht Hmay.
  destruct (mayActOn_gate Hmay) as [G O]. unfold passesOwnership in O.
  unfold delete. rewrite run_requireRole, G, run_delete_handler.
  rewrite findFirst_row, O; auto.
  unfold page_delete.
  replace (page_id_taken (page_id p) (pages db)) with true.
  - simpl. split; [reflexivity|]. intros q Hq.
    apply filter_In in Hq. destruct Hq as [_ Hq].
    apply negb_true_iff in Hq. now apply String.eqb_neq.
  - symmetry. apply existsb_exists. exists p. split; auto. apply String.eqb_refl.
Qed.


Lemma editor_success_is_author u p db :
  pagesKeyed db -> In p (pages db) ->
  siteInTenant db (page_siteId p) (req_user_tenantId u) = true ->
  req_user_role u = "EDITOR" ->
  (forall body now,
      status (snd (run (put u (page_id p) body now) db)) = 200 ->
      page_authorId p = req_user_id u)
  /\ (forall body now,
        status (snd (run (publish u (page_id p) body now) db)) = 200 ->
        page_authorId p = req_user_id u)
  /\ (status (snd (run (delete u (page_id p)) db)) = 200 ->
      page_authorId p = req_user_id u).
Proof.
  intros K Hin Ht Hrole.
  assert (G : mayMutate u) by (unfold mayMutate; rewrite Hrole; reflexivity).
  destruct (String.eqb (page_authorId p) (req_user_id u)) eqn:Ea;
    [apply String.eqb_eq in Ea; auto|].
  apply String.eqb_neq in Ea.
  split; [|split].
  - intros body now. destruct (UpdatePageSchema body) eqn:E.
    + rewrite put_not_owner; auto; [discriminate|congruence].
    + unfold put. rewrite run_requireRole, G, run_put_handler, E. discriminate.
  - intros body now. destruct (PublishPageSchema body) eqn:E.
    + rewrite publish_not_owner; auto; [discriminate|congruence].
    + unfold publish. rewrite run_requireRole, G, run_publish_handler, E. discriminate.
  - rewrite delete_not_owner; auto. discriminate.
Qed.

End Ownership.

(** C4.  On a page of the caller's tenant: an EDITOR who is not the
    author is answered with the ownership error by update, publish
    and delete, and the store is left as it is; an
    EDITOR whose request is answered with 200 is the author; an ADMIN,
    a SUPER_ADMIN or the authoring EDITOR gets the update, the status
    change and the deletion done.  The update is answered 200 with
    the row it has written, which is in the store and is the page
    with the members of the body written over its columns; the one
    exception is a new slug that another page of the site has, which
    is answered with the slug conflict and changes nothing. *)
Theorem page_ownership `{Collaborators} (db : DB) (u : ReqUser) (p : Page) :
  pagesKeyed db -> slugsUnique db -> In p (pages db) ->
  Store.siteInTenant db (page_siteId p) (req_user_tenantId u) = true ->
  (req_user_role u = "EDITOR" -> page_authorId p <> req_user_id u ->
   (forall body now, PagesRoutes.UpdatePageSchema body <> None ->
      run (PagesRoutes.put u (page_id p) body now) db
      = (db, PagesRoutes.not_owner "You can only edit your own pages"))
   /\ (forall body now, PagesRoutes.PublishPageSchema body <> None ->
         run (PagesRoutes.publish u (page_id p) body now) db
         = (db, PagesRoutes.not_owner "You can only modify your own pages"))
   /\ run (PagesRoutes.delete u (page_id p)) db
      = (db, PagesRoutes.not_owner "You can only delete your own pages"))
  /\ (req_user_role u = "EDITOR" ->
      (forall body now,
          status (snd (run (PagesRoutes.put u (page_id p) body now) db)) = 200 ->
          page_authorId p = req_user_id u)
      /\ (forall body now,
            status (snd (run (PagesRoutes.publish u (page_id p) body now) db)) = 200 ->
            page_authorId p = req_user_id u)
      /\ (status (snd (run (PagesRoutes.delete u (page_id p)) db)) = 200 ->
          page_authorId p = req_user_id u))
  /\ (mayActOn u p ->
      (forall body now data, PagesRoutes.UpdatePageSchema body = Some data ->
         (exists row,
             snd (run (PagesRoutes.put u (page_id p) body now) db)
             = json 200 (PageBody (Some "Page updated successfully") row)
             /\ In row (pages (fst (run (PagesRoutes.put u (page_id p) body now) db)))
             /\ pageWritten data p row)
         \/ (run (PagesRoutes.put u (page_id p) body now) db
             = (db, PagesRoutes.slug_exists)
             /\ exists slug q,
                  PagesRoutes.up_slug data = Some slug /\ slug <> page_slug p
                  /\ In q (pages db) /\ page_siteId q = page_siteId p
                  /\ page_slug q = slug))
      /\ (forall body now st, PagesRoutes.PublishPageSchema body = Some st ->
            status (snd (run (PagesRoutes.publish u (page_id p) body now) db)) = 200
            /\ exists p',
                In p' (pages (fst (run (PagesRoutes.publish u (page_id p) body now) db)))
                /\ page_id p' = page_id p /\ page_status p' = st)
      /\ status (snd (run (PagesRoutes.delete u (page_id p)) db)) = 200
      /\ forall q, In q (pages (fst (run (PagesRoutes.delete u (page_id p)) db))) ->
                   page_id q <> page_id p).
Proof.
  intros K U Hin Ht. split; [|split].
  - intros Hrole Hauthor. split; [|split].
    + intros. now apply put_not_owner.
    + intros. now apply publish_not_owner.
    + now apply delete_not_owner.
  - intros Hrole. now apply editor_success_is_author.
  - intros Hmay. split; [|split].
    + intros body now data Hparse. now apply put_written.
    + intros. now apply publish_allowed.
    + now apply delete_allowed.
Qed.

Lemma page_ownership_witness :
  run (PagesRoutes.delete otherEditor "p1") archivedStore
  = (archivedStore, PagesRoutes.not_owner "You can only delete your own pages")
  /\ status (snd (run (PagesRoutes.delete demoAdmin "p1")
                    archivedStore)) = 200
  /\ exists row,
       In row (pages (fst (run (PagesRoutes.put (H := exampleCollaborators) demoAdmin
                                 "p1" (titleBody "Latest") 200) archivedStore)))
       /\ page_id row = "p1" /\ page_title row = "Latest".
Proof.
  assert (K : pagesKeyed archivedStore)
    by (vm_compute; constructor; [intros []|constructor]).
  assert (U : slugsUnique archivedStore).
  { intros p q Hp Hq _ _. vm_compute in Hp, Hq.
    destruct Hp as [<-|[]], Hq as [<-|[]]. reflexivity. }
  assert (Hin : In archivedPage (pages archivedStore))
    by (vm_compute; left; reflexivity).
  split; [|split].
  - refine (proj2 (proj2 (proj1
      (@page_ownership exampleCollaborators archivedStore otherEditor archivedPage
         K U Hin eq_refl) eq_refl _))).
    discriminate.
  - refine (proj1 (proj2 (proj2 (proj2 (proj2
      (@page_ownership exampleCollaborators archivedStore demoAdmin archivedPage
         K U Hin eq_refl)) _)))).
    left. reflexivity.
  - destruct (proj1 (proj2 (proj2
      (@page_ownership exampleCollaborators archivedStore demoAdmin archivedPage
         K U Hin eq_refl)) (or_introl eq_refl))
      (titleBody "Latest") 200%Z _ eq_refl)
      as [(row & _ & Hrow & W)|[E _]].
    + exists row. split; [exact Hrow|].
      destruct W as (Wid & _ & _ & Wtitle & _). split; [exact Wid|exact Wtitle].
    + exfalso. apply (f_equal (fun o => status (snd o))) in E.
      vm_compute in E. discriminate.
Defined.

(** ** Media *)

Section MediaOwnership.
Import MediaRoutes Store.

Lemma run_media_put_handler u id body db :
  run (put_handler u id body) db =
  match UpdateMediaSchema body with
  | None => (db, PagesRoutes.validation_error)
  | Some data =>
      match snd (media_findFirst id (req_user_tenantId u) db) with
      | None => (db, not_found)
      | Some existing =>
          let write :=
            match snd (media_update id (apply_data data) db) with
            | None => (fst (media_update id (apply_data data) db),
                       PagesRoutes.internal "Failed to update media")
            | Some m =>
                (fst (media_update id (apply_data data) db),
                 json 200 (MediaBody (Some "Media updated successfully") m))
            end in
          match given (um_filename data) with
          | Some filename =>
              if negb (String.eqb filename (media_filename existing))
              then
                match snd (media_findFirst_filename (media_siteId existing) filename db) with
                | Some _ => (db, filename_exists)
                | None => write
                end
              else write
          | None => write
          end
      end
  end.
Proof.
  unfold put_handler.
  destruct (UpdateMediaSchema body) as [data|]; [|reflexivity].
  simpl. case_find (media db); [|reflexivity].
  assert (Hw : forall (k1 : Response) (k2 : Media -> Response),
    run (let* row := await media_update id (apply_data data) in
         match row with
         | None => Ret k1
         | Some m0 => Ret (k2 m0)
         end) db
    = match snd (media_update id (apply_data data) db) with
      | None => (fst (media_update id (apply_data data) db), k1)
      | Some m0 => (fst (media_update id (apply_data data) db), k2 m0)
      end).
  { intros. simpl. destruct (media_update id (apply_data data) db) as [? [?|]]; reflexivity. }
  destruct (given (um_filename data)); [|apply Hw].
  destruct (negb _); [|apply Hw].
  simpl. case_find (media db); [reflexivity|apply Hw].
Qed.

Lemma run_media_delete_handler u id db :
  run (delete_handler u id) db =
  match snd (media_findFirst id (req_user_tenantId u) db) with
  | None => (db, not_found)
  | Some _ =>
      if snd (media_delete id db)
      then (fst (media_delete id db), json 200 (Message "Media deleted successfully"))
      else (fst (media_delete id db), PagesRoutes.internal "Failed to delete media")
  end.
Proof.
  unfold delete_handler. simpl. case_find (media db); [|reflexivity].
  simpl. destruct (media_delete id db) as [? [|]]; reflexivity.
Qed.

Lemma media_found (db : DB) (m : Media) (tenantId : Id) :
  In m (media db) -> siteInTenant db (media_siteId m) tenantId = true ->
  snd (media_findFirst (media_id m) tenantId db) <> None.
Proof.
  intros Hin Ht. simpl. apply find_is_some with (a := m); auto.
  rewrite String.eqb_refl, Ht. reflexivity.
Qed.

Lemma media_id_found (db : DB) (m : Media) :
  In m (media db) ->
  find (fun m' => String.eqb (media_id m') (media_id m)) (media db) <> None.
Proof.
  intros Hin. apply find_is_some with (a := m); auto. apply String.eqb_refl.
Qed.

Lemma media_delete_done u m db :
  mayMutate u -> In m (media db) ->
  siteInTenant db (media_siteId m) (req_user_tenantId u) = true ->
  run (delete u (media_id m)) db
  = (with_media db
       (filter (fun m' => negb (String.eqb (media_id m') (media_id m))) (media db)),
     json 200 (Message "Media deleted successfully")).
Proof.
  intros G Hin Ht. unfold delete. rewrite run_requireRole, G, run_media_delete_handler.
  destruct (snd (media_findFirst _ _ _)) eqn:E;
    [|exfalso; revert E; now apply media_found].
  unfold media_delete.
  replace (existsb _ (media db)) with true; [reflexivity|].
  symmetry. apply existsb_exists. exists m. split; auto. apply String.eqb_refl.
Qed.

Lemma mediaWritten_apply data m : mediaWritten data m (apply_data data m).
Proof. repeat split. Qed.

Lemma media_put_written u m body data db :
  mayMutate u -> In m (media db) ->
  siteInTenant db (media_siteId m) (req_user_tenantId u) = true ->
  UpdateMediaSchema body = Some data ->
  (status (snd (run (put u (media_id m) body) db)) = 200
   /\ exists row,
        In row (media (fst (run (put u (media_id m) body) db)))
        /\ mediaWritten data m row
        /\ (NoDup (map media_id (media db)) ->
            snd (run (put u (media_id m) body) db)
            = json 200 (MediaBody (Some "Media updated successfully") row)))
  \/ (run (put u (media_id m) body) db = (db, filename_exists)
      /\ exists filename q,
           um_filename data = Some filename /\ filename <> ""%string
           /\ In q (media db) /\ media_filename q = filename).
Proof.
  intros G Hin Ht Hparse.
  unfold put. rewrite run_requireRole, G, run_media_put_handler, Hparse.
  destruct (snd (media_findFirst _ _ _)) as [existing|] eqn:E;
    [|exfalso; revert E; now apply media_found].
  assert (Hw : let out :=
                 match snd (media_update (media_id m) (apply_data data) db) with
                 | None => (fst (media_update (media_id m) (apply_data data) db),
                            PagesRoutes.internal "Failed to update media")
                 | Some m0 =>
                     (fst (media_update (media_id m) (apply_data data) db),
                      json 200 (MediaBody (Some "Media updated successfully") m0))
                 end in
               status (snd out) = 200
               /\ exists row,
                    In row (media (fst out)) /\ mediaWritten data m row
                    /\ (NoDup (map media_id (media db)) ->
                        snd out
                        = json 200 (MediaBody (Some "Media updated successfully") row))).
  { unfold media_update.
    destruct (find _ (media db)) as [old|] eqn:Ef;
      [|exfalso; revert Ef; now apply media_id_found].
    simpl. split; [reflexivity|]. exists (apply_data data m).
    split; [|split; [apply mediaWritten_apply|]].
    - apply in_map_iff. exists m. rewrite String.eqb_refl. auto.
    - intros K. apply find_some in Ef. destruct Ef as [Hold Hid].
      apply String.eqb_eq in Hid.
      assert (old = m) by (apply (keyed_unique media_id (media db)); auto).
      subst old. reflexivity. }
  cbv zeta in Hw |- *.
  destruct (um_filename data) as [[|c name]|] eqn:En; simpl given; cbv iota;
    [left; exact Hw| |left; exact Hw].
  destruct (negb _); [|left; exact Hw].
  destruct (snd (media_findFirst_filename _ _ _)) as [q|] eqn:Eq; [|left; exact Hw].
  right. split; [reflexivity|]. exists (String c name), q.
  simpl in Eq. apply find_some in Eq. destruct Eq as [Hq Hc].
  apply andb_true_iff in Hc. destruct Hc as [_ Hl]. apply String.eqb_eq in Hl.
  repeat split; auto. discriminate.
Qed.

Lemma media_any_identity u u' id db :
  mayMutate u -> mayMutate u' -> req_user_tenantId u' = req_user_tenantId u ->
  (forall body, run (put u' id body) db = run (put u id body) db)
  /\ run (delete u' id) db = run (delete u id) db.
Proof.
  intros G G' Ht. split; [intros body|].
  - unfold put. rewrite !run_requireRole, G, G'.
    unfold put_handler. rewrite Ht. reflexivity.
  - unfold delete. rewrite !run_requireRole, G, G'.
    unfold delete_handler. rewrite Ht. reflexivity.
Qed.

End MediaOwnership.

(** C10.  An EDITOR, ADMIN or SUPER_ADMIN of the tenant that owns the
    site of a media row gets its deletion done, and its update done:
    the update is answered 200 and the store then holds the row with
    the filename and the description of the body written over its
    columns and every other column as it was (with unique media ids
    that row is the one the response carries); the one exception is a
    new filename that a media row has, which is answered with the
    filename conflict and changes nothing.  The answers are the same
    for any two such users of the tenant, whoever they are. *)
Theorem media_mutation_has_no_owner (db : DB) (u : ReqUser) (m : Media) :
  mayMutate u -> In m (media db) ->
  Store.siteInTenant db (media_siteId m) (req_user_tenantId u) = true ->
  run (MediaRoutes.delete u (media_id m)) db
  = (with_media db
       (filter (fun m' => negb (String.eqb (media_id m') (media_id m))) (media db)),
     json 200 (Message "Media deleted successfully"))
  /\ (forall body data, MediaRoutes.UpdateMediaSchema body = Some data ->
        (status (snd (run (MediaRoutes.put u (media_id m) body) db)) = 200
         /\ exists row,
              In row (media (fst (run (MediaRoutes.put u (media_id m) body) db)))
              /\ mediaWritten data m row
              /\ (NoDup (map media_id (media db)) ->
                  snd (run (MediaRoutes.put u (media_id m) body) db)
                  = json 200 (MediaBody (Some "Media updated successfully") row)))
        \/ (run (MediaRoutes.put u (media_id m) body) db
            = (db, MediaRoutes.filename_exists)
            /\ exists filename q,
                 MediaRoutes.um_filename data = Some filename
                 /\ filename <> ""%string
                 /\ In q (media db) /\ media_filename q = filename))
  /\ (forall u', mayMutate u' -> req_user_tenantId u' = req_user_tenantId u ->
        (forall body, run (MediaRoutes.put u' (media_id m) body) db
                      = run (MediaRoutes.put u (media_id m) body) db)
        /\ run (MediaRoutes.delete u' (media_id m)) db
           = run (MediaRoutes.delete u (media_id m)) db).
Proof.
  intros G Hin Ht. split; [|split].
  - now apply media_delete_done.
  - intros body data Hparse. now apply media_put_written.
  - intros u' G' Hu. now apply media_any_identity.
Qed.

Lemma media_mutation_has_no_owner_witness :
  (status (snd (run (MediaRoutes.delete otherEditor "m1") mediaStore)) = 200
   /\ media (fst (run (MediaRoutes.delete otherEditor "m1") mediaStore)) = [])
  /\ exists row,
       In row (media (fst (run (MediaRoutes.put otherEditor "m1"
                                 (renameBody "mark.png" "The mark")) mediaStore)))
       /\ media_filename row = "mark.png" /\ media_alt row = Some "The mark"
       /\ media_url row = media_url demoMedia.
Proof.
  pose proof (@media_mutation_has_no_owner mediaStore otherEditor demoMedia
                eq_refl (or_introl eq_refl) eq_refl) as (E & P & _).
  split.
  - change (media_id demoMedia) with "m1" in E.
    rewrite E. split; reflexivity.
  - destruct (P (renameBody "mark.png" "The mark") _ eq_refl)
      as [(_ & row & Hrow & W & _)|[F _]].
    + exists row. split; [exact Hrow|].
      destruct W as (_ & _ & _ & _ & _ & Wurl & Wname & Walt).
      split; [exact Wname|]. split; [exact Walt|exact Wurl].
    + exfalso. apply (f_equal (fun o => status (snd o))) in F.
      vm_compute in F. discriminate.
Defined.

(** ** Login and tokens *)

Section Login.
Context `{Collaborators}.
Import AuthRoutes Store.

Lemma login_unknown_email body email password now db :
  LoginSchema body = Some (email, password) ->
  (forall x, In x (users db) -> user_email x = email -> user_isActive x = false) ->
  run (login body now) db = (db, invalid_credentials).
Proof.
  intros Hparse Hnone. unfold login. rewrite Hparse. simpl.
  rewrite find_none_iff; [reflexivity|].
  intros x Hx. destruct (String.eqb (user_email x) email) eqn:E; [|reflexivity].
  apply String.eqb_eq in E. simpl. now apply Hnone.
Qed.

Lemma login_wrong_password body email password now db usr tenant :
  LoginSchema body = Some (email, password) ->
  snd (user_findUnique_email email db) = Some (usr, tenant) ->
  bcryptCompare password (user_password usr) = false ->
  run (login body now) db = (db, invalid_credentials).
Proof.
  intros Hparse Hfound Hpw. unfold login. rewrite Hparse.
  simpl in *. rewrite Hfound. rewrite Hpw. reflexivity.
Qed.

End Login.

(** C9.  A login with an email that no active user has and a login
    with the wrong password of an existing user are answered with the
    same response, status and body. *)
Theorem login_failures_indistinguishable `{Collaborators} (db : DB)
  (body1 body2 : Json) (email1 password1 email2 password2 : string)
  (now1 now2 : Z) (usr : User) (tenant : option Tenant) :
  AuthRoutes.LoginSchema body1 = Some (email1, password1) ->
  (forall x, In x (users db) -> user_email x = email1 -> user_isActive x = false) ->
  AuthRoutes.LoginSchema body2 = Some (email2, password2) ->
  snd (Store.user_findUnique_email email2 db) = Some (usr, tenant) ->
  bcryptCompare password2 (user_password usr) = false ->
  run (AuthRoutes.login body1 now1) db = run (AuthRoutes.login body2 now2) db
  /\ snd (run (AuthRoutes.login body1 now1) db)
     = json 401 (ErrorMessage "Invalid credentials" "Email or password is incorrect").
Proof.
  intros Hp1 Hnone Hp2 Hfound Hpw.
  rewrite (@login_unknown_email _ _ _ _ now1 _ Hp1 Hnone).
  rewrite (@login_wrong_password _ _ _ _ now2 _ _ _ Hp2 Hfound Hpw).
  split; reflexivity.
Qed.

Lemma login_failures_indistinguishable_witness :
  run (AuthRoutes.login (H := exampleCollaborators)
         (loginBody "nobody@acme.com" "secret") 5) userStore
  = run (AuthRoutes.login (H := exampleCollaborators)
           (loginBody "a@acme.com" "guess") 9) userStore.
Proof.
  refine (proj1 (@login_failures_indistinguishable exampleCollaborators userStore
            (loginBody "nobody@acme.com" "secret") (loginBody "a@acme.com" "guess")
            "nobody@acme.com" "secret" "a@acme.com" "guess" 5 9
            demoUser (Some {| tenant_id := "acme"; tenant_name := "Acme";
                              tenant_domain := "acme.com" |})
            eq_refl _ eq_refl eq_refl eq_refl)).
  intros x Hx. vm_compute in Hx. destruct Hx as [<-|[]]. discriminate.
Defined.

Section Tokens.
Context `{Collaborators}.
Import AuthMiddleware.

Lemma authenticate_schema_failure token decoded now next db :
  Jsonwebtoken.verify token JWT_SECRET now = Some decoded ->
  JWTPayloadSchema decoded = None ->
  run (authenticate (Bearer token) now next) db
  = (db, json 500 (ErrorMessage "Authentication failed"
                     "Internal server error during authentication")).
Proof.
  intros Hv Hs. unfold authenticate. rewrite Hv, Hs. reflexivity.
Qed.

Lemma refresh_token_verifies id issued now :
  (now < issued + 604800)%Z ->
  Jsonwebtoken.verify (Jsonwebtoken.Signed (generateRefreshToken id issued))
    JWT_SECRET now
  = Some (jwt_claims (generateRefreshToken id issued)).
Proof.
  intros Hexp.
  unfold Jsonwebtoken.verify, Jsonwebtoken.active, Jsonwebtoken.not_expired,
    generateRefreshToken, Jsonwebtoken.sign.
  simpl jwt_key. rewrite String.eqb_refl. simpl.
  destruct (Z.leb_spec (issued + 604800) now); [lia|reflexivity].
Qed.

Lemma refresh_token_fails_schema id issued :
  JWTPayloadSchema (jwt_claims (generateRefreshToken id issued)) = None.
Proof. reflexivity. Qed.

End Tokens.

(** C8, on the code.  A token whose signature and expiry verify and
    whose payload fails [JWTPayloadSchema] is turned down, but with
    status 500 and not with the 401 of the other authentication
    failures; a refresh token that has not expired is such a token. *)
Theorem authenticate_schema_failure_is_500 `{Collaborators}
  (db : DB) (now : Z) (next : ReqUser -> AuthMiddleware.ReqTenant -> Prog Response) :
  (forall token decoded,
      Jsonwebtoken.verify token AuthMiddleware.JWT_SECRET now = Some decoded ->
      AuthMiddleware.JWTPayloadSchema decoded = None ->
      run (AuthMiddleware.authenticate (AuthMiddleware.Bearer token) now next) db
      = (db, json 500 (ErrorMessage "Authentication failed"
                         "Internal server error during authentication")))
  /\ (forall id issued,
        (now < issued + 604800)%Z ->
        run (AuthMiddleware.authenticate
               (AuthMiddleware.Bearer
                  (Jsonwebtoken.Signed (AuthMiddleware.generateRefreshToken id issued)))
               now next) db
        = (db, json 500 (ErrorMessage "Authentication failed"
                           "Internal server error during authentication"))).
Proof.
  split.
  - intros. now apply authenticate_schema_failure with (decoded := decoded).
  - intros id issued Hexp.
    apply authenticate_schema_failure
      with (decoded := jwt_claims (AuthMiddleware.generateRefreshToken id issued)).
    + now apply refresh_token_verifies.
    + apply refresh_token_fails_schema.
Qed.

Lemma authenticate_schema_failure_is_500_witness :
  status (snd (run (AuthMiddleware.authenticate (H := exampleCollaborators)
                      (AuthMiddleware.Bearer
                         (Jsonwebtoken.Signed
                            (AuthMiddleware.generateRefreshToken
                               (H := exampleCollaborators) "u1" 0)))
                      60 (fun _ _ => Ret (json 200 (Message "next"))))
                 userStore)) = 500.
Proof.
  rewrite (proj2 (@authenticate_schema_failure_is_500 exampleCollaborators userStore 60
                    (fun _ _ => Ret (json 200 (Message "next")))) "u1" 0%Z).
  - reflexivity.
  - lia.
Defined.

(** ** Two requests in flight *)

(** C5, on the code.  The handlers await the store call by call, with
    no transaction around the calls.  Two creates that both set the
    home page, interleaved so that both clear before either creates,
    are both answered 201 and leave two home pages in the site; so do
    two updates of two pages.  (Two creates of one slug interleaved
    the same way do not both succeed: the compound key makes the
    second [create] throw, and that request is answered 500.) *)
Theorem concurrent_home_page_writes_both_win :
  (let '(db', (rA, rB)) :=
     interleave createsRace
       (PagesRoutes.post (H := exampleCollaborators) demoAdmin
          (createBody "home" true) "p1" 10)
       (PagesRoutes.post (H := exampleCollaborators) demoAdmin
          (createBody "about" true) "p2" 11)
       demoStore in
   status rA = 201 /\ status rB = 201
   /\ map (fun p => (page_slug p, page_isHomePage p)) (pages db')
      = [("home", true); ("about", true)]
   /\ length (homePages db' "s1") = 2)
  /\ (let '(db', (rA, rB)) :=
        interleave updatesRace
          (PagesRoutes.put (H := exampleCollaborators) demoAdmin "p1" homeBody 10)
          (PagesRoutes.put (H := exampleCollaborators) demoAdmin "p2" homeBody 11)
          twoPageStore in
      status rA = 200 /\ status rB = 200
      /\ length (homePages twoPageStore "s1") = 0
      /\ length (homePages db' "s1") = 2)
  /\ (let '(db', (rA, rB)) :=
        interleave slugRace
          (PagesRoutes.post (H := exampleCollaborators) demoAdmin
             (createBody "news" false) "p1" 10)
          (PagesRoutes.post (H := exampleCollaborators) demoAdmin
             (createBody "news" false) "p2" 11)
          demoStore in
      status rA = 201
      /\ rB = PagesRoutes.internal "Failed to create page"
      /\ map page_id (pages db') = ["p1"]).
Proof.
  vm_compute. repeat split; reflexivity.
Qed.

(** ** Tenant isolation *)

Section Isolation.
Context `{Collaborators}.
Import Store.

Lemma byId_lookup_fails (db : DB) (u : ReqUser) (a : ByIdAction) (id : Id) :
  lookupFails db u (kindOf a) id ->
  run (byId u a id) db = (db, turnedDown u a).
Proof.
  unfold turnedDown, passesGate, bodyAccepted.
  destruct a as [|b now|b now| | |b| | |b|b|];
    cbn [kindOf lookupFails byId gateRoles PagesRoutes.or_else]; intros Hfail;
    unfold PagesRoutes.put, PagesRoutes.publish, PagesRoutes.delete,
      MediaRoutes.put, MediaRoutes.delete,
      SitesRoutes.put, SitesRoutes.publish, SitesRoutes.delete;
    rewrite ?run_requireRole;
    try (destruct (existsb _ _); [|reflexivity]).
  - unfold PagesRoutes.get_by_id. simpl in *. rewrite Hfail. reflexivity.
  - rewrite run_put_handler.
    destruct (PagesRoutes.UpdatePageSchema b); [|reflexivity].
    rewrite Hfail. reflexivity.
  - rewrite run_publish_handler.
    destruct (PagesRoutes.PublishPageSchema b); [|reflexivity].
    rewrite Hfail. reflexivity.
  - rewrite run_delete_handler, Hfail. reflexivity.
  - unfold MediaRoutes.get_by_id. simpl in *. rewrite Hfail. reflexivity.
  - rewrite run_media_put_handler.
    destruct (MediaRoutes.UpdateMediaSchema b); [|reflexivity].
    rewrite Hfail. reflexivity.
  - rewrite run_media_delete_handler, Hfail. reflexivity.
  - unfold SitesRoutes.get_by_id, site_findFirst_include. simpl in *.
    rewrite Hfail. reflexivity.
  - unfold SitesRoutes.put_handler.
    destruct (SitesRoutes.UpdateSiteSchema b); [|reflexivity].
    simpl in *. rewrite Hfail. reflexivity.
  - unfold SitesRoutes.publish_handler.
    destruct (SitesRoutes.PublishSiteSchema b); [|reflexivity].
    simpl in *. rewrite Hfail. reflexivity.
  - unfold SitesRoutes.delete_handler. simpl in *. rewrite Hfail. reflexivity.
Qed.


Lemma siteInTenant_owner (db : DB) (siteId t : Id) :
  siteInTenant db siteId t = true <-> siteTenant db siteId = Some t.
Proof.
  unfold siteInTenant, siteTenant. destruct (siteOf db siteId) as [s|]; simpl.
  - rewrite String.eqb_eq. split; congruence.
  - split; discriminate.
Qed.

Lemma owned_lookup_fails (db : DB) (u : ReqUser) (k : Kind) (id t2 : Id) :
  storeKeyed db -> ownedBy db k id t2 -> t2 <> req_user_tenantId u ->
  lookupFails db u k id.
Proof.
  intros (Ks & Kp & Km) Hown Hne.
  assert (Hother : forall siteId, siteTenant db siteId = Some t2 ->
                     siteInTenant db siteId (req_user_tenantId u) = false).
  { intros siteId Ht. destruct (siteInTenant db siteId _) eqn:E; [|reflexivity].
    apply siteInTenant_owner in E. congruence. }
  destruct k; simpl in *.
  - destruct Hown as (s & Hs & Hid & Ht). apply find_none_iff. intros q Hq.
    destruct (String.eqb (site_id q) id) eqn:E; [|reflexivity].
    apply String.eqb_eq in E.
    assert (q = s) by (apply (keyed_unique site_id (sites db)); auto; congruence).
    subst q. simpl. apply String.eqb_neq. congruence.
  - destruct Hown as (p & Hp & Hid & Ht). apply find_none_iff. intros q Hq.
    destruct (String.eqb (page_id q) id) eqn:E; [|reflexivity].
    apply String.eqb_eq in E.
    assert (q = p) by (apply (keyed_unique page_id (pages db)); auto; congruence).
    subst q. simpl. now apply Hother.
  - destruct Hown as (m & Hm & Hid & Ht). apply find_none_iff. intros q Hq.
    destruct (String.eqb (media_id q) id) eqn:E; [|reflexivity].
    apply String.eqb_eq in E.
    assert (q = m) by (apply (keyed_unique media_id (media db)); auto; congruence).
    subst q. simpl. now apply Hother.
Qed.

Lemma absent_lookup_fails (db : DB) (u : ReqUser) (k : Kind) (id : Id) :
  absent db k id -> lookupFails db u k id.
Proof.
  intros Habs. destruct k; simpl in *; apply find_none_iff; intros q Hq;
    apply andb_false_iff; left; apply String.eqb_neq; now apply Habs.
Qed.

Lemma turnedDown_403 (u : ReqUser) (a : ByIdAction) :
  status (turnedDown u a) = 403 -> passesGate u a = false.
Proof.
  unfold turnedDown. destruct (passesGate u a); [|reflexivity].
  destruct (bodyAccepted a); [|discriminate].
  destruct (kindOf a); discriminate.
Qed.

Lemma In_firstn (A : Type) (n : nat) (l : list A) (x : A) :
  In x (firstn n l) -> In x l.
Proof.
  revert l. induction n as [|n IH]; intros [|a l]; simpl; try tauto.
  intros [->|Hx]; auto.
Qed.

Lemma pagesOfSite_tenant (db : DB) (s : Site) (p : Page) :
  NoDup (map site_id (sites db)) -> In s (sites db) ->
  In p (pagesOfSite db (site_id s)) ->
  siteTenant db (page_siteId p) = Some (site_tenantId s).
Proof.
  intros K Hs Hp. apply filter_In in Hp. destruct Hp as [_ Hp].
  apply String.eqb_eq in Hp. unfold siteTenant, siteOf. rewrite Hp.
  rewrite (@find_keyed _ site_id _ (site_id s) (sites db) s); auto.
  - apply String.eqb_refl.
  - intros b Hb. now apply String.eqb_eq.
Qed.

Lemma mediaOfSite_tenant (db : DB) (s : Site) (m : Media) :
  NoDup (map site_id (sites db)) -> In s (sites db) ->
  In m (mediaOfSite db (site_id s)) ->
  siteTenant db (media_siteId m) = Some (site_tenantId s).
Proof.
  intros K Hs Hm. apply filter_In in Hm. destruct Hm as [_ Hm].
  apply String.eqb_eq in Hm. unfold siteTenant, siteOf. rewrite Hm.
  rewrite (@find_keyed _ site_id _ (site_id s) (sites db) s); auto.
  - apply String.eqb_refl.
  - intros b Hb. now apply String.eqb_eq.
Qed.

Lemma read_returns_own_rows (db : DB) (u : ReqUser) (rd : Read) (r : Row) :
  storeKeyed db ->
  In r (returned (body (snd (run (read u rd) db)))) ->
  tenantOfRow db r = Some (req_user_tenantId u).
Proof.
  intros (Ks & _ & _). destruct rd as [id|q|id|q|id|]; simpl.
  - destruct (find _ (pages db)) as [p|] eqn:E; simpl; [|tauto].
    intros [<-|[]]. apply find_some in E. destruct E as [_ E].
    apply andb_true_iff in E. simpl. apply siteInTenant_owner. tauto.
  - unfold PagesRoutes.get_list.
    assert (Hrows : forall st p,
               In p (filter (PagesRoutes.whereClause u q st db) (pages db)) ->
               siteTenant db (page_siteId p) = Some (req_user_tenantId u)).
    { intros st p Hp. apply filter_In in Hp. destruct Hp as [_ Hp].
      unfold PagesRoutes.whereClause in Hp. rewrite !andb_true_iff in Hp.
      apply siteInTenant_owner. tauto. }
    destruct (given (PagesRoutes.q_status q)) as [s|]; simpl.
    + destruct (PagesRoutes.status_of_string s) as [st|]; simpl; [|tauto].
      intros Hr. apply in_map_iff in Hr. destruct Hr as (p & <- & Hp).
      now apply Hrows with (st := Some st).
    + intros Hr. apply in_map_iff in Hr. destruct Hr as (p & <- & Hp).
      now apply Hrows with (st := None).
  - destruct (find _ (media db)) as [m|] eqn:E; simpl; [|tauto].
    intros [<-|[]]. apply find_some in E. destruct E as [_ E].
    apply andb_true_iff in E. simpl. apply siteInTenant_owner. tauto.
  - intros Hr. apply in_map_iff in Hr. destruct Hr as (m & <- & Hm).
    apply filter_In in Hm. destruct Hm as [_ Hm].
    unfold MediaRoutes.whereClause in Hm. rewrite !andb_true_iff in Hm.
    apply siteInTenant_owner. tauto.
  - destruct (find _ (sites db)) as [s|] eqn:E; simpl; [|tauto].
    apply find_some in E. destruct E as [Hs E].
    apply andb_true_iff in E. destruct E as [_ E]. apply String.eqb_eq in E.
    intros [<-|Hr]; [simpl; congruence|].
    apply in_app_iff in Hr. destruct Hr as [Hr|Hr];
      apply in_map_iff in Hr; destruct Hr as (x & <- & Hx); simpl; rewrite <- E.
    + now apply pagesOfSite_tenant.
    + apply mediaOfSite_tenant; auto.
      apply (@In_firstn _ 10 (rev (mediaOfSite db (site_id s)))) in Hx.
      now apply in_rev.
  - intros Hr. apply in_flat_map in Hr. destruct Hr as ((s & ps) & Hsp & Hr).
    apply in_map_iff in Hsp. destruct Hsp as (s' & Es & Hs').
    injection Es as -> <-.
    apply filter_In in Hs'. destruct Hs' as [Hs' E]. apply String.eqb_eq in E.
    simpl in Hr. destruct Hr as [<-|Hr]; [simpl; congruence|].
    apply in_map_iff in Hr. destruct Hr as (p & <- & Hp). simpl. rewrite <- E.
    now apply pagesOfSite_tenant.
Qed.

End Isolation.

(** C2, as the code has it.  Addressing by id a site, page or media
    row that another tenant owns is answered exactly as addressing an
    id that does not exist, and changes nothing; when the caller's
    role passes the role gate of the route and the schema accepts the
    body, that answer is the 404 of the resource; a 403 answer is the
    role gate's and never an ownership error.  And every row a read
    returns belongs to the caller's tenant. *)
Theorem cross_tenant_is_not_found `{Collaborators} :
  (forall db u a id t2,
      storeKeyed db -> ownedBy db (kindOf a) id t2 -> t2 <> req_user_tenantId u ->
      (passesGate u a = true -> bodyAccepted a = true ->
       run (byId u a id) db = (db, notFound (kindOf a)))
      /\ (forall id', absent db (kindOf a) id' ->
            run (byId u a id) db = run (byId u a id') db)
      /\ fst (run (byId u a id) db) = db
      /\ (status (snd (run (byId u a id) db)) = 403 -> passesGate u a = false))
  /\ (forall db u rd r,
        storeKeyed db ->
        In r (returned (body (snd (run (read u rd) db)))) ->
        tenantOfRow db r = Some (req_user_tenantId u)).
Proof.
  split.
  - intros db u a id t2 K Hown Hne.
    pose proof (@byId_lookup_fails _ db u a id
                  (@owned_lookup_fails db u (kindOf a) id t2 K Hown Hne)) as E.
    rewrite E. repeat split.
    + intros Hg Hb. unfold turnedDown. rewrite Hg, Hb. reflexivity.
    + intros id' Habs.
      rewrite (@byId_lookup_fails _ db u a id'
                 (@absent_lookup_fails db u (kindOf a) id' Habs)). reflexivity.
    + apply turnedDown_403.
  - intros. now apply read_returns_own_rows with (rd := rd).
Qed.

Lemma archivedStore_keyed : storeKeyed archivedStore.
Proof.
  vm_compute. repeat split;
    repeat (constructor; [simpl; intuition discriminate|]); constructor.
Qed.

Lemma archivedPage_owned : ownedBy archivedStore KPage "p1" "acme".
Proof.
  exists archivedPage. repeat split. vm_compute. left. reflexivity.
Qed.

Lemma cross_tenant_is_not_found_witness :
  run (byId (H := exampleCollaborators) outsideAdmin DeletePage "p1") archivedStore
  = (archivedStore, PagesRoutes.not_found).
Proof.
  refine (proj1 (proj1 (@cross_tenant_is_not_found exampleCollaborators)
                   archivedStore outsideAdmin DeletePage "p1" "acme"
                   archivedStore_keyed archivedPage_owned _) eq_refl eq_refl).
  discriminate.
Defined.

(** The claim of C2 fails where the role gate or the schema answers
    first: a VIEWER of another tenant who asks for the deletion of the
    page is answered 403, and an update with a body the schema rejects
    is answered 400, not 404. *)
Lemma cross_tenant_viewer_is_forbidden :
  ownedBy archivedStore KPage "p1" "acme"
  /\ req_user_tenantId outsideViewer <> "acme"
  /\ snd (run (byId (H := exampleCollaborators) outsideViewer DeletePage "p1")
            archivedStore)
     = json 403 (ErrorMessage "Insufficient permissions"
         "Required role: ADMIN or EDITOR or SUPER_ADMIN, your role: VIEWER")
  /\ snd (run (byId (H := exampleCollaborators) outsideAdmin (PutPage JNull 0) "p1")
            archivedStore)
     = PagesRoutes.validation_error.
Proof.
  split; [exact archivedPage_owned|].
  split; [discriminate|]. split; reflexivity.
Qed.

(** * Further properties of the code *)

(** ** [AuthMiddleware.authenticate] *)

Section AuthenticateMore.
Context `{Collaborators}.
Import AuthMiddleware Store.

(** X1.  [authenticate] hands the request on only for a token that
    verifies under the secret and has not expired, whose payload the
    schema accepts, and whose [userId] is the id of an active user of
    the store; the identity it hands on is read from that user's row
    and the tenant row, not from the token.  In every other case the
    answer is a 401 or a 500 and the store is left alone. *)
Theorem authenticate_next_only_for_active_user
  (h : AuthHeader) (now : Z) (next : ReqUser -> ReqTenant -> Prog Response)
  (db : DB) :
  (exists r, (status r = 401 \/ status r = 500)
             /\ run (authenticate h now next) db = (db, r))
  \/ (exists token decoded payload usr tenant,
        h = Bearer token
        /\ Jsonwebtoken.verify token JWT_SECRET now = Some decoded
        /\ JWTPayloadSchema decoded = Some payload
        /\ In usr (users db) /\ user_id usr = userId payload
        /\ user_isActive usr = true
        /\ In tenant (tenants db) /\ tenant_id tenant = user_tenantId usr
        /\ run (authenticate h now next) db
           = run (next (identityOf usr) (reqTenantOf tenant)) db).
Proof.
  unfold authenticate.
  destruct h as [|raw|token]; try (left; eexists; split; [|reflexivity]; simpl; auto).
  destruct (Jsonwebtoken.verify token JWT_SECRET now) as [decoded|] eqn:Ev;
    [|left; eexists; split; [|reflexivity]; simpl; auto].
  destruct (JWTPayloadSchema decoded) as [payload|] eqn:Es;
    [|left; eexists; split; [|reflexivity]; simpl; auto].
  simpl.
  destruct (find _ (users db)) as [usr|] eqn:Eu;
    [|left; eexists; split; [|reflexivity]; simpl; auto].
  apply find_some in Eu. destruct Eu as [Hin Hu].
  apply andb_true_iff in Hu. destruct Hu as [Hid Hact]. apply String.eqb_eq in Hid.
  unfold tenantOf.
  destruct (find _ (tenants db)) as [tenant|] eqn:Et;
    [|left; eexists; split; [|reflexivity]; simpl; auto].
  apply find_some in Et. destruct Et as [Hint Htid]. apply String.eqb_eq in Htid.
  right. exists token, decoded, payload, usr, tenant. repeat split; auto.
Qed.

Lemma access_token_payload id mail rl tid issued :
  isEmail mail = true ->
  JWTPayloadSchema (jwt_claims (generateToken id mail rl tid issued))
  = Some {| userId := id; email := mail; role := rl; tenantId := tid |}.
Proof.
  intros He. unfold JWTPayloadSchema, generateToken, Jsonwebtoken.sign. simpl.
  unfold refine. rewrite He. reflexivity.
Qed.

Lemma access_token_verify id mail rl tid issued now :
  Jsonwebtoken.verify (Jsonwebtoken.Signed (generateToken id mail rl tid issued))
    JWT_SECRET now
  = if (issued + 86400 <=? now)%Z then None
    else Some (jwt_claims (generateToken id mail rl tid issued)).
Proof.
  unfold Jsonwebtoken.verify, Jsonwebtoken.active, Jsonwebtoken.not_expired,
    generateToken, Jsonwebtoken.sign.
  simpl jwt_key. rewrite String.eqb_refl. simpl.
  destruct (issued + 86400 <=? now)%Z; reflexivity.
Qed.

Lemma access_token_accepted
  (id mail rl tid : string) (issued now : Z)
  (next : ReqUser -> ReqTenant -> Prog Response)
  (db : DB) (usr : User) (tenant : Tenant) :
  isEmail mail = true ->
  snd (user_findUnique_id id db) = Some (usr, Some tenant) ->
  (now < issued + 86400)%Z ->
  run (authenticate (Bearer (Jsonwebtoken.Signed (generateToken id mail rl tid issued)))
         now next) db
  = run (next (identityOf usr) (reqTenantOf tenant)) db.
Proof.
  intros He Hu Hlt. unfold authenticate. rewrite access_token_verify.
  destruct (Z.leb_spec (issued + 86400) now); [lia|].
  rewrite access_token_payload; auto.
  simpl in *. rewrite Hu. reflexivity.
Qed.

(** X2.  An access token of [generateToken] is good for 24 hours to
    the second: before [issued + 86400] it authenticates the active
    user whose id it carries, from then on it is answered 401.  A
    token signed with any other key is answered 401 at any time. *)
Theorem access_token_lifetime
  (id mail rl tid : string) (issued now : Z)
  (next : ReqUser -> ReqTenant -> Prog Response)
  (db : DB) (usr : User) (tenant : Tenant) :
  isEmail mail = true ->
  snd (user_findUnique_id id db) = Some (usr, Some tenant) ->
  ((now < issued + 86400)%Z ->
   run (authenticate (Bearer (Jsonwebtoken.Signed (generateToken id mail rl tid issued)))
          now next) db
   = run (next (identityOf usr) (reqTenantOf tenant)) db)
  /\ ((issued + 86400 <= now)%Z ->
      run (authenticate (Bearer (Jsonwebtoken.Signed (generateToken id mail rl tid issued)))
             now next) db
      = (db, invalid_token))
  /\ (forall j, jwt_key j <> JWT_SECRET ->
        run (authenticate (Bearer (Jsonwebtoken.Signed j)) now next) db
        = (db, invalid_token)).
Proof.
  intros He Hu. split; [|split].
  - intros Hlt. now apply access_token_accepted.
  - intros Hge. unfold authenticate. rewrite access_token_verify.
    destruct (Z.leb_spec (issued + 86400) now); [reflexivity|lia].
  - intros j Hk. unfold authenticate, Jsonwebtoken.verify.
    apply String.eqb_neq in Hk. rewrite Hk. reflexivity.
Qed.

End AuthenticateMore.

Lemma access_token_lifetime_witness :
  run (AuthMiddleware.authenticate (H := exampleCollaborators)
         (AuthMiddleware.Bearer (Jsonwebtoken.Signed
            (AuthMiddleware.generateToken (H := exampleCollaborators)
               "u1" "a@acme.com" "VIEWER" "globex" 0)))
         86399 (fun u _ => Ret (json 200 (Message (req_user_role u))))) userStore
  = (userStore, json 200 (Message "ADMIN"))
  /\ run (AuthMiddleware.authenticate (H := exampleCollaborators)
            (AuthMiddleware.Bearer (Jsonwebtoken.Signed
               (AuthMiddleware.generateToken (H := exampleCollaborators)
                  "u1" "a@acme.com" "VIEWER" "globex" 0)))
            86400 (fun u _ => Ret (json 200 (Message (req_user_role u))))) userStore
     = (userStore, invalid_token).
Proof.
  pose proof (@access_token_lifetime exampleCollaborators
                "u1" "a@acme.com" "VIEWER" "globex" 0%Z) as L.
  split.
  - refine (proj1 (L 86399%Z _ userStore demoUser
                     {| tenant_id := "acme"; tenant_name := "Acme";
                        tenant_domain := "acme.com" |} eq_refl eq_refl) _).
    lia.
  - refine (proj1 (proj2 (L 86400%Z _ userStore demoUser
                     {| tenant_id := "acme"; tenant_name := "Acme";
                        tenant_domain := "acme.com" |} eq_refl eq_refl)) _).
    lia.
Defined.

(** ** Login, then an authenticated request *)

Section LoginRoundTrip.
Context `{Collaborators}.
Import AuthMiddleware AuthRoutes Store.

Lemma LoginSchema_email body mail password :
  LoginSchema body = Some (mail, password) -> isEmail mail = true.
Proof.
  unfold LoginSchema. destruct body as [| | | | |o]; try discriminate.
  unfold obind, refine, zstring.
  destruct (prop o "email") as [[| | |s| |]|]; try discriminate.
  destruct (isEmail s) eqn:E; [|discriminate].
  destruct (zstring_min1 _); [|discriminate].
  intros [= <- _]. exact E.
Qed.

(** What a login answered with 200 has established. *)
Lemma login_succeeded body now db usr tenant access refresh :
  run (login body now) db = (db, json 200 (LoginBody usr tenant access refresh)) ->
  In usr (users db) /\ user_isActive usr = true /\ isEmail (user_email usr) = true
  /\ tenantOf db (user_tenantId usr) = Some tenant
  /\ (exists password, bcryptCompare password (user_password usr) = true)
  /\ access = generateToken (user_id usr) (user_email usr) (user_role usr)
                (user_tenantId usr) now
  /\ refresh = generateRefreshToken (user_id usr) now.
Proof.
  unfold login.
  destruct (LoginSchema body) as [[mail password]|] eqn:Ep; [|discriminate].
  simpl. destruct (find _ (users db)) as [u|] eqn:Eu; [|discriminate].
  destruct (bcryptCompare password (user_password u)) eqn:Epw; simpl; [|discriminate].
  destruct (tenantOf db (user_tenantId u)) as [t|] eqn:Et; [|discriminate].
  intros [= <- <- <- <-].
  apply find_some in Eu. destruct Eu as [Hin Hu].
  apply andb_true_iff in Hu. destruct Hu as [Hmail Hact].
  apply String.eqb_eq in Hmail.
  repeat split; auto.
  - rewrite Hmail. now apply LoginSchema_email with (body := body) (password := password).
  - now exists password.
Qed.

(** X3.  The access token of a successful login authenticates, for
    the next 24 hours, as the user who logged in: the request is
    handed on with that user's id, email, role and tenant. *)
Theorem login_token_authenticates
  (body : Json) (issued now : Z) (db : DB) (usr : User) (tenant : Tenant)
  (access refresh : Jwt) (next : ReqUser -> ReqTenant -> Prog Response) :
  usersKeyed db ->
  run (login body issued) db = (db, json 200 (LoginBody usr tenant access refresh)) ->
  (now < issued + 86400)%Z ->
  run (authenticate (Bearer (Jsonwebtoken.Signed access)) now next) db
  = run (next (identityOf usr) (reqTenantOf tenant)) db.
Proof.
  intros K Hlogin Hlt.
  destruct (login_succeeded body issued Hlogin) as (Hin & Hact & Hmail & Ht & _ & -> & _).
  apply access_token_accepted; auto.
  simpl. rewrite (@find_keyed _ user_id _ (user_id usr) (users db) usr); auto.
  - rewrite Ht. reflexivity.
  - rewrite String.eqb_refl, Hact. reflexivity.
  - intros b Hb. apply andb_true_iff in Hb. destruct Hb as [Hb _].
    now apply String.eqb_eq.
Qed.

End LoginRoundTrip.

Lemma login_token_authenticates_witness :
  exists access refresh,
    run (AuthRoutes.login (H := exampleCollaborators)
           (loginBody "a@acme.com" "secret") 1000) userStore
    = (userStore,
       json 200 (LoginBody demoUser
                   {| tenant_id := "acme"; tenant_name := "Acme";
                      tenant_domain := "acme.com" |} access refresh))
    /\ run (AuthMiddleware.authenticate (H := exampleCollaborators)
              (AuthMiddleware.Bearer (Jsonwebtoken.Signed access)) 2000
              (fun u _ => Ret (json 200 (Message (req_user_id u))))) userStore
       = (userStore, json 200 (Message "u1")).
Proof.
  eexists. eexists. split; [reflexivity|].
  refine (@login_token_authenticates exampleCollaborators
            (loginBody "a@acme.com" "secret") 1000 2000 userStore demoUser _ _ _ _
            _ eq_refl _).
  - constructor; [intros []|constructor].
  - lia.
Defined.

(** ** The role gate of the routes *)

Section RoleGate.
Context `{Collaborators} `{SchemaDefaults}.

Lemma mutate_gate (u : ReqUser) (m : Mutation) (db : DB) (roles : list string) :
  rolesFor m = Some roles ->
  run (mutate u m) db
  = if existsb (String.eqb (req_user_role u)) roles
    then run (match m with
              | ById GetPage _ | ById GetMedia _ | ById GetSite _ => mutate u m
              | ById (PutPage b now) id => PagesRoutes.put_handler u id b now
              | ById (PublishPage b now) id => PagesRoutes.publish_handler u id b now
              | ById DeletePage id => PagesRoutes.delete_handler u id
              | ById (PutMedia b) id => MediaRoutes.put_handler u id b
              | ById DeleteMedia id => MediaRoutes.delete_handler u id
              | ById (PutSite b) id => SitesRoutes.put_handler u id b
              | ById (PublishSite b) id => SitesRoutes.publish_handler u id b
              | ById DeleteSite id => SitesRoutes.delete_handler u id
              | NewPage b newId now => PagesRoutes.post_handler u b newId now
              | NewMedia b newId => MediaRoutes.post_handler u b newId
              | NewSite b newId => SitesRoutes.post_handler u b newId
              end) db
    else (db, insufficient roles u).
Proof.
  destruct m as [a id|b newId now|b newId|b newId];
    [destruct a as [|b now|b now| | |b| | |b|b|]|..];
    cbn [rolesFor gateRoles]; intros [= <-]; cbn [mutate byId];
    unfold PagesRoutes.put, PagesRoutes.publish, PagesRoutes.delete, PagesRoutes.post,
      MediaRoutes.put, MediaRoutes.delete, MediaRoutes.post,
      SitesRoutes.put, SitesRoutes.publish, SitesRoutes.delete, SitesRoutes.post;
    apply run_requireRole.
Qed.

(** X4.  A request whose route is gated answers 403 to a user whose
    role the gate does not list, naming the roles, and touches
    nothing: so a VIEWER can change no site, page or media, and an
    EDITOR no site. *)
Theorem role_gate_blocks (u : ReqUser) (db : DB) :
  (forall m roles,
      rolesFor m = Some roles ->
      existsb (String.eqb (req_user_role u)) roles = false ->
      run (mutate u m) db = (db, insufficient roles u))
  /\ (req_user_role u = "VIEWER" ->
      forall m roles, rolesFor m = Some roles ->
        run (mutate u m) db = (db, insufficient roles u))
  /\ (req_user_role u = "EDITOR" ->
      forall m, rolesFor m = Some SitesRoutes.admins ->
        run (mutate u m) db = (db, insufficient SitesRoutes.admins u)).
Proof.
  assert (G : forall m roles,
             rolesFor m = Some roles ->
             existsb (String.eqb (req_user_role u)) roles = false ->
             run (mutate u m) db = (db, insufficient roles u)).
  { intros m roles Hr Hg. rewrite (mutate_gate u m db Hr), Hg. reflexivity. }
  split; [exact G|split].
  - intros Hrole m roles Hr. apply G; auto. rewrite Hrole.
    destruct m as [a id| | |]; [destruct a|..]; simpl in Hr;
      try discriminate; injection Hr as <-; reflexivity.
  - intros Hrole m Hr. apply G; auto. rewrite Hrole. reflexivity.
Qed.

End RoleGate.

Lemma role_gate_blocks_witness :
  run (mutate (H := exampleCollaborators) (H0 := exampleDefaults)
         otherEditor (ById DeleteSite "s1")) demoStore
  = (demoStore,
     json 403 (ErrorMessage "Insufficient permissions"
                 "Required role: ADMIN or SUPER_ADMIN, your role: EDITOR")).
Proof.
  exact (proj2 (proj2 (@role_gate_blocks exampleCollaborators exampleDefaults
                         otherEditor demoStore))
           eq_refl (ById DeleteSite "s1") eq_refl).
Defined.

(** ** What a request leaves alone *)

Section Frame.
Context `{Collaborators} `{SchemaDefaults}.
Import Store.

Lemma frame_refl (tu : Id) (db : DB) : frame tu db db.
Proof. repeat split; auto. Qed.

(** A change of the page table alone. *)
Lemma frame_pages (tu : Id) (db db' : DB) :
  tenants db' = tenants db -> users db' = users db ->
  sites db' = sites db -> media db' = media db ->
  (forall q, In q (pages db) ->
     siteInTenant db (page_siteId q) tu = false -> In q (pages db')) ->
  frame tu db db'.
Proof.
  intros Et Eu Es Em Hq. unfold frame, siteTenant, siteOf.
  rewrite Et, Eu, Es, Em. repeat split; auto.
  intros q t2 Hin Ht Hne. apply Hq; auto.
  destruct (siteInTenant db (page_siteId q) tu) eqn:E; [|reflexivity].
  apply siteInTenant_owner in E. unfold siteTenant, siteOf in E. congruence.
Qed.

(** A change of the media table alone. *)
Lemma frame_media (tu : Id) (db db' : DB) :
  tenants db' = tenants db -> users db' = users db ->
  sites db' = sites db -> pages db' = pages db ->
  (forall m, In m (media db) ->
     siteInTenant db (media_siteId m) tu = false -> In m (media db')) ->
  frame tu db db'.
Proof.
  intros Et Eu Es Ep Hm. unfold frame, siteTenant, siteOf.
  rewrite Et, Eu, Es, Ep. repeat split; auto.
  intros m t2 Hin Ht Hne. apply Hm; auto.
  destruct (siteInTenant db (media_siteId m) tu) eqn:E; [|reflexivity].
  apply siteInTenant_owner in E. unfold siteTenant, siteOf in E. congruence.
Qed.

Lemma page_update_keeps (id : Id) (f : Page -> Page) (db : DB) (q : Page) :
  In q (pages db) -> page_id q <> id -> In q (pages (fst (page_update id f db))).
Proof.
  intros Hin Hne. destruct (page_update_pages id f db) as [-> | ->]; auto.
  apply in_map_iff. exists q. apply String.eqb_neq in Hne. rewrite Hne. auto.
Qed.

Lemma page_update_tables (id : Id) (f : Page -> Page) (db : DB) :
  tenants (fst (page_update id f db)) = tenants db
  /\ users (fst (page_update id f db)) = users db
  /\ sites (fst (page_update id f db)) = sites db
  /\ media (fst (page_update id f db)) = media db.
Proof.
  unfold page_update. destruct (find _ (pages db)); auto.
  destruct (page_slug_taken _ _ _ _); auto.
Qed.

(** The page the tenant-scoped lookup finds is not a row of another
    tenant. *)
Lemma found_page_not_foreign (db : DB) (u : ReqUser) (id : Id) (existing q : Page) :
  pagesKeyed db ->
  snd (page_findFirst id (req_user_tenantId u) db) = Some existing ->
  In q (pages db) ->
  siteInTenant db (page_siteId q) (req_user_tenantId u) = false ->
  page_id q <> id
  /\ String.eqb (page_siteId q) (page_siteId existing) = false.
Proof.
  intros K Ef Hq Hforeign.
  destruct (findFirst_found _ _ _ Ef) as (Hin & Hid & Ht). split.
  - intros E. assert (q = existing)
      by (apply (keyed_unique page_id (pages db)); auto; congruence).
    subst q. congruence.
  - apply String.eqb_neq. intros E. rewrite E in Hforeign. congruence.
Qed.

Lemma put_tail_frame (u : ReqUser) (id : Id) (data : PagesRoutes.UpdatePageData)
  (at_ : option Z) (existing : Page) (db : DB) :
  pagesKeyed db ->
  snd (page_findFirst id (req_user_tenantId u) db) = Some existing ->
  frame (req_user_tenantId u) db (fst (run (put_tail id data at_ existing) db)).
Proof.
  intros K Ef. unfold put_tail.
  destruct (PagesRoutes.truthy _); simpl.
  - match goal with
    | |- context [page_update id ?f ?d] =>
        pose proof (page_update_tables id f d) as (Et & Eu & Es & Em);
        pose proof (@page_update_keeps id f d) as Hk;
        destruct (page_update id f d) as [db' [row|]]
    end; simpl in Et, Eu, Es, Em, Hk |- *; apply frame_pages; auto.
    all: intros q Hq Hforeign;
      destruct (@found_page_not_foreign db u id existing q K Ef Hq Hforeign) as [Hne Hs];
      apply Hk; auto; apply in_map_iff; exists q; rewrite Hs; auto.
  - match goal with
    | |- context [page_update id ?f ?d] =>
        pose proof (page_update_tables id f d) as (Et & Eu & Es & Em);
        pose proof (@page_update_keeps id f d) as Hk;
        destruct (page_update id f d) as [db' [row|]]
    end; simpl in Et, Eu, Es, Em, Hk |- *; apply frame_pages; auto.
    all: intros q Hq Hforeign;
      destruct (@found_page_not_foreign db u id existing q K Ef Hq Hforeign) as [Hne Hs];
      apply Hk; auto.
Qed.

Lemma put_page_frame u id b now db :
  pagesKeyed db ->
  frame (req_user_tenantId u) db (fst (run (PagesRoutes.put_handler u id b now) db)).
Proof.
  intros K. rewrite run_put_handler.
  destruct (PagesRoutes.UpdatePageSchema b) as [data|]; [|apply frame_refl].
  destruct (snd (page_findFirst _ _ _)) as [existing|] eqn:Ef; [|apply frame_refl].
  destruct (_ && _); [apply frame_refl|]. cbv zeta.
  destruct (given _); [|now apply put_tail_frame].
  destruct (negb _); [|now apply put_tail_frame].
  destruct (snd (page_findUnique_siteId_slug _ _ _));
    [apply frame_refl|now apply put_tail_frame].
Qed.

Lemma publish_page_frame u id b now db :
  pagesKeyed db ->
  frame (req_user_tenantId u) db (fst (run (PagesRoutes.publish_handler u id b now) db)).
Proof.
  intros K. rewrite run_publish_handler.
  destruct (PagesRoutes.PublishPageSchema b) as [st|]; [|apply frame_refl].
  destruct (snd (page_findFirst _ _ _)) as [existing|] eqn:Ef; [|apply frame_refl].
  destruct (_ && _); [apply frame_refl|]. cbv zeta.
  match goal with
  | |- context [page_update id ?f ?d] =>
      pose proof (page_update_tables id f d) as (Et & Eu & Es & Em);
      pose proof (@page_update_keeps id f d) as Hk;
      destruct (page_update id f d) as [db' [row|]]
  end; simpl in Et, Eu, Es, Em, Hk |- *; apply frame_pages; auto.
  all: intros q Hq Hforeign;
    destruct (@found_page_not_foreign db u id existing q K Ef Hq Hforeign) as [Hne Hs];
    apply Hk; auto.
Qed.

Lemma delete_page_frame u id db :
  pagesKeyed db ->
  frame (req_user_tenantId u) db (fst (run (PagesRoutes.delete_handler u id) db)).
Proof.
  intros K. rewrite run_delete_handler.
  destruct (snd (page_findFirst _ _ _)) as [existing|] eqn:Ef; [|apply frame_refl].
  destruct (_ && _); [apply frame_refl|].
  unfold page_delete. destruct (page_id_taken id (pages db)); simpl;
    [|apply frame_refl].
  apply frame_pages; auto. simpl. intros q Hq Hforeign.
  destruct (@found_page_not_foreign db u id existing q K Ef Hq Hforeign) as [Hne Hs].
  apply filter_In. split; auto. apply negb_true_iff. now apply String.eqb_neq.
Qed.

(** The site the tenant-scoped lookup finds is the site of that id. *)
Lemma found_site_in_tenant (db : DB) (tu sid : Id) (s : Site) :
  NoDup (map site_id (sites db)) ->
  snd (site_findFirst sid tu db) = Some s ->
  In s (sites db) /\ site_id s = sid /\ site_tenantId s = tu
  /\ siteOf db sid = Some s.
Proof.
  intros K Ef. simpl in Ef. apply find_some in Ef. destruct Ef as [Hin Hc].
  apply andb_true_iff in Hc. destruct Hc as [Hid Ht].
  apply String.eqb_eq in Hid, Ht. repeat split; auto.
  unfold siteOf. apply (find_keyed site_id) with (k := sid); auto.
  - rewrite Hid. apply String.eqb_refl.
  - intros b Hb. now apply String.eqb_eq.
Qed.

Lemma post_page_frame u b newId now db :
  NoDup (map site_id (sites db)) ->
  frame (req_user_tenantId u) db (fst (run (PagesRoutes.post_handler u b newId now) db)).
Proof.
  intros K. rewrite run_post_handler.
  destruct (PagesRoutes.CreatePageSchema b) as [data|]; [|apply frame_refl].
  destruct (snd (site_findFirst _ _ _)) as [s|] eqn:Es; [|apply frame_refl].
  destruct (@found_site_in_tenant db _ _ s K Es) as (_ & _ & Ht & Hof).
  destruct (snd (page_findUnique_siteId_slug _ _ _)); [apply frame_refl|].
  cbv zeta.
  set (db1 := if PagesRoutes.truthy _ then _ else db).
  assert (H1 : tenants db1 = tenants db /\ users db1 = users db
               /\ sites db1 = sites db /\ media db1 = media db
               /\ forall q, In q (pages db) ->
                    siteInTenant db (page_siteId q) (req_user_tenantId u) = false ->
                    In q (pages db1)).
  { subst db1. destruct (PagesRoutes.truthy _); simpl; repeat split; auto.
    intros q Hq Hforeign. apply in_map_iff. exists q. split; auto.
    replace (String.eqb (page_siteId q) (PagesRoutes.cp_siteId data)) with false;
      [reflexivity|].
    symmetry. apply String.eqb_neq. intros E. rewrite E in Hforeign.
    unfold siteInTenant in Hforeign. rewrite Hof, Ht, String.eqb_refl in Hforeign.
    discriminate. }
  destruct H1 as (Et & Eu & Ess & Em & Hq1).
  assert (frame (req_user_tenantId u) db
            (fst (page_create (PagesRoutes.new_page u data newId now) db1))).
  { unfold page_create. destruct (_ || _); simpl; apply frame_pages; auto.
    simpl. intros q Hq Hf. apply in_or_app. left. auto. }
  destruct (snd (page_create _ _)); assumption.
Qed.


Lemma found_media_not_foreign (db : DB) (u : ReqUser) (id : Id) (existing m : Media) :
  NoDup (map media_id (media db)) ->
  snd (media_findFirst id (req_user_tenantId u) db) = Some existing ->
  In m (media db) ->
  siteInTenant db (media_siteId m) (req_user_tenantId u) = false ->
  media_id m <> id.
Proof.
  intros K Ef Hm Hforeign. simpl in Ef. apply find_some in Ef.
  destruct Ef as [Hin Hc]. apply andb_true_iff in Hc. destruct Hc as [Hid Ht].
  apply String.eqb_eq in Hid. intros E.
  assert (m = existing)
    by (apply (keyed_unique media_id (media db)); auto; congruence).
  subst m. congruence.
Qed.

Lemma media_update_frame (tu id : Id) (f : Media -> Media) (db : DB) :
  (forall m, In m (media db) ->
     siteInTenant db (media_siteId m) tu = false -> media_id m <> id) ->
  frame tu db (fst (media_update id f db)).
Proof.
  intros Hne. unfold media_update.
  destruct (find _ (media db)) as [found1|]; [|apply frame_refl].
  simpl. apply frame_media; auto. simpl. intros m Hm Hf.
  apply in_map_iff. exists m. split; auto.
  pose proof (Hne m Hm Hf) as E. apply String.eqb_neq in E. rewrite E. reflexivity.
Qed.

Lemma put_media_frame u id b db :
  NoDup (map media_id (media db)) ->
  frame (req_user_tenantId u) db (fst (run (MediaRoutes.put_handler u id b) db)).
Proof.
  intros K. rewrite run_media_put_handler.
  destruct (MediaRoutes.UpdateMediaSchema b) as [data|]; [|apply frame_refl].
  destruct (snd (media_findFirst _ _ _)) as [existing|] eqn:Ef; [|apply frame_refl].
  assert (Hw : frame (req_user_tenantId u) db
                 (fst (media_update id (MediaRoutes.apply_data data) db))).
  { apply media_update_frame. intros m Hm Hf.
    now apply (@found_media_not_foreign db u id existing m). }
  cbv zeta.
  assert (Hw' : frame (req_user_tenantId u) db (fst
            match snd (media_update id (MediaRoutes.apply_data data) db) with
            | None => (fst (media_update id (MediaRoutes.apply_data data) db),
                       PagesRoutes.internal "Failed to update media")
            | Some m0 =>
                (fst (media_update id (MediaRoutes.apply_data data) db),
                 json 200 (MediaBody (Some "Media updated successfully") m0))
            end)) by (destruct (snd (media_update _ _ _)); exact Hw).
  destruct (given _); auto. destruct (negb _); auto.
  destruct (snd (media_findFirst_filename _ _ _)); auto. apply frame_refl.
Qed.

Lemma delete_media_frame u id db :
  NoDup (map media_id (media db)) ->
  frame (req_user_tenantId u) db (fst (run (MediaRoutes.delete_handler u id) db)).
Proof.
  intros K. rewrite run_media_delete_handler.
  destruct (snd (media_findFirst _ _ _)) as [existing|] eqn:Ef; [|apply frame_refl].
  unfold media_delete. destruct (existsb _ (media db)); simpl; [|apply frame_refl].
  apply frame_media; auto. simpl. intros m Hm Hf.
  apply filter_In. split; auto. apply negb_true_iff. apply String.eqb_neq.
  now apply (@found_media_not_foreign db u id existing m).
Qed.

Lemma post_media_frame u b newId db :
  frame (req_user_tenantId u) db (fst (run (MediaRoutes.post_handler u b newId) db)).
Proof.
  unfold MediaRoutes.post_handler.
  destruct (MediaRoutes.CreateMediaSchema b) as [data|]; [|apply frame_refl].
  simpl. destruct (find _ (sites db)) as [found2|]; [|apply frame_refl].
  simpl. destruct (find _ (media db)) as [found3|]; [apply frame_refl|].
  simpl. unfold media_create. destruct (existsb _ (media db)); simpl;
    [apply frame_refl|].
  apply frame_media; auto. simpl. intros m Hm _. apply in_or_app. auto.
Qed.

(** Looking a site up by id after the site [id] has been rewritten or
    removed, or a site has been added. *)
Lemma find_site_map (id sid : Id) (g : Site -> Site) (l : list Site) :
  (forall s, site_id (g s) = site_id s) -> sid <> id ->
  find (fun s => String.eqb (site_id s) sid)
    (map (fun s => if String.eqb (site_id s) id then g s else s) l)
  = find (fun s => String.eqb (site_id s) sid) l.
Proof.
  intros Hg Hne. induction l as [|s l IH]; simpl; [reflexivity|].
  destruct (String.eqb (site_id s) id) eqn:E.
  - rewrite Hg. apply String.eqb_eq in E. rewrite E.
    replace (String.eqb id sid) with false; [exact IH|].
    symmetry. apply String.eqb_neq. congruence.
  - rewrite IH. reflexivity.
Qed.

Lemma find_site_filter (id sid : Id) (l : list Site) :
  sid <> id ->
  find (fun s => String.eqb (site_id s) sid)
    (filter (fun s => negb (String.eqb (site_id s) id)) l)
  = find (fun s => String.eqb (site_id s) sid) l.
Proof.
  intros Hne. induction l as [|s l IH]; simpl; [reflexivity|].
  destruct (String.eqb (site_id s) id) eqn:E; simpl.
  - apply String.eqb_eq in E. rewrite E.
    replace (String.eqb id sid) with false; [exact IH|].
    symmetry. apply String.eqb_neq. congruence.
  - rewrite IH. reflexivity.
Qed.

Lemma find_app_found (A : Type) (P : A -> bool) (l l' : list A) (x : A) :
  find P l = Some x -> find P (l ++ l') = Some x.
Proof.
  induction l as [|a l IH]; simpl; [discriminate|].
  destruct (P a); auto.
Qed.

(** A site of another tenant does not have the id of a site the
    tenant-scoped lookup has found. *)
Lemma foreign_site_id (db : DB) (tu id sid t2 : Id) (existing : Site) :
  NoDup (map site_id (sites db)) ->
  snd (site_findFirst id tu db) = Some existing ->
  siteTenant db sid = Some t2 -> t2 <> tu -> sid <> id.
Proof.
  intros K Ef Ht Hne E. subst sid.
  destruct (@found_site_in_tenant db tu id existing K Ef) as (_ & _ & Hte & Hof).
  unfold siteTenant in Ht. rewrite Hof in Ht. simpl in Ht. congruence.
Qed.

Lemma site_update_frame (tu id : Id) (g : Site -> Site) (existing : Site) (db : DB) :
  NoDup (map site_id (sites db)) ->
  snd (site_findFirst id tu db) = Some existing ->
  (forall s, site_id (g s) = site_id s) ->
  frame tu db (fst (site_update id g db)).
Proof.
  intros K Ef Hg. unfold site_update.
  destruct (find _ (sites db)) as [found4|]; [|apply frame_refl].
  destruct (site_domain_taken _ _ _); [apply frame_refl|].
  destruct (@found_site_in_tenant db tu id existing K Ef) as (Hin & Hid & Hte & Hof).
  unfold frame. simpl. repeat split; auto.
  - intros sid t2 Ht Hne. unfold siteTenant, siteOf in *. simpl.
    rewrite find_site_map; auto.
    now apply (@foreign_site_id db tu id sid t2 existing).
  - intros s Hs Hne. apply in_map_iff. exists s. split; auto.
    destruct (String.eqb (site_id s) id) eqn:E; [|reflexivity].
    exfalso. apply String.eqb_eq in E.
    assert (s = existing)
      by (apply (keyed_unique site_id (sites db)); auto; congruence).
    subst s. congruence.
Qed.

Lemma put_site_frame u id b db :
  NoDup (map site_id (sites db)) ->
  frame (req_user_tenantId u) db (fst (run (SitesRoutes.put_handler u id b) db)).
Proof.
  intros K. unfold SitesRoutes.put_handler.
  destruct (SitesRoutes.UpdateSiteSchema b) as [data|]; [|apply frame_refl].
  simpl. destruct (find _ (sites db)) as [existing|] eqn:Ef; [|apply frame_refl].
  assert (Hw : forall (k1 : Response) (k2 : Site -> Response),
    frame (req_user_tenantId u) db
      (fst (run (let* row := await site_update id (SitesRoutes.apply_data data) in
                 match row with
                 | None => Ret k1
                 | Some s => Ret (k2 s)
                 end) db))).
  { intros. simpl.
    pose proof (@site_update_frame (req_user_tenantId u) id
                  (SitesRoutes.apply_data data) existing db K Ef
                  (fun s => eq_refl)) as F.
    destruct (site_update id (SitesRoutes.apply_data data) db) as [db' [row|]];
      exact F. }
  clear Ef. destruct (given _); [|apply Hw].
  destruct (match site_domain existing with Some d => _ | None => true end);
    [|apply Hw].
  simpl. destruct (find _ (sites db)) as [found5|]; [apply frame_refl|apply Hw].
Qed.

Lemma publish_site_frame u id b db :
  NoDup (map site_id (sites db)) ->
  frame (req_user_tenantId u) db (fst (run (SitesRoutes.publish_handler u id b) db)).
Proof.
  intros K. unfold SitesRoutes.publish_handler.
  destruct (SitesRoutes.PublishSiteSchema b) as [isPublished|]; [|apply frame_refl].
  simpl. destruct (find _ (sites db)) as [existing|] eqn:Ef; [|apply frame_refl].
  simpl.
  pose proof (@site_update_frame (req_user_tenantId u) id
                (SitesRoutes.set_isPublished isPublished) existing db K Ef
                (fun s => eq_refl)) as F.
  destruct (site_update id (SitesRoutes.set_isPublished isPublished) db)
    as [db' [row|]]; exact F.
Qed.

Lemma delete_site_frame u id db :
  NoDup (map site_id (sites db)) ->
  frame (req_user_tenantId u) db (fst (run (SitesRoutes.delete_handler u id) db)).
Proof.
  intros K. unfold SitesRoutes.delete_handler.
  simpl. destruct (find _ (sites db)) as [existing|] eqn:Ef; [|apply frame_refl].
  simpl. unfold site_delete. destruct (existsb _ (sites db)); simpl;
    [|apply frame_refl].
  destruct (@found_site_in_tenant db (req_user_tenantId u) id existing K Ef)
    as (Hin & Hid & Hte & Hof).
  assert (Hother : forall sid t2, siteTenant db sid = Some t2 ->
                     t2 <> req_user_tenantId u -> sid <> id)
    by (intros sid t2; now apply (@foreign_site_id db _ id sid t2 existing)).
  unfold frame. simpl. repeat split; auto.
  - intros sid t2 Ht Hne. unfold siteTenant, siteOf in *. simpl.
    rewrite find_site_filter; eauto.
  - intros s Hs Hne. apply filter_In. split; auto.
    apply negb_true_iff. apply String.eqb_neq. intros E.
    assert (s = existing)
      by (apply (keyed_unique site_id (sites db)); auto; congruence).
    subst s. congruence.
  - intros q t2 Hq Ht Hne. apply filter_In. split; auto.
    apply negb_true_iff. apply String.eqb_neq. eauto.
  - intros m t2 Hm Ht Hne. apply filter_In. split; auto.
    apply negb_true_iff. apply String.eqb_neq. eauto.
Qed.

Lemma site_create_frame (tu : Id) (row : Site) (db : DB) :
  frame tu db (fst (site_create row db)).
Proof.
  unfold site_create. destruct (_ || _); [apply frame_refl|].
  unfold frame. simpl. repeat split; auto.
  - intros sid t2 Ht Hne. unfold siteTenant, siteOf in *. simpl.
    destruct (find _ (sites db)) as [s|] eqn:E; [|discriminate].
    rewrite (find_app_found _ _ [row] E). exact Ht.
  - intros s Hs _. apply in_or_app. auto.
Qed.

Lemma post_site_frame u b newId db :
  frame (req_user_tenantId u) db (fst (run (SitesRoutes.post_handler u b newId) db)).
Proof.
  unfold SitesRoutes.post_handler.
  destruct (SitesRoutes.CreateSiteSchema b) as [data|]; [|apply frame_refl].
  assert (Hw : forall (k1 : Response) (k2 : Site -> Response),
    frame (req_user_tenantId u) db
      (fst (run (let* site := await site_create (SitesRoutes.new_site u data newId) in
                 match site with
                 | None => Ret k1
                 | Some s => Ret (k2 s)
                 end) db))).
  { intros. simpl.
    pose proof (site_create_frame (req_user_tenantId u)
                  (SitesRoutes.new_site u data newId) db) as F.
    destruct (site_create (SitesRoutes.new_site u data newId) db) as [db' [row|]];
      exact F. }
  destruct (given _); [|apply Hw].
  simpl. destruct (find _ (sites db)) as [found6|]; [apply frame_refl|apply Hw].
Qed.

End Frame.

Section FrameTheorem.
Context `{Collaborators} `{SchemaDefaults}.

Lemma mutate_frame (db : DB) (u : ReqUser) (m : Mutation) :
  storeKeyed db -> frame (req_user_tenantId u) db (fst (run (mutate u m) db)).
Proof.
  intros (Ks & Kp & Km).
  destruct (rolesFor m) as [roles|] eqn:Er.
  - rewrite (mutate_gate u m db Er).
    destruct (existsb _ roles); [|apply frame_refl].
    destruct m as [a id|b newId now|b newId|b newId];
      [destruct a as [|b now|b now| | |b| | |b|b|]|..];
      try discriminate.
    + now apply put_page_frame.
    + now apply publish_page_frame.
    + now apply delete_page_frame.
    + now apply put_media_frame.
    + now apply delete_media_frame.
    + now apply put_site_frame.
    + now apply publish_site_frame.
    + now apply delete_site_frame.
    + now apply post_page_frame.
    + apply post_media_frame.
    + apply post_site_frame.
  - destruct m as [a id| | |]; try discriminate.
    destruct a; try discriminate; simpl.
    + destruct (find _ (pages db)); apply frame_refl.
    + destruct (find _ (media db)); apply frame_refl.
    + destruct (find _ (sites db)); apply frame_refl.
Qed.

(** X5.  Whatever a user asks of the content routes, the tenant and
    user tables stay as they are, and every site, page and media row
    that another tenant owns stays in the store, unchanged and still
    owned by that tenant. *)
Theorem other_tenants_rows_untouched (db : DB) (u : ReqUser) (m : Mutation) :
  storeKeyed db ->
  tenants (fst (run (mutate u m) db)) = tenants db
  /\ users (fst (run (mutate u m) db)) = users db
  /\ forall r t2,
       rowIn db r -> tenantOfRow db r = Some t2 -> t2 <> req_user_tenantId u ->
       rowIn (fst (run (mutate u m) db)) r
       /\ tenantOfRow (fst (run (mutate u m) db)) r = Some t2.
Proof.
  intros K. destruct (mutate_frame u m K) as (Et & Eu & Hsid & Hs & Hp & Hm).
  split; [exact Et|split; [exact Eu|]].
  intros [s|p|md] t2 Hin Ht Hne; simpl in *.
  - split; [|exact Ht]. apply Hs; auto. congruence.
  - split; [now apply Hp with (t2 := t2)|now apply Hsid].
  - split; [now apply Hm with (t2 := t2)|now apply Hsid].
Qed.

End FrameTheorem.

Lemma sharedStore_keyed : storeKeyed sharedStore.
Proof.
  repeat split; repeat (constructor; [simpl; intuition discriminate|]); constructor.
Qed.

Lemma other_tenants_rows_untouched_witness :
  rowIn (fst (run (mutate (H := exampleCollaborators) (H0 := exampleDefaults)
                     outsideAdmin (ById DeleteSite "g1")) sharedStore))
    (PageRow (plainPage "p1" "home"))
  /\ sites (fst (run (mutate (H := exampleCollaborators) (H0 := exampleDefaults)
                        outsideAdmin (ById DeleteSite "g1")) sharedStore))
     = [demoSite].
Proof.
  split; [|reflexivity].
  refine (proj1 (proj2 (proj2
    (@other_tenants_rows_untouched exampleCollaborators exampleDefaults
       sharedStore outsideAdmin (ById DeleteSite "g1") sharedStore_keyed))
    (PageRow (plainPage "p1" "home")) "acme" _ eq_refl _)).
  - left. reflexivity.
  - discriminate.
Defined.

(** ** Creating, reading and deleting a page *)

Section PageRoundTrip.
Context `{Collaborators}.
Import PagesRoutes Store.

Lemma find_last (A : Type) (P : A -> bool) (l : list A) (x : A) :
  (forall a, In a l -> P a = false) -> P x = true -> find P (l ++ [x]) = Some x.
Proof.
  intros Hl Hx. induction l as [|a l IH]; simpl.
  - rewrite Hx. reflexivity.
  - rewrite (Hl a (or_introl eq_refl)). apply IH. intros; apply Hl; simpl; auto.
Qed.

(** What a create answered with 201 has done. *)
Lemma post_created u b newId now db row :
  NoDup (map site_id (sites db)) ->
  snd (run (post u b newId now) db)
  = json 201 (PageBody (Some "Page created successfully") row) ->
  exists data db1,
    CreatePageSchema b = Some data
    /\ row = new_page u data newId now
    /\ siteInTenant db (cp_siteId data) (req_user_tenantId u) = true
    /\ sites db1 = sites db
    /\ page_id_taken newId (pages db1) = false
    /\ fst (run (post u b newId now) db) = with_pages db1 (pages db1 ++ [row]).
Proof.
  intros K. unfold post. rewrite run_requireRole.
  destruct (existsb _ _); [|discriminate].
  rewrite run_post_handler.
  destruct (CreatePageSchema b) as [data|]; [|discriminate].
  destruct (snd (site_findFirst _ _ _)) as [s|] eqn:Es; [|discriminate].
  destruct (@found_site_in_tenant db _ _ s K Es) as (_ & _ & Ht & Hof).
  destruct (snd (page_findUnique_siteId_slug _ _ _)); [discriminate|].
  cbv zeta.
  set (db1 := if truthy _ then _ else db).
  assert (Hs1 : sites db1 = sites db) by (subst db1; destruct (truthy _); reflexivity).
  unfold page_create.
  destruct (page_id_taken _ (pages db1)) eqn:Eid; simpl; [discriminate|].
  destruct (page_slug_taken _ _ _ _); simpl; [discriminate|].
  intros [= <-]. exists data, db1. repeat split; auto.
  unfold siteInTenant. rewrite Hof, Ht. apply String.eqb_refl.
Qed.

(** X6.  A page that [POST /pages] has created is what [GET
    /pages/:id] returns to its creator under the id the store gave it:
    the row of the 201 response, authored by the caller. *)
Theorem created_page_is_readable u b newId now db row :
  NoDup (map site_id (sites db)) ->
  snd (run (post u b newId now) db)
  = json 201 (PageBody (Some "Page created successfully") row) ->
  run (get_by_id u newId) (fst (run (post u b newId now) db))
  = (fst (run (post u b newId now) db), json 200 (PageBody None row))
  /\ page_id row = newId /\ page_authorId row = req_user_id u.
Proof.
  intros K Hpost.
  destruct (post_created u b newId now db K Hpost)
    as (data & db1 & Hparse & -> & Ht & Hs1 & Hid & ->).
  split; [|split; reflexivity].
  unfold get_by_id. simpl. rewrite find_last; [reflexivity| |].
  - intros q Hq. apply andb_false_iff. left.
    destruct (String.eqb (page_id q) newId) eqn:E; [|reflexivity].
    exfalso. unfold page_id_taken in Hid.
    assert (Hex : existsb (fun p => String.eqb (page_id p) newId) (pages db1) = true)
      by (apply existsb_exists; exists q; auto).
    congruence.
  - simpl. rewrite String.eqb_refl. simpl.
    unfold siteInTenant, siteOf in *. simpl. rewrite Hs1. exact Ht.
Qed.

Lemma delete_done u id db :
  status (snd (run (delete u id) db)) = 200 ->
  mayMutate u
  /\ fst (run (delete u id) db)
     = with_pages db (filter (fun p => negb (String.eqb (page_id p) id)) (pages db)).
Proof.
  unfold delete, mayMutate. rewrite run_requireRole.
  destruct (existsb _ _) eqn:G; [|discriminate].
  rewrite run_delete_handler.
  destruct (snd (page_findFirst _ _ _)); [|discriminate].
  destruct (_ && _); [discriminate|].
  unfold page_delete. destruct (page_id_taken id (pages db)); simpl; [|discriminate].
  auto.
Qed.

(** X7.  After a [DELETE /pages/:id] answered with 200 no page has the
    id: reading it and deleting it again are answered 404. *)
Theorem deleted_page_is_gone u id db :
  status (snd (run (delete u id) db)) = 200 ->
  (forall q, In q (pages (fst (run (delete u id) db))) -> page_id q <> id)
  /\ run (get_by_id u id) (fst (run (delete u id) db))
     = (fst (run (delete u id) db), not_found)
  /\ run (delete u id) (fst (run (delete u id) db))
     = (fst (run (delete u id) db), not_found).
Proof.
  intros Hst. destruct (delete_done u id db Hst) as [G ->].
  set (db' := with_pages db _).
  assert (Hgone : forall q, In q (pages db') -> String.eqb (page_id q) id = false).
  { intros q Hq. apply filter_In in Hq. now apply negb_true_iff. }
  assert (Hnone : snd (page_findFirst id (req_user_tenantId u) db') = None).
  { apply find_none_iff. intros q Hq. rewrite (Hgone q Hq). reflexivity. }
  split; [|split].
  - intros q Hq. apply String.eqb_neq. now apply Hgone.
  - unfold get_by_id. simpl run. simpl in Hnone. rewrite Hnone. reflexivity.
  - unfold delete. rewrite run_requireRole, G, run_delete_handler, Hnone. reflexivity.
Qed.

End PageRoundTrip.

Lemma created_page_is_readable_witness :
  exists row,
    snd (run (PagesRoutes.post (H := exampleCollaborators) demoAdmin
                (createBody "home" true) "p1" 10) demoStore)
    = json 201 (PageBody (Some "Page created successfully") row)
    /\ snd (run (PagesRoutes.get_by_id demoAdmin "p1")
              (fst (run (PagesRoutes.post (H := exampleCollaborators) demoAdmin
                           (createBody "home" true) "p1" 10) demoStore)))
       = json 200 (PageBody None row).
Proof.
  eexists. split; [reflexivity|].
  refine (f_equal snd (proj1 (@created_page_is_readable exampleCollaborators
            demoAdmin (createBody "home" true) "p1" 10%Z demoStore _ _ eq_refl))).
  constructor; [intros []|constructor].
Defined.

Lemma deleted_page_is_gone_witness :
  run (PagesRoutes.get_by_id demoAdmin "p1")
    (fst (run (PagesRoutes.delete demoAdmin "p1") archivedStore))
  = (fst (run (PagesRoutes.delete demoAdmin "p1") archivedStore),
     PagesRoutes.not_found).
Proof.
  refine (proj1 (proj2 (@deleted_page_is_gone demoAdmin "p1" archivedStore _))).
  reflexivity.
Defined.

(** ** Creating under a site of another tenant *)

Section ForeignSite.
Context `{Collaborators}.
Import Store.

Lemma foreign_site_not_found (db : DB) (tu sid : Id) :
  NoDup (map site_id (sites db)) ->
  siteTenant db sid <> Some tu ->
  snd (site_findFirst sid tu db) = None.
Proof.
  intros K Hne.
  destruct (snd (site_findFirst sid tu db)) as [s|] eqn:E; [|reflexivity].
  exfalso. apply Hne.
  destruct (@found_site_in_tenant db tu sid s K E) as (_ & _ & Ht & Hof).
  unfold siteTenant. rewrite Hof. simpl. congruence.
Qed.

(** X8.  A page or a media row cannot be created under a site that
    the caller's tenant does not own: whether the site belongs to
    another tenant or does not exist, the create is answered with the
    same 404 and writes nothing. *)
Theorem create_under_foreign_site_rejected (db : DB) (u : ReqUser) :
  NoDup (map site_id (sites db)) -> mayMutate u ->
  (forall b newId now data,
      PagesRoutes.CreatePageSchema b = Some data ->
      siteTenant db (PagesRoutes.cp_siteId data) <> Some (req_user_tenantId u) ->
      run (PagesRoutes.post u b newId now) db = (db, PagesRoutes.site_not_found))
  /\ (forall b newId data,
        MediaRoutes.CreateMediaSchema b = Some data ->
        siteTenant db (MediaRoutes.cm_siteId data) <> Some (req_user_tenantId u) ->
        run (MediaRoutes.post u b newId) db = (db, PagesRoutes.site_not_found)).
Proof.
  intros K G. split.
  - intros b newId now data Hparse Hne.
    unfold PagesRoutes.post. rewrite run_requireRole, G, run_post_handler, Hparse.
    rewrite foreign_site_not_found; auto.
  - intros b newId data Hparse Hne.
    unfold MediaRoutes.post. rewrite run_requireRole, G.
    unfold MediaRoutes.post_handler. rewrite Hparse.
    pose proof (@foreign_site_not_found db (req_user_tenantId u) _ K Hne) as E.
    simpl in *. rewrite E. reflexivity.
Qed.

End ForeignSite.

Lemma create_under_foreign_site_rejected_witness :
  run (PagesRoutes.post (H := exampleCollaborators) outsideAdmin
         (createBody "landing" true) "p9" 10) sharedStore
  = (sharedStore, PagesRoutes.site_not_found).
Proof.
  refine (proj1 (@create_under_foreign_site_rejected exampleCollaborators
                   sharedStore outsideAdmin (proj1 sharedStore_keyed) eq_refl)
            (createBody "landing" true) "p9" 10%Z
            {| PagesRoutes.cp_siteId := "s1"; PagesRoutes.cp_title := "landing";
               PagesRoutes.cp_slug := "landing"; PagesRoutes.cp_content := None;
               PagesRoutes.cp_excerpt := None; PagesRoutes.cp_status := None;
               PagesRoutes.cp_isHomePage := Some true;
               PagesRoutes.cp_seoTitle := None;
               PagesRoutes.cp_seoDescription := None;
               PagesRoutes.cp_featuredImage := None |} eq_refl _).
  vm_compute. discriminate.
Defined.

(** ** The unique keys of the page table *)

Section PageKeys.
Context `{Collaborators}.
Import PagesRoutes Store.

Lemma pageKeys_map (f : Page -> Page) (db : DB) :
  (forall p, page_id (f p) = page_id p /\ page_siteId (f p) = page_siteId p
             /\ page_slug (f p) = page_slug p) ->
  pageKeys db -> pageKeys (with_pages db (map f (pages db))).
Proof.
  intros Hf [K U]. split.
  - unfold pagesKeyed. simpl. rewrite keyed_map; auto. intros p; apply Hf.
  - intros p' q' Hp Hq. simpl in Hp, Hq.
    apply in_map_iff in Hp. destruct Hp as (p & <- & Hp).
    apply in_map_iff in Hq. destruct Hq as (q & <- & Hq).
    destruct (Hf p) as (-> & -> & ->), (Hf q) as (-> & -> & ->). now apply U.
Qed.

Lemma pageKeys_create (row : Page) (db : DB) :
  pageKeys db -> pageKeys (fst (page_create row db)).
Proof.
  intros [K U]. unfold page_create.
  destruct (page_id_taken _ _) eqn:Eid; simpl; [split; auto|].
  destruct (page_slug_taken _ _ _ _) eqn:Esl; simpl; [split; auto|].
  assert (Hrow : forall p, In p (pages db) -> page_siteId p = page_siteId row ->
                   page_slug p = page_slug row -> page_id p = page_id row).
  { intros p Hp Es El. unfold page_slug_taken in Esl.
    destruct (String.eqb (page_id p) (page_id row)) eqn:E;
      [now apply String.eqb_eq|].
    exfalso.
    assert (existsb (fun p => negb (String.eqb (page_id p) (page_id row))
                              && String.eqb (page_siteId p) (page_siteId row)
                              && String.eqb (page_slug p) (page_slug row))
              (pages db) = true); [|congruence].
    apply existsb_exists. exists p. rewrite E, Es, El, !String.eqb_refl. auto. }
  split.
  - unfold pagesKeyed. simpl. rewrite map_app. simpl.
    apply NoDup_snoc; auto. now apply key_not_taken.
  - intros p q Hp Hq Es El. simpl in Hp, Hq.
    apply in_app_iff in Hp. apply in_app_iff in Hq.
    destruct Hp as [Hp|[<-|[]]], Hq as [Hq|[<-|[]]]; auto.
    symmetry. apply Hrow; auto.
Qed.

Lemma pageKeys_update (id : Id) (f : Page -> Page) (db : DB) :
  (forall p, page_id (f p) = page_id p) ->
  pageKeys db -> pageKeys (fst (page_update id f db)).
Proof.
  intros Hf [K U]. unfold page_update.
  destruct (find _ (pages db)) as [old|] eqn:Eold; [|split; auto].
  destruct (page_slug_taken _ _ _ _) eqn:Esl; simpl; [split; auto|].
  apply find_some in Eold. destruct Eold as [Hold Eid]. apply String.eqb_eq in Eid.
  set (g := fun p => if String.eqb (page_id p) id then f p else p).
  assert (Hg : forall p, page_id (g p) = page_id p).
  { intros p. unfold g. destruct (String.eqb _ _); auto. }
  assert (Hfree : forall q, In q (pages db) -> page_id q <> id ->
                    page_siteId q = page_siteId (f old) ->
                    page_slug q = page_slug (f old) -> False).
  { intros q Hq Hne Es El. unfold page_slug_taken in Esl.
    assert (existsb (fun p => negb (String.eqb (page_id p) id)
                              && String.eqb (page_siteId p) (page_siteId (f old))
                              && String.eqb (page_slug p) (page_slug (f old)))
              (pages db) = true); [|congruence].
    apply existsb_exists. exists q. apply String.eqb_neq in Hne.
    rewrite Hne, Es, El, !String.eqb_refl. auto. }
  split.
  - unfold pagesKeyed. simpl. fold g. rewrite keyed_map; auto.
  - intros p' q' Hp Hq Es El. simpl in Hp, Hq. fold g in Hp, Hq.
    apply in_map_iff in Hp. destruct Hp as (p & <- & Hp).
    apply in_map_iff in Hq. destruct Hq as (q & <- & Hq).
    rewrite !Hg. unfold g in Es, El.
    destruct (String.eqb (page_id p) id) eqn:Ep, (String.eqb (page_id q) id) eqn:Eq.
    + apply String.eqb_eq in Ep, Eq. congruence.
    + exfalso. apply String.eqb_eq in Ep. apply String.eqb_neq in Eq.
      assert (p = old) by (apply (keyed_unique page_id (pages db)); auto; congruence).
      subst p. apply (Hfree q); auto.
    + exfalso. apply String.eqb_eq in Eq. apply String.eqb_neq in Ep.
      assert (q = old) by (apply (keyed_unique page_id (pages db)); auto; congruence).
      subst q. apply (Hfree p); auto.
    + now apply U.
Qed.

Lemma pageKeys_delete (id : Id) (db : DB) :
  pageKeys db -> pageKeys (fst (page_delete id db)).
Proof.
  intros [K U]. unfold page_delete.
  destruct (page_id_taken id (pages db)); simpl; [|split; auto].
  split.
  - unfold pagesKeyed. simpl. now apply keyed_filter.
  - intros p q Hp Hq. simpl in Hp, Hq.
    apply filter_In in Hp. apply filter_In in Hq. apply U; tauto.
Qed.

Lemma pageKeys_cleared (c : Page -> bool) (db : DB) :
  pageKeys db ->
  pageKeys (with_pages db
    (map (fun p => if c p then set_isHomePage false p else p) (pages db))).
Proof.
  apply pageKeys_map. intros p. destruct (c p); auto.
Qed.

Lemma put_tail_pageKeys id data at_ existing db :
  pageKeys db -> pageKeys (fst (run (put_tail id data at_ existing) db)).
Proof.
  intros C. unfold put_tail. destruct (truthy _); simpl.
  - match goal with
    | |- context [page_update id ?f ?d] =>
        pose proof (@pageKeys_update id f d (fun p => eq_refl)) as Hu;
        destruct (page_update id f d) as [db' [row|]]
    end; simpl in Hu |- *; apply Hu; now apply pageKeys_cleared.
  - match goal with
    | |- context [page_update id ?f ?d] =>
        pose proof (@pageKeys_update id f d (fun p => eq_refl)) as Hu;
        destruct (page_update id f d) as [db' [row|]]
    end; simpl in Hu |- *; now apply Hu.
Qed.

Lemma serve_pageKeys (r : PageRequest) (db : DB) :
  pageKeys db -> pageKeys (serve db r).
Proof.
  intros C. unfold serve.
  destruct r as [u b newId now|u id b now|u id b now|u id]; simpl;
    unfold post, put, publish, delete; rewrite run_requireRole;
    destruct (existsb _ _); auto.
  - rewrite run_post_handler.
    destruct (CreatePageSchema b) as [data|]; auto.
    destruct (snd (site_findFirst _ _ _)); auto.
    destruct (snd (page_findUnique_siteId_slug _ _ _)); auto. cbv zeta.
    set (db1 := if truthy _ then _ else db).
    assert (C1 : pageKeys db1).
    { subst db1. destruct (truthy _); auto. now apply pageKeys_cleared. }
    pose proof (pageKeys_create (new_page u data newId now) C1) as Hc.
    destruct (snd (page_create _ _)); exact Hc.
  - rewrite run_put_handler.
    destruct (UpdatePageSchema b) as [data|]; auto.
    destruct (snd (page_findFirst _ _ _)) as [existing|]; auto.
    destruct (_ && _); auto. cbv zeta.
    destruct (given _); [|now apply put_tail_pageKeys].
    destruct (negb _); [|now apply put_tail_pageKeys].
    destruct (snd (page_findUnique_siteId_slug _ _ _));
      [auto|now apply put_tail_pageKeys].
  - rewrite run_publish_handler.
    destruct (PublishPageSchema b) as [st|]; auto.
    destruct (snd (page_findFirst _ _ _)) as [existing|]; auto.
    destruct (_ && _); auto. cbv zeta.
    match goal with
    | |- context [page_update id ?f ?d] =>
        pose proof (@pageKeys_update id f d (fun p => eq_refl) C) as Hu;
        destruct (page_update id f d) as [db' [row|]]
    end; exact Hu.
  - rewrite run_delete_handler.
    destruct (snd (page_findFirst _ _ _)); auto.
    destruct (_ && _); auto.
    pose proof (pageKeys_delete id C) as Hd.
    destruct (snd (page_delete id db)); exact Hd.
Qed.

End PageKeys.

(** ** What the checks of the page handlers leave to the store *)

Section PageOutcome.
Context `{Collaborators}.
Import PagesRoutes Store.

Lemma existsb_map_ext (A : Type) (P : A -> bool) (f : A -> A) (l : list A) :
  (forall a, P (f a) = P a) -> existsb P (map f l) = existsb P l.
Proof.
  intros Hf. induction l as [|a l IH]; simpl; [reflexivity|].
  rewrite Hf, IH. reflexivity.
Qed.

(** After the slug check of [POST /pages] has found no page, the store
    accepts the create of a fresh id. *)
Lemma create_accepted u data newId now db :
  page_id_taken newId (pages db) = false ->
  snd (page_findUnique_siteId_slug (cp_siteId data) (cp_slug data) db) = None ->
  forall db1,
    db1 = db
    \/ db1 = fst (page_updateMany
                    (fun p => String.eqb (page_siteId p) (cp_siteId data)
                              && page_isHomePage p)
                    (set_isHomePage false) db) ->
    snd (page_create (new_page u data newId now) db1)
    = Some (new_page u data newId now).
Proof.
  intros Hid Hslug db1 Hdb1.
  assert (Hfree : forall q, In q (pages db) ->
            String.eqb (page_siteId q) (cp_siteId data)
            && String.eqb (page_slug q) (cp_slug data) = false)
    by (intros q Hq; exact (find_none _ _ Hslug q Hq)).
  unfold page_create. simpl page_id. simpl page_siteId. simpl page_slug.
  assert (E1 : page_id_taken newId (pages db1) = false).
  { destruct Hdb1 as [->| ->]; auto. unfold page_id_taken in *. simpl.
    rewrite existsb_map_ext; auto. intros q. destruct (_ && _); reflexivity. }
  assert (E2 : page_slug_taken newId (cp_siteId data) (cp_slug data) (pages db1)
               = false).
  { unfold page_slug_taken. destruct Hdb1 as [->| ->].
    - apply existsb_false. intros q Hq. rewrite <- andb_assoc, (Hfree q Hq).
      apply andb_false_r.
    - simpl. rewrite existsb_map_ext.
      + apply existsb_false. intros q Hq. rewrite <- andb_assoc, (Hfree q Hq).
        apply andb_false_r.
      + intros q. destruct (String.eqb (page_siteId q) (cp_siteId data)
                            && page_isHomePage q); reflexivity. }
  rewrite E1, E2. reflexivity.
Qed.

Lemma found_row id tenantId existing db :
  snd (page_findFirst id tenantId db) = Some existing ->
  In existing (pages db) /\ page_id existing = id.
Proof.
  intros E. simpl in E. apply find_some in E. destruct E as [Hin Hc].
  apply andb_true_iff in Hc. destruct Hc as [Hid _]. apply String.eqb_eq in Hid.
  auto.
Qed.

Lemma post_outcome u b newId now db :
  page_id_taken newId (pages db) = false ->
  status (snd (run (post u b newId now) db)) = 201
  \/ (rejected (snd (run (post u b newId now) db))
      /\ fst (run (post u b newId now) db) = db).
Proof.
  intros Hid. unfold post, rejected. rewrite run_requireRole.
  destruct (existsb _ _); [|simpl; auto].
  rewrite run_post_handler.
  destruct (CreatePageSchema b) as [data|]; [|simpl; auto].
  destruct (snd (site_findFirst _ _ _)); [|simpl; auto].
  destruct (snd (page_findUnique_siteId_slug _ _ _)) eqn:Eslug; [simpl; auto|].
  cbv zeta. left.
  rewrite (@create_accepted u data newId now db Hid Eslug); [reflexivity|].
  destruct (truthy _); auto.
Qed.

Lemma put_outcome u id b now db :
  pageKeys db ->
  status (snd (run (put u id b now) db)) = 200
  \/ (rejected (snd (run (put u id b now) db))
      /\ fst (run (put u id b now) db) = db).
Proof.
  intros [K U]. unfold put, rejected. rewrite run_requireRole.
  destruct (existsb _ _); [|simpl; auto].
  rewrite run_put_handler.
  destruct (UpdatePageSchema b) as [data|] eqn:Hparse; [|simpl; auto].
  destruct (snd (page_findFirst _ _ _)) as [existing|] eqn:Ef; [|simpl; auto].
  destruct (found_row _ _ _ Ef) as [Hin Hid].
  destruct (_ && _); [simpl; auto|]. cbv zeta.
  destruct (up_slug data) as [slug|] eqn:E.
  - assert (Hg : given (Some slug) = Some slug).
    { pose proof (UpdatePageSchema_slug _ Hparse E). destruct slug; [congruence|reflexivity]. }
    rewrite Hg. destruct (String.eqb slug (page_slug existing)) eqn:Es; simpl negb; cbv iota.
    + left. apply put_tail_accepted; auto. left. rewrite E. simpl.
      now apply String.eqb_eq.
    + destruct (snd (page_findUnique_siteId_slug (page_siteId existing) slug db))
        as [q|] eqn:Eq; [simpl; auto|].
      left. apply put_tail_accepted; auto. right. rewrite E. simpl.
      intros q Hq Hs Hl. simpl in Eq. pose proof (find_none _ _ Eq q Hq) as Hn.
      simpl in Hn. rewrite Hs, Hl, !String.eqb_refl in Hn. discriminate.
  - simpl given. left. apply put_tail_accepted; auto. left. rewrite E. reflexivity.
Qed.

Lemma publish_outcome u id b now db :
  pageKeys db ->
  status (snd (run (publish u id b now) db)) = 200
  \/ (rejected (snd (run (publish u id b now) db))
      /\ fst (run (publish u id b now) db) = db).
Proof.
  intros [K U]. unfold publish, rejected. rewrite run_requireRole.
  destruct (existsb _ _); [|simpl; auto].
  rewrite run_publish_handler.
  destruct (PublishPageSchema b) as [st|]; [|simpl; auto].
  destruct (snd (page_findFirst _ _ _)) as [existing|] eqn:Ef; [|simpl; auto].
  destruct (found_row _ _ _ Ef) as [Hin Hid].
  destruct (_ && _); [simpl; auto|]. cbv zeta. left.
  match goal with
  | |- context [page_update id ?f db] =>
      destruct (@update_accepted (fun q => q) f db db id existing (page_slug existing))
        as [E _]; auto; [symmetry; apply map_id|rewrite E; reflexivity]
  end.
Qed.

Lemma delete_outcome u id db :
  status (snd (run (delete u id) db)) = 200
  \/ (rejected (snd (run (delete u id) db))
      /\ fst (run (delete u id) db) = db).
Proof.
  unfold delete, rejected. rewrite run_requireRole.
  destruct (existsb _ _); [|simpl; auto].
  rewrite run_delete_handler.
  destruct (snd (page_findFirst _ _ _)) as [existing|] eqn:Ef; [|simpl; auto].
  destruct (found_row _ _ _ Ef) as [Hin Hid].
  destruct (_ && _); [simpl; auto|]. left.
  unfold page_delete.
  replace (page_id_taken id (pages db)) with true; [reflexivity|].
  symmetry. apply existsb_exists. exists existing. split; auto.
  rewrite Hid. apply String.eqb_refl.
Qed.

(** X9.  The checks of the page handlers leave nothing for the store
    to refuse.  Run with nothing else in flight on a store whose page
    ids and slugs per site are unique, with a fresh id for a create,
    a page request either succeeds (200, or 201 for a create) or is
    turned down with 400, 403 or 404 and the store as it was: never
    is it answered 500 by a write the store has thrown on.  The keys
    are unique afterwards, so the same holds of the next request. *)
Theorem page_request_succeeds_or_changes_nothing (r : PageRequest) (db : DB) :
  pageKeys db -> freshFor r db ->
  ((status (snd (run (route r) db)) = 200 \/ status (snd (run (route r) db)) = 201)
   \/ (rejected (snd (run (route r) db)) /\ serve db r = db))
  /\ pageKeys (serve db r).
Proof.
  intros C F. split; [|now apply serve_pageKeys].
  unfold serve. destruct r as [u b newId now|u id b now|u id b now|u id]; simpl route.
  - destruct (@post_outcome u b newId now db F); auto.
  - destruct (@put_outcome u id b now db C); auto.
  - destruct (@publish_outcome u id b now db C); auto.
  - destruct (@delete_outcome u id db); auto.
Qed.

End PageOutcome.

Lemma page_request_succeeds_or_changes_nothing_witness :
  ((status (snd (run (route (H := exampleCollaborators)
                       (Update demoAdmin "p1" (statusBody "PUBLISHED") 200))
                  archivedStore)) = 200
    \/ status (snd (run (route (H := exampleCollaborators)
                           (Update demoAdmin "p1" (statusBody "PUBLISHED") 200))
                      archivedStore)) = 201)
   \/ (rejected (snd (run (route (H := exampleCollaborators)
                             (Update demoAdmin "p1" (statusBody "PUBLISHED") 200))
                        archivedStore))
       /\ serve (H := exampleCollaborators) archivedStore
            (Update demoAdmin "p1" (statusBody "PUBLISHED") 200) = archivedStore))
  /\ pageKeys (serve (H := exampleCollaborators) archivedStore
                 (Update demoAdmin "p1" (statusBody "PUBLISHED") 200)).
Proof.
  apply (@page_request_succeeds_or_changes_nothing exampleCollaborators
           (Update demoAdmin "p1" (statusBody "PUBLISHED") 200) archivedStore).
  - split; [exact (proj1 (proj2 archivedStore_keyed))|].
    intros p q Hp Hq _ _. vm_compute in Hp, Hq.
    destruct Hp as [<-|[]], Hq as [<-|[]]. reflexivity.
  - exact I.
Defined.

(** ** The rows a page request writes *)

Section Shape.
Context `{Collaborators}.
Import PagesRoutes Store.

Lemma put_tail_shape id data now existing db :
  pagesKeyed db -> In existing (pages db) -> page_id existing = id ->
  exists h,
    pages (fst (run (put_tail id data (put_publishedAt data existing now) existing) db))
    = map h (pages db)
    /\ forall q, In q (pages db) ->
         h q = q \/ h q = set_isHomePage false q
         \/ exists c : bool, h q = apply_updateData data (put_publishedAt data q now)
                              (if c then set_isHomePage false q else q).
Proof.
  intros K Hin Hid.
  set (at_ := put_publishedAt data existing now).
  set (c := fun p => String.eqb (page_siteId p) (page_siteId existing)
                     && page_isHomePage p && negb (String.eqb (page_id p) id)).
  set (cl := fun p => if c p then set_isHomePage false p else p).
  assert (Hcl : forall q, cl q = q \/ cl q = set_isHomePage false q)
    by (intros q; unfold cl; destruct (c q); auto).
  assert (Hex : forall q, In q (pages db) -> page_id q = id ->
                  put_publishedAt data q now = at_).
  { intros q Hq Hqid.
    assert (q = existing)
      by (apply (keyed_unique page_id (pages db)); auto; congruence).
    subst q. reflexivity. }
  unfold put_tail, truthy.
  destruct (or_else (up_isHomePage data) false); simpl.
  - match goal with
    | |- context [page_update ?i ?f ?d] =>
        destruct (page_update_pages i f d) as [Hp|Hp];
        destruct (page_update i f d) as [db' [r|]]
    end; simpl in Hp |- *.
    1, 2: (exists cl; split; [exact Hp|]; intros q _;
           destruct (Hcl q) as [-> | ->]; auto).
    all: exists (fun q => if String.eqb (page_id (cl q)) id
                          then apply_updateData data at_ (cl q) else cl q);
      (split; [rewrite Hp, map_map; reflexivity|]);
      intros q Hq;
      assert (Hidq : page_id (cl q) = page_id q)
        by (unfold cl; destruct (c q); reflexivity);
      rewrite Hidq;
      (destruct (String.eqb (page_id q) id) eqn:E;
       [apply String.eqb_eq in E; right; right; exists (c q);
        rewrite (Hex q Hq E); reflexivity
       |destruct (Hcl q) as [-> | ->]; auto]).
  - match goal with
    | |- context [page_update ?i ?f ?d] =>
        destruct (page_update_pages i f d) as [Hp|Hp];
        destruct (page_update i f d) as [db' [r|]]
    end; simpl in Hp |- *.
    1, 2: (exists (fun q => q); split; [rewrite map_id; exact Hp|]; auto).
    all: exists (fun q => if String.eqb (page_id q) id
                          then apply_updateData data at_ q else q);
      (split; [exact Hp|]);
      intros q Hq;
      (destruct (String.eqb (page_id q) id) eqn:E;
       [apply String.eqb_eq in E; right; right; exists false;
        rewrite (Hex q Hq E); reflexivity
       |auto]).
Qed.

Lemma update_shape u id b now db :
  pagesKeyed db ->
  exists h,
    pages (serve db (Update u id b now)) = map h (pages db)
    /\ forall q, In q (pages db) ->
         h q = q \/ h q = set_isHomePage false q
         \/ exists (data : UpdatePageData) (c : bool),
              h q = apply_updateData data (put_publishedAt data q now)
                      (if c then set_isHomePage false q else q).
Proof.
  intros K.
  assert (Hsame : exists h, pages db = map h (pages db)
            /\ forall q, In q (pages db) ->
                 h q = q \/ h q = set_isHomePage false q
                 \/ exists (data : UpdatePageData) (c : bool),
                      h q = apply_updateData data (put_publishedAt data q now)
                              (if c then set_isHomePage false q else q)).
  { exists (fun q => q). rewrite map_id. auto. }
  unfold serve; simpl. unfold put. rewrite run_requireRole.
  destruct (existsb _ _); [|exact Hsame].
  rewrite run_put_handler.
  destruct (UpdatePageSchema b) as [data|]; [|exact Hsame].
  destruct (snd (page_findFirst _ _ _)) as [existing|] eqn:Ef; [|exact Hsame].
  destruct (findFirst_found _ _ _ Ef) as (Hin & Hid & _).
  destruct (_ && _); [exact Hsame|]. cbv zeta.
  assert (Htail : exists h,
            pages (fst (run (put_tail id data (put_publishedAt data existing now)
                               existing) db)) = map h (pages db)
            /\ forall q, In q (pages db) ->
                 h q = q \/ h q = set_isHomePage false q
                 \/ exists (data : UpdatePageData) (c : bool),
                      h q = apply_updateData data (put_publishedAt data q now)
                              (if c then set_isHomePage false q else q)).
  { destruct (@put_tail_shape id data now existing db K Hin Hid) as (h & Eh & Hh).
    exists h. split; auto. intros q Hq.
    destruct (Hh q Hq) as [E|[E|[c E]]]; auto. right. right. eauto. }
  destruct (given _); [|exact Htail].
  destruct (negb _); [|exact Htail].
  destruct (snd (page_findUnique_siteId_slug _ _ _)); [exact Hsame|exact Htail].
Qed.

Lemma publish_shape u id b now db :
  pagesKeyed db ->
  exists h,
    pages (serve db (Publish u id b now)) = map h (pages db)
    /\ forall q, In q (pages db) ->
         h q = q
         \/ exists st, h q = apply_status st (publish_publishedAt st q now) q.
Proof.
  intros K.
  assert (Hsame : exists h, pages db = map h (pages db)
            /\ forall q, In q (pages db) ->
                 h q = q
                 \/ exists st, h q = apply_status st (publish_publishedAt st q now) q).
  { exists (fun q => q). rewrite map_id. auto. }
  unfold serve; simpl. unfold publish. rewrite run_requireRole.
  destruct (existsb _ _); [|exact Hsame].
  rewrite run_publish_handler.
  destruct (PublishPageSchema b) as [st|]; [|exact Hsame].
  destruct (snd (page_findFirst _ _ _)) as [existing|] eqn:Ef; [|exact Hsame].
  destruct (findFirst_found _ _ _ Ef) as (Hin & Hid & _).
  destruct (_ && _); [exact Hsame|]. cbv zeta.
  match goal with
  | |- context [page_update ?i ?f ?d] =>
      destruct (page_update_pages i f d) as [Hp|Hp];
      destruct (page_update i f d) as [db' [r|]]
  end; simpl in Hp |- *.
  1, 2: (exists (fun q => q); rewrite map_id; split; [exact Hp|]; auto).
  all: eexists; split; [exact Hp|]; intros q Hq; cbv beta;
    (destruct (String.eqb (page_id q) id) eqn:E; [|auto]);
    apply String.eqb_eq in E;
    assert (q = existing)
      by (apply (keyed_unique page_id (pages db)); auto; congruence);
    subst q; right; exists st; reflexivity.
Qed.

Lemma serve_shape (r : PageRequest) (db : DB) :
  isTransition r -> pagesKeyed db ->
  exists h, pages (serve db r) = map h (pages db)
            /\ forall q, In q (pages db) -> rewritten (timeOf r) q (h q).
Proof.
  destruct r as [|u id b now|u id b now|]; simpl; try contradiction; intros _ K.
  - destruct (update_shape u id b now K) as (h & Eh & Hh).
    exists h. split; auto. intros q Hq.
    destruct (Hh q Hq) as [-> |[-> |(data & c & ->)]]; constructor.
  - destruct (publish_shape u id b now K) as (h & Eh & Hh).
    exists h. split; auto. intros q Hq.
    destruct (Hh q Hq) as [-> |(st & ->)]; constructor.
Qed.

End Shape.

Section Identity.
Context `{Collaborators}.
Import PagesRoutes Store.

Lemma rewritten_identity now q q' :
  rewritten now q q' ->
  page_id q' = page_id q /\ page_siteId q' = page_siteId q
  /\ page_authorId q' = page_authorId q.
Proof.
  intros [| |data c|st]; auto. destruct c; auto.
Qed.

(** X10.  Updates and status changes neither add nor remove a page,
    and whatever their bodies carry and whoever sends them, they leave
    the id, the site and the author of every page as they were; a
    status change leaves every column but [status] and [publishedAt]
    as it was. *)
Theorem transitions_keep_identity (db : DB) :
  pageKeys db ->
  (forall rs, Forall isTransition rs ->
     exists h, pages (serveAll rs db) = map h (pages db)
               /\ forall q, In q (pages db) ->
                    page_id (h q) = page_id q
                    /\ page_siteId (h q) = page_siteId q
                    /\ page_authorId (h q) = page_authorId q)
  /\ (forall u id b now,
        exists h, pages (serve db (Publish u id b now)) = map h (pages db)
                  /\ forall q, In q (pages db) ->
                       page_id (h q) = page_id q
                       /\ page_siteId (h q) = page_siteId q
                       /\ page_authorId (h q) = page_authorId q
                       /\ page_title (h q) = page_title q
                       /\ page_slug (h q) = page_slug q
                       /\ page_content (h q) = page_content q
                       /\ page_excerpt (h q) = page_excerpt q
                       /\ page_isHomePage (h q) = page_isHomePage q
                       /\ page_seoTitle (h q) = page_seoTitle q
                       /\ page_seoDescription (h q) = page_seoDescription q
                       /\ page_featuredImage (h q) = page_featuredImage q).
Proof.
  intros C. split.
  - intros rs. revert db C. induction rs as [|r rs IH]; intros db C Hall.
    + exists (fun q => q). rewrite map_id. auto.
    + inversion Hall as [|? ? Hr Hrs]; subst. simpl.
      destruct (serve_shape r Hr (proj1 C)) as (h1 & E1 & S1).
      destruct (IH (serve db r) (serve_pageKeys r C) Hrs) as (h2 & E2 & S2).
      exists (fun q => h2 (h1 q)). split.
      * unfold serveAll in *. rewrite E2, E1, map_map. reflexivity.
      * intros q Hq.
        destruct (rewritten_identity (S1 q Hq)) as (I1 & I2 & I3).
        assert (Hq1 : In (h1 q) (pages (serve db r)))
          by (rewrite E1; now apply in_map).
        destruct (S2 (h1 q) Hq1) as (J1 & J2 & J3).
        repeat split; congruence.
  - intros u id b now.
    destruct (publish_shape u id b now (proj1 C)) as (h & Eh & Hh).
    exists h. split; auto. intros q Hq.
    destruct (Hh q Hq) as [-> |(st & ->)]; repeat split; reflexivity.
Qed.

End Identity.

Lemma transitions_keep_identity_witness :
  exists h,
    pages (serveAll (H := exampleCollaborators)
             [Update otherEditor "p1" (JObj [("title", JStr "Mine")]) 300;
              Update demoAdmin "p1" (JObj [("title", JStr "Ours")]) 301]
             archivedStore)
    = map h (pages archivedStore)
    /\ forall q, In q (pages archivedStore) ->
         page_id (h q) = page_id q /\ page_siteId (h q) = page_siteId q
         /\ page_authorId (h q) = page_authorId q.
Proof.
  refine (proj1 (@transitions_keep_identity exampleCollaborators archivedStore _) _ _).
  - split.
    + vm_compute. constructor; [intros []|constructor].
    + intros p q Hp Hq _ _. vm_compute in Hp, Hq.
      destruct Hp as [<-|[]], Hq as [<-|[]]. reflexivity.
  - repeat constructor.
Defined.

(** ** Published pages carry a date *)

Section Dated.
Context `{Collaborators}.
Import PagesRoutes Store.

Lemma rewritten_dated now q q' :
  rewritten now q q' ->
  (page_status q = PUBLISHED -> page_publishedAt q <> None) ->
  page_status q' = PUBLISHED -> page_publishedAt q' <> None.
Proof.
  intros [| |data c|st] Hq; simpl; auto.
  - unfold put_publishedAt.
    destruct c; simpl; destruct (up_status data) as [[| |]|]; simpl;
      try discriminate; destruct (page_status q); simpl;
      auto; intros _; discriminate.
  - unfold publish_publishedAt.
    destruct st; simpl; try discriminate;
      destruct (page_status q); simpl; auto; intros _; discriminate.
Qed.

Lemma new_page_dated u data newId now :
  page_status (new_page u data newId now) = PUBLISHED ->
  page_publishedAt (new_page u data newId now) <> None.
Proof.
  simpl. intros ->. discriminate.
Qed.

Lemma serve_dated (r : PageRequest) (db : DB) :
  pagesKeyed db -> publishedDated db -> publishedDated (serve db r).
Proof.
  intros K D.
  destruct r as [u b newId now|u id b now|u id b now|u id].
  - unfold serve; simpl. unfold post. rewrite run_requireRole.
    destruct (existsb _ _); auto.
    rewrite run_post_handler.
    destruct (CreatePageSchema b) as [data|]; auto.
    destruct (snd (site_findFirst _ _ _)); auto.
    destruct (snd (page_findUnique_siteId_slug _ _ _)); auto. cbv zeta.
    set (db1 := if truthy _ then _ else db).
    assert (D1 : publishedDated db1).
    { subst db1. destruct (truthy _); auto.
      intros p' Hp'. simpl in Hp'. apply in_map_iff in Hp'.
      destruct Hp' as (p & <- & Hp). destruct (_ && _); simpl; now apply D. }
    assert (D2 : publishedDated
                   (fst (page_create (new_page u data newId now) db1))).
    { unfold page_create. destruct (_ || _); simpl; auto.
      intros p Hp. simpl in Hp. apply in_app_iff in Hp.
      destruct Hp as [Hp|[<-|[]]]; [now apply D1|apply new_page_dated]. }
    destruct (snd (page_create _ _)); exact D2.
  - destruct (@serve_shape _ (Update u id b now) db I K) as (h & Eh & Hh).
    intros p' Hp'. rewrite Eh in Hp'. apply in_map_iff in Hp'.
    destruct Hp' as (q & <- & Hq).
    apply (rewritten_dated (Hh q Hq)). now apply D.
  - destruct (@serve_shape _ (Publish u id b now) db I K) as (h & Eh & Hh).
    intros p' Hp'. rewrite Eh in Hp'. apply in_map_iff in Hp'.
    destruct Hp' as (q & <- & Hq).
    apply (rewritten_dated (Hh q Hq)). now apply D.
  - unfold serve; simpl. unfold delete. rewrite run_requireRole.
    destruct (existsb _ _); auto.
    rewrite run_delete_handler.
    destruct (snd (page_findFirst _ _ _)) as [found|]; auto.
    destruct (_ && _); auto.
    assert (D2 : publishedDated (fst (page_delete id db))).
    { unfold page_delete. destruct (page_id_taken id (pages db)); simpl; auto.
      intros x Hx. simpl in Hx. apply filter_In in Hx. apply D. tauto. }
    destruct (snd (page_delete id db)); exact D2.
Qed.

(** X11.  Through every sequence of page requests, a page whose
    status is [PUBLISHED] has its [publishedAt] set. *)
Theorem published_pages_are_dated (rs : list PageRequest) (db : DB) :
  pageKeys db -> publishedDated db -> publishedDated (serveAll rs db).
Proof.
  revert db. induction rs as [|r rs IH]; intros db C D; simpl; auto.
  apply IH; [now apply serve_pageKeys|apply serve_dated; auto; apply C].
Qed.

End Dated.

Lemma published_pages_are_dated_witness :
  publishedDated
    (serveAll (H := exampleCollaborators)
       [Create demoAdmin publishedBody "p1" 100;
        Publish demoAdmin "p1" (statusBody "DRAFT") 120;
        Update demoAdmin "p1" (statusBody "PUBLISHED") 150] demoStore).
Proof.
  apply (@published_pages_are_dated exampleCollaborators).
  - split; [constructor|intros p q []].
  - intros p [].
Defined.

(** ** Registration *)

Section RegisterMore.
Context `{Collaborators} `{Hashing} `{SchemaDefaults}.
Import AuthMiddleware AuthRoutes Store.

Lemma run_register body tid uid salt now db :
  run (register body tid uid salt now) db
  = match RegisterSchema body with
    | None => (db, PagesRoutes.validation_error)
    | Some data =>
        match snd (user_findUnique_email_only (rg_email data) db) with
        | Some _ => (db, user_exists)
        | None =>
            match snd (tenant_findUnique_domain (rg_tenantDomain data) db) with
            | Some _ => (db, tenant_domain_taken)
            | None =>
                let user := new_user data (bcryptHash (rg_password data) 12 salt)
                              tid uid in
                let tenant := new_tenant data tid in
                (fst (tenant_user_transaction tenant user db),
                 match snd (tenant_user_transaction tenant user db) with
                 | None => PagesRoutes.internal "Registration failed"
                 | Some (t, u) =>
                     json 201
                       (LoginBody u t
                          (generateToken (user_id u) (user_email u) (user_role u)
                             (user_tenantId u) now)
                          (generateRefreshToken (user_id u) now))
                 end)
            end
        end
    end.
Proof.
  unfold register. destruct (RegisterSchema body) as [data|]; [|reflexivity].
  simpl. destruct (find _ (users db)); [reflexivity|].
  simpl. destruct (find _ (tenants db)); [reflexivity|].
  simpl. destruct (tenant_user_transaction _ _ db) as [db' [[t u]|]]; reflexivity.
Qed.

Lemma RegisterSchema_fields body data :
  RegisterSchema body = Some data ->
  isEmail (rg_email data) = true /\ (8 <= String.length (rg_password data))%nat.
Proof.
  unfold RegisterSchema. destruct body as [| | | | |o]; try discriminate.
  unfold obind, refine, zstring.
  destruct (prop o "email") as [[| | |s| |]|]; try discriminate.
  destruct (isEmail s) eqn:E; [|discriminate].
  destruct (prop o "password") as [[| | |pw| |]|]; try discriminate.
  destruct (8 <=? String.length pw)%nat eqn:El; [|discriminate].
  destruct (zstring_min1 _); [|discriminate].
  destruct (zstring_min1 _); [|discriminate].
  destruct (zstring_min1 _); [|discriminate].
  destruct (zstring_min1 _); [|discriminate].
  intros [= <-]. simpl. split; auto. now apply Nat.leb_le.
Qed.

Lemma existsb_orb_false (A : Type) (P Q : A -> bool) (l : list A) :
  existsb (fun a => P a || Q a) l = false ->
  existsb P l = false /\ existsb Q l = false.
Proof.
  induction l as [|a l IH]; simpl; auto.
  intros E. apply orb_false_iff in E. destruct E as [E1 E2].
  apply orb_false_iff in E1. destruct E1 as [Ep Eq].
  destruct (IH E2) as [-> ->]. rewrite Ep, Eq. auto.
Qed.

(** What the transaction has checked when it commits. *)
Lemma transaction_committed tenant user db :
  snd (tenant_user_transaction tenant user db) <> None ->
  fst (tenant_user_transaction tenant user db)
  = {| tenants := tenants db ++ [tenant]; users := users db ++ [user];
       sites := sites db; pages := pages db; media := media db |}
  /\ snd (tenant_user_transaction tenant user db) = Some (tenant, user)
  /\ ~ In (tenant_id tenant) (map tenant_id (tenants db))
  /\ ~ In (tenant_domain tenant) (map tenant_domain (tenants db))
  /\ ~ In (user_id user) (map user_id (users db))
  /\ ~ In (user_email user) (map user_email (users db)).
Proof.
  unfold tenant_user_transaction.
  destruct (existsb _ (tenants db)) eqn:Et; simpl; [congruence|].
  destruct (existsb _ (users db)) eqn:Eu; simpl; [congruence|].
  intros _. apply existsb_orb_false in Et, Eu.
  destruct Et as [Et1 Et2], Eu as [Eu1 Eu2].
  repeat split; auto; now apply key_not_taken.
Qed.

(** X12.  Tenant and user are created together or not at all, and
    the two lookups of the handler leave nothing for the store to
    refuse.  With fresh ids, [POST /auth/register] either is answered
    201, the store having gained exactly the new tenant and the new
    user, an [ADMIN] of that tenant with the hashed password, and the
    response carrying both rows and the user's tokens; or it is
    answered 400 and nothing is written.  It is never answered 500 by
    a transaction the store has thrown on. *)
Theorem register_creates_both_or_nothing body tid uid salt now db :
  ~ In tid (map tenant_id (tenants db)) -> ~ In uid (map user_id (users db)) ->
  (exists data,
      RegisterSchema body = Some data
      /\ run (register body tid uid salt now) db
         = ({| tenants := tenants db ++ [new_tenant data tid];
               users := users db
                        ++ [new_user data (bcryptHash (rg_password data) 12 salt)
                              tid uid];
               sites := sites db; pages := pages db; media := media db |},
            json 201
              (LoginBody
                 (new_user data (bcryptHash (rg_password data) 12 salt) tid uid)
                 (new_tenant data tid)
                 (generateToken uid (rg_email data) "ADMIN" tid now)
                 (generateRefreshToken uid now)))
      /\ user_role (new_user data (bcryptHash (rg_password data) 12 salt) tid uid)
         = "ADMIN"%string
      /\ user_tenantId (new_user data (bcryptHash (rg_password data) 12 salt) tid uid)
         = tenant_id (new_tenant data tid)
      /\ user_password (new_user data (bcryptHash (rg_password data) 12 salt) tid uid)
         = bcryptHash (rg_password data) 12 salt)
  \/ (status (snd (run (register body tid uid salt now) db)) = 400
      /\ fst (run (register body tid uid salt now) db) = db).
Proof.
  intros Htid Huid. rewrite run_register.
  destruct (RegisterSchema body) as [data|]; [|right; split; reflexivity].
  destruct (snd (user_findUnique_email_only _ _)) as [known|] eqn:Eu;
    [right; split; reflexivity|].
  destruct (snd (tenant_findUnique_domain _ _)) as [taken|] eqn:Et;
    [right; split; reflexivity|].
  left. exists data. split; [reflexivity|]. split; [|repeat split].
  cbv zeta. unfold tenant_user_transaction.
  replace (existsb _ (tenants db)) with false.
  - replace (existsb _ (users db)) with false; [reflexivity|].
    symmetry. apply existsb_false. intros x Hx. apply orb_false_iff. split.
    + apply String.eqb_neq. intros E. apply Huid. simpl in E. rewrite <- E.
      now apply in_map.
    + exact (find_none _ _ Eu x Hx).
  - symmetry. apply existsb_false. intros x Hx. apply orb_false_iff. split.
    + apply String.eqb_neq. intros E. apply Htid. simpl in E. rewrite <- E.
      now apply in_map.
    + exact (find_none _ _ Et x Hx).
Qed.

(** X13.  An email that a user row carries, active or not, and a
    domain that a tenant row carries cannot be registered again: the
    answer is a 400 and nothing is written. *)
Theorem registration_refuses_known_email_or_domain body data tid uid salt now db :
  RegisterSchema body = Some data ->
  (exists u, In u (users db) /\ user_email u = rg_email data)
  \/ (exists t, In t (tenants db) /\ tenant_domain t = rg_tenantDomain data) ->
  run (register body tid uid salt now) db = (db, user_exists)
  \/ run (register body tid uid salt now) db = (db, tenant_domain_taken).
Proof.
  intros Ep Hknown. rewrite run_register, Ep. simpl.
  destruct (find _ (users db)) as [u|] eqn:Eu; [now left|].
  destruct (find _ (tenants db)) as [t|] eqn:Et; [now right|].
  exfalso. destruct Hknown as [(u & Hin & He)|(t & Hin & Hd)].
  - pose proof (find_none _ _ Eu u Hin) as E. simpl in E.
    rewrite He, String.eqb_refl in E. discriminate.
  - pose proof (find_none _ _ Et t Hin) as E. simpl in E.
    rewrite Hd, String.eqb_refl in E. discriminate.
Qed.

(** X14.  Register, then log in.  When the hash [bcrypt.hash] returns
    is one [bcrypt.compare] accepts for the same password, and user
    rows are active by default, the email and password of a
    registration answered with 201 log in on the store it leaves: the
    login is answered 200 with the new user, an [ADMIN] of the new
    tenant. *)
Theorem registered_user_can_login body data tid uid salt issued now db :
  RegisterSchema body = Some data ->
  status (snd (run (register body tid uid salt issued) db)) = 201 ->
  bcryptCompare (rg_password data) (bcryptHash (rg_password data) 12 salt) = true ->
  default_user_isActive = true ->
  let db' := fst (run (register body tid uid salt issued) db) in
  let usr := new_user data (bcryptHash (rg_password data) 12 salt) tid uid in
  run (login (loginBody (rg_email data) (rg_password data)) now) db'
  = (db', json 200 (LoginBody usr (new_tenant data tid)
                      (generateToken uid (rg_email data) "ADMIN" tid now)
                      (generateRefreshToken uid now))).
Proof.
  intros Ep Hst Hpw Hact.
  destruct (RegisterSchema_fields _ Ep) as [Hmail Hlen].
  rewrite run_register, Ep in Hst |- *.
  simpl in Hst |- *.
  destruct (find _ (users db)) as [u|] eqn:Eu; [discriminate|].
  destruct (find _ (tenants db)) as [t|] eqn:Et; [discriminate|].
  cbv zeta in Hst |- *. cbn [fst snd] in Hst |- *.
  set (tenant := new_tenant data tid) in *.
  set (user := new_user data (bcryptHash (rg_password data) 12 salt) tid uid) in *.
  destruct (snd (tenant_user_transaction tenant user db)) as [row|] eqn:Etx;
    [|simpl in Hst; discriminate].
  destruct (@transaction_committed tenant user db) as (-> & _ & N1 & _ & _ & N4);
    [congruence|].
  unfold login, LoginSchema, loginBody. simpl prop. unfold obind, zstring, refine.
  rewrite Hmail. unfold zstring_min1, obind, zstring, refine.
  replace (1 <=? String.length (rg_password data))%nat with true
    by (symmetry; apply Nat.leb_le; lia).
  simpl.
  rewrite (@find_last _ _ (users db) user).
  - cbn [user_password user new_user]. rewrite Hpw. simpl. unfold tenantOf. simpl.
    rewrite (@find_last _ _ (tenants db) tenant); [reflexivity| |apply String.eqb_refl].
    intros a Ha. apply String.eqb_neq. intros E. apply N1. simpl. rewrite <- E.
    now apply in_map.
  - intros a Ha. apply andb_false_iff. left. apply String.eqb_neq. intros E.
    apply N4. simpl. rewrite <- E. now apply in_map.
  - simpl. rewrite String.eqb_refl, Hact. reflexivity.
Qed.

End RegisterMore.

Lemma register_creates_both_or_nothing_witness :
  map tenant_id
    (tenants (fst (run (AuthRoutes.register (H := exampleCollaborators)
                          (H0 := exampleHashing) (H1 := exampleDefaults)
                          (registerBody "g@globex.com" "correct horse" "globex.com")
                          "globex" "u2" "salt" 0) userStore)))
  = ["acme"; "globex"]
  /\ map (fun x => (user_id x, user_role x, user_tenantId x))
       (users (fst (run (AuthRoutes.register (H := exampleCollaborators)
                           (H0 := exampleHashing) (H1 := exampleDefaults)
                           (registerBody "g@globex.com" "correct horse" "globex.com")
                           "globex" "u2" "salt" 0) userStore)))
     = [("u1", "ADMIN", "acme"); ("u2", "ADMIN", "globex")].
Proof.
  destruct (@register_creates_both_or_nothing exampleCollaborators exampleHashing
              exampleDefaults
              (registerBody "g@globex.com" "correct horse" "globex.com")
              "globex" "u2" "salt" 0%Z userStore)
    as [(data & _ & E & _)|[E _]].
  - simpl. intuition discriminate.
  - simpl. intuition discriminate.
  - rewrite E. split; reflexivity.
  - vm_compute in E. discriminate.
Defined.

Lemma registration_refuses_known_email_or_domain_witness :
  run (AuthRoutes.register (H := exampleCollaborators) (H0 := exampleHashing)
         (H1 := exampleDefaults)
         (registerBody "a@acme.com" "correct horse" "globex.com")
         "globex" "u2" "salt" 0) userStore
  = (userStore, user_exists)
  \/ run (AuthRoutes.register (H := exampleCollaborators) (H0 := exampleHashing)
            (H1 := exampleDefaults)
            (registerBody "a@acme.com" "correct horse" "globex.com")
            "globex" "u2" "salt" 0) userStore
     = (userStore, tenant_domain_taken).
Proof.
  refine (@registration_refuses_known_email_or_domain exampleCollaborators
            exampleHashing exampleDefaults
            (registerBody "a@acme.com" "correct horse" "globex.com") _
            "globex" "u2" "salt" 0%Z userStore eq_refl _).
  left. exists demoUser. split; [left|]; reflexivity.
Defined.

Lemma registered_user_can_login_witness :
  status
    (snd (run (AuthRoutes.login (H := exampleCollaborators)
                 (loginBody "g@globex.com" "correct horse") 50)
            (fst (run (AuthRoutes.register (H := exampleCollaborators)
                         (H0 := exampleHashing) (H1 := exampleDefaults)
                         (registerBody "g@globex.com" "correct horse" "globex.com")
                         "globex" "u2" "salt" 0) userStore))))
  = 200.
Proof.
  pose proof (@registered_user_can_login exampleCollaborators exampleHashing
                exampleDefaults
                (registerBody "g@globex.com" "correct horse" "globex.com") _
                "globex" "u2" "salt" 0%Z 50%Z userStore
                eq_refl eq_refl eq_refl eq_refl) as L.
  cbv zeta in L. exact (f_equal (fun o => status (snd o)) L).
Defined.

(** ** The keys and relations of the content tables *)

Section PageWrites.
Context `{Collaborators}.
Import PagesRoutes Store.

Lemma pageWrite_refl (db : DB) : pageWrite db db.
Proof. repeat split; auto. Qed.

Lemma pageWrite_trans (db1 db2 db3 : DB) :
  pageWrite db1 db2 -> pageWrite db2 db3 -> pageWrite db1 db3.
Proof.
  intros (Et & Eu & Es & Em & Hp) (Et' & Eu' & Es' & Em' & Hp').
  repeat split; try congruence. auto.
Qed.

Lemma pages_map_write (f : Page -> Page) (db : DB) :
  (forall p, page_siteId (f p) = page_siteId p) ->
  pageWrite db (with_pages db (map f (pages db))).
Proof.
  intros Hf. repeat split; auto.
  intros Hs p' Hp'. simpl in Hp' |- *. apply in_map_iff in Hp'.
  destruct Hp' as (p & <- & Hp). rewrite Hf. now apply Hs.
Qed.

Lemma page_update_write (id : Id) (f : Page -> Page) (db : DB) :
  (forall p, page_siteId (f p) = page_siteId p) ->
  pageWrite db (fst (page_update id f db)).
Proof.
  intros Hf. unfold page_update.
  destruct (find _ (pages db)) as [old|]; [|apply pageWrite_refl].
  destruct (page_slug_taken _ _ _ _); [apply pageWrite_refl|].
  apply pages_map_write. intros q. destruct (String.eqb _ _); auto.
Qed.

Lemma page_clear_write (c : Page -> bool) (db : DB) :
  pageWrite db
    (with_pages db (map (fun p => if c p then set_isHomePage false p else p) (pages db))).
Proof.
  apply pages_map_write. intros p. destruct (c p); reflexivity.
Qed.

Lemma page_create_write (row : Page) (db : DB) :
  In (page_siteId row) (map site_id (sites db)) ->
  pageWrite db (fst (page_create row db)).
Proof.
  intros Hrow. unfold page_create. destruct (_ || _); [apply pageWrite_refl|].
  repeat split; auto. intros Hs p Hp. simpl in Hp |- *.
  apply in_app_iff in Hp. destruct Hp as [Hp|[<-|[]]]; auto.
Qed.

Lemma page_delete_write (id : Id) (db : DB) :
  pageWrite db (fst (page_delete id db)).
Proof.
  unfold page_delete. destruct (page_id_taken _ _); [|apply pageWrite_refl].
  repeat split; auto. intros Hs p Hp. simpl in Hp |- *.
  apply filter_In in Hp. apply Hs. tauto.
Qed.

Lemma put_tail_write id data at_ existing db :
  pageWrite db (fst (run (put_tail id data at_ existing) db)).
Proof.
  unfold put_tail. destruct (truthy _); simpl.
  - match goal with
    | |- context [page_update id ?f ?d] =>
        pose proof (@page_update_write id f d (fun p => eq_refl)) as Hu;
        destruct (page_update id f d) as [db' [row|]]
    end; simpl in Hu |- *;
      (eapply pageWrite_trans; [apply page_clear_write|exact Hu]).
  - match goal with
    | |- context [page_update id ?f ?d] =>
        pose proof (@page_update_write id f d (fun p => eq_refl)) as Hu;
        destruct (page_update id f d) as [db' [row|]]
    end; simpl in Hu |- *; exact Hu.
Qed.

(** A page request writes to the page table alone, and a page it
    writes belongs to a site of the store. *)
Lemma serve_write (r : PageRequest) (db : DB) : pageWrite db (serve db r).
Proof.
  unfold serve.
  destruct r as [u b newId now|u id b now|u id b now|u id]; simpl;
    unfold post, put, publish, delete; rewrite run_requireRole;
    destruct (existsb _ _); try apply pageWrite_refl.
  - rewrite run_post_handler.
    destruct (CreatePageSchema b) as [data|]; [|apply pageWrite_refl].
    destruct (snd (site_findFirst _ _ _)) as [s|] eqn:Es; [|apply pageWrite_refl].
    destruct (snd (page_findUnique_siteId_slug _ _ _)); [apply pageWrite_refl|].
    cbv zeta. set (db1 := if truthy _ then _ else db).
    assert (W1 : pageWrite db db1).
    { subst db1. destruct (truthy _); [apply page_clear_write|apply pageWrite_refl]. }
    assert (W2 : pageWrite db (fst (page_create (new_page u data newId now) db1))).
    { eapply pageWrite_trans; [exact W1|]. apply page_create_write.
      destruct W1 as (_ & _ & -> & _). simpl in Es. apply find_some in Es.
      destruct Es as [Hin Hc]. apply andb_true_iff in Hc. destruct Hc as [Hid _].
      apply String.eqb_eq in Hid. simpl. rewrite <- Hid. now apply in_map. }
    destruct (snd (page_create _ _)); exact W2.
  - rewrite run_put_handler.
    destruct (UpdatePageSchema b) as [data|]; [|apply pageWrite_refl].
    destruct (snd (page_findFirst _ _ _)) as [existing|]; [|apply pageWrite_refl].
    destruct (_ && _); [apply pageWrite_refl|]. cbv zeta.
    destruct (given _); [|apply put_tail_write].
    destruct (negb _); [|apply put_tail_write].
    destruct (snd (page_findUnique_siteId_slug _ _ _));
      [apply pageWrite_refl|apply put_tail_write].
  - rewrite run_publish_handler.
    destruct (PublishPageSchema b) as [st|]; [|apply pageWrite_refl].
    destruct (snd (page_findFirst _ _ _)) as [existing|]; [|apply pageWrite_refl].
    destruct (_ && _); [apply pageWrite_refl|]. cbv zeta.
    match goal with
    | |- context [page_update id ?f ?d] =>
        pose proof (@page_update_write id f d (fun p => eq_refl)) as Hu;
        destruct (page_update id f d) as [db' [row|]]
    end; simpl in Hu |- *; exact Hu.
  - rewrite run_delete_handler.
    destruct (snd (page_findFirst _ _ _)) as [existing|]; [|apply pageWrite_refl].
    destruct (_ && _); [apply pageWrite_refl|].
    pose proof (page_delete_write id db) as W.
    destruct (snd (page_delete id db)); exact W.
Qed.

End PageWrites.

Section MediaWrites.
Context `{Collaborators}.
Import MediaRoutes Store.

Lemma mediaWrite_refl (db : DB) : mediaWrite db db.
Proof. repeat split; auto. Qed.

Lemma media_update_write (id : Id) (f : Media -> Media) (db : DB) :
  (forall m, media_id (f m) = media_id m /\ media_siteId (f m) = media_siteId m) ->
  mediaWrite db (fst (media_update id f db)).
Proof.
  intros Hf. unfold media_update.
  destruct (find _ (media db)) as [old|]; [|apply mediaWrite_refl].
  set (g := fun m => if String.eqb (media_id m) id then f m else m).
  assert (Hg : forall m, media_id (g m) = media_id m
                         /\ media_siteId (g m) = media_siteId m).
  { intros m. unfold g. destruct (String.eqb _ _); auto. }
  repeat split; auto; simpl.
  - intros K. rewrite (keyed_map media_id); auto. intros m. apply Hg.
  - intros Hs m' Hm'. simpl in Hm' |- *. apply in_map_iff in Hm'.
    destruct Hm' as (m & <- & Hm). destruct (Hg m) as [_ ->]. now apply Hs.
Qed.

Lemma media_delete_write (id : Id) (db : DB) :
  mediaWrite db (fst (media_delete id db)).
Proof.
  unfold media_delete. destruct (existsb _ (media db)); [|apply mediaWrite_refl].
  repeat split; auto; simpl.
  - intros K. now apply keyed_filter.
  - intros Hs m Hm. simpl in Hm |- *. apply filter_In in Hm. apply Hs. tauto.
Qed.

Lemma media_create_write (row : Media) (db : DB) :
  In (media_siteId row) (map site_id (sites db)) ->
  mediaWrite db (fst (media_create row db)).
Proof.
  intros Hrow. unfold media_create.
  destruct (existsb _ (media db)) eqn:E; [apply mediaWrite_refl|].
  repeat split; auto; simpl.
  - intros K. rewrite map_app. simpl. apply NoDup_snoc; auto.
    now apply key_not_taken.
  - intros Hs m Hm. simpl in Hm |- *.
    apply in_app_iff in Hm. destruct Hm as [Hm|[<-|[]]]; auto.
Qed.

Lemma media_put_write u id b db :
  mediaWrite db (fst (run (put_handler u id b) db)).
Proof.
  rewrite run_media_put_handler.
  destruct (UpdateMediaSchema b) as [data|]; [|apply mediaWrite_refl].
  destruct (snd (media_findFirst _ _ _)) as [existing|]; [|apply mediaWrite_refl].
  pose proof (@media_update_write id (apply_data data) db
                (fun m => conj eq_refl eq_refl)) as W.
  cbv zeta.
  assert (W' : mediaWrite db (fst
            match snd (media_update id (apply_data data) db) with
            | None => (fst (media_update id (apply_data data) db),
                       PagesRoutes.internal "Failed to update media")
            | Some m0 =>
                (fst (media_update id (apply_data data) db),
                 json 200 (MediaBody (Some "Media updated successfully") m0))
            end)) by (destruct (snd (media_update _ _ _)); exact W).
  destruct (given _); auto. destruct (negb _); auto.
  destruct (snd (media_findFirst_filename _ _ _)); auto. apply mediaWrite_refl.
Qed.

Lemma media_delete_handler_write u id db :
  mediaWrite db (fst (run (delete_handler u id) db)).
Proof.
  rewrite run_media_delete_handler.
  destruct (snd (media_findFirst _ _ _)); [|apply mediaWrite_refl].
  pose proof (media_delete_write id db) as W.
  destruct (snd (media_delete id db)); exact W.
Qed.

Lemma media_post_write u b newId db :
  mediaWrite db (fst (run (post_handler u b newId) db)).
Proof.
  unfold post_handler.
  destruct (CreateMediaSchema b) as [data|]; [|apply mediaWrite_refl].
  simpl. destruct (find _ (sites db)) as [s|] eqn:Es; [|apply mediaWrite_refl].
  simpl. destruct (find _ (media db)) as [taken|]; [apply mediaWrite_refl|].
  simpl.
  assert (W : mediaWrite db (fst (media_create (new_media data newId) db))).
  { apply media_create_write. apply find_some in Es. destruct Es as [Hin Hc].
    apply andb_true_iff in Hc. destruct Hc as [Hid _].
    apply String.eqb_eq in Hid. simpl. rewrite <- Hid. now apply in_map. }
  destruct (media_create (new_media data newId) db) as [db' [row|]]; exact W.
Qed.

End MediaWrites.

Section SiteWrites.
Context `{Collaborators} `{SchemaDefaults}.
Import SitesRoutes Store.

Lemma siteWrite_refl (db : DB) : siteWrite db db.
Proof.
  refine (conj eq_refl (conj eq_refl (conj eq_refl (conj eq_refl (conj _ _)))));
    auto.
Qed.

Lemma site_update_write (id : Id) (g : Site -> Site) (db : DB) :
  (forall s, site_id (g s) = site_id s) ->
  siteWrite db (fst (site_update id g db)).
Proof.
  intros Hg. unfold site_update.
  destruct (find _ (sites db)) as [old|] eqn:Eold; [|apply siteWrite_refl].
  destruct (site_domain_taken _ _ _) eqn:Etk; [apply siteWrite_refl|].
  apply find_some in Eold. destruct Eold as [Hold Eid]. apply String.eqb_eq in Eid.
  set (g' := fun s => if String.eqb (site_id s) id then g s else s).
  assert (Hg' : forall s, site_id (g' s) = site_id s).
  { intros s. unfold g'. destruct (String.eqb _ _); auto. }
  assert (Hfree : forall s d, In s (sites db) -> site_id s <> id ->
                    site_domain s = Some d -> site_domain (g old) <> Some d).
  { intros s d Hs Hne Hd E. rewrite E in Etk. simpl in Etk.
    assert (existsb (fun s0 => negb (String.eqb (site_id s0) id)
                               && match site_domain s0 with
                                  | Some d' => String.eqb d' d
                                  | None => false
                                  end) (sites db) = true); [|congruence].
    apply existsb_exists. exists s. split; auto.
    apply String.eqb_neq in Hne. rewrite Hne, Hd, String.eqb_refl. reflexivity. }
  refine (conj eq_refl (conj eq_refl (conj eq_refl (conj eq_refl (conj _ _)))));
    simpl; fold g'.
  - rewrite (keyed_map site_id); auto.
  - intros [K U]. split; [simpl; fold g'; rewrite (keyed_map site_id); auto|].
    intros s1' s2' d H1' H2' D1 D2. simpl in H1', H2'.
    apply in_map_iff in H1'. destruct H1' as (s1 & <- & Hs1).
    apply in_map_iff in H2'. destruct H2' as (s2 & <- & Hs2).
    rewrite !Hg'. unfold g' in D1, D2.
    destruct (String.eqb (site_id s1) id) eqn:E1,
             (String.eqb (site_id s2) id) eqn:E2.
    + apply String.eqb_eq in E1, E2. congruence.
    + exfalso. apply String.eqb_eq in E1. apply String.eqb_neq in E2.
      assert (s1 = old)
        by (apply (keyed_unique site_id (sites db)); auto; congruence).
      subst s1. now apply (Hfree s2 d).
    + exfalso. apply String.eqb_eq in E2. apply String.eqb_neq in E1.
      assert (s2 = old)
        by (apply (keyed_unique site_id (sites db)); auto; congruence).
      subst s2. now apply (Hfree s1 d).
    + now apply U with (d := d).
Qed.

Lemma site_create_write (row : Site) (db : DB) :
  siteWrite db (fst (site_create row db)).
Proof.
  unfold site_create.
  destruct (_ || _) eqn:E; [apply siteWrite_refl|].
  apply orb_false_iff in E. destruct E as [Eid Edom].
  assert (Hnew : ~ In (site_id row) (map site_id (sites db)))
    by now apply key_not_taken.
  assert (Hfree : forall s d, In s (sites db) -> site_domain s = Some d ->
                    site_domain row <> Some d).
  { intros s d Hs Hd E. rewrite E in Edom. simpl in Edom.
    assert (existsb (fun s0 => negb (String.eqb (site_id s0) (site_id row))
                               && match site_domain s0 with
                                  | Some d' => String.eqb d' d
                                  | None => false
                                  end) (sites db) = true); [|congruence].
    apply existsb_exists. exists s. split; auto.
    rewrite Hd, String.eqb_refl.
    replace (String.eqb (site_id s) (site_id row)) with false; [reflexivity|].
    symmetry. apply String.eqb_neq. intros Es. apply Hnew. rewrite <- Es.
    now apply in_map. }
  refine (conj eq_refl (conj eq_refl (conj eq_refl (conj eq_refl (conj _ _)))));
    simpl.
  - intros sid Hsid. rewrite map_app. apply in_or_app. auto.
  - intros [K U]. split; [simpl; rewrite map_app; apply NoDup_snoc; auto|].
    intros s1 s2 d H1' H2' D1 D2. simpl in H1', H2'.
    apply in_app_iff in H1'. apply in_app_iff in H2'.
    destruct H1' as [Hs1|[<-|[]]], H2' as [Hs2|[<-|[]]]; auto.
    + now apply U with (d := d).
    + exfalso. now apply (Hfree s1 d).
    + exfalso. now apply (Hfree s2 d).
Qed.

Lemma site_put_write u id b db :
  siteWrite db (fst (run (put_handler u id b) db)).
Proof.
  unfold put_handler.
  destruct (UpdateSiteSchema b) as [data|]; [|apply siteWrite_refl].
  simpl. destruct (find _ (sites db)) as [existing|]; [|apply siteWrite_refl].
  assert (Hw : forall (k1 : Response) (k2 : Site -> Response),
    siteWrite db
      (fst (run (let* row := await site_update id (apply_data data) in
                 match row with
                 | None => Ret k1
                 | Some s => Ret (k2 s)
                 end) db))).
  { intros. simpl.
    pose proof (@site_update_write id (apply_data data) db (fun s => eq_refl)) as W.
    destruct (site_update id (apply_data data) db) as [db' [row|]]; exact W. }
  destruct (given _); [|apply Hw].
  destruct (match site_domain existing with Some d => _ | None => true end);
    [|apply Hw].
  simpl. destruct (find _ (sites db)) as [taken|]; [apply siteWrite_refl|apply Hw].
Qed.

Lemma site_publish_write u id b db :
  siteWrite db (fst (run (publish_handler u id b) db)).
Proof.
  unfold publish_handler.
  destruct (PublishSiteSchema b) as [isPublished|]; [|apply siteWrite_refl].
  simpl. destruct (find _ (sites db)) as [existing|]; [|apply siteWrite_refl].
  simpl.
  pose proof (@site_update_write id (set_isPublished isPublished) db
                (fun s => eq_refl)) as W.
  destruct (site_update id (set_isPublished isPublished) db) as [db' [row|]];
    exact W.
Qed.

Lemma site_post_write u b newId db :
  siteWrite db (fst (run (post_handler u b newId) db)).
Proof.
  unfold post_handler.
  destruct (CreateSiteSchema b) as [data|]; [|apply siteWrite_refl].
  assert (Hw : forall (k1 : Response) (k2 : Site -> Response),
    siteWrite db
      (fst (run (let* site := await site_create (new_site u data newId) in
                 match site with
                 | None => Ret k1
                 | Some s => Ret (k2 s)
                 end) db))).
  { intros. simpl.
    pose proof (site_create_write (new_site u data newId) db) as W.
    destruct (site_create (new_site u data newId) db) as [db' [row|]]; exact W. }
  destruct (given _); [|apply Hw].
  simpl. destruct (find _ (sites db)) as [taken|]; [apply siteWrite_refl|apply Hw].
Qed.

(** Deleting a site takes its pages and media with it. *)
Lemma site_delete_sound (id : Id) (db : DB) :
  storeSound db -> storeSound (fst (site_delete id db)).
Proof.
  intros S. unfold site_delete. destruct (existsb _ (sites db)); auto.
  destruct S as ((Ks & Kp & Km) & U & D & Op & Om).
  assert (Hsite : forall sid, sid <> id -> In sid (map site_id (sites db)) ->
            In sid (map site_id
                      (filter (fun s => negb (String.eqb (site_id s) id)) (sites db)))).
  { intros sid Hne Hin. apply in_map_iff in Hin. destruct Hin as (s & Es & Hs).
    apply in_map_iff. exists s. split; auto. apply filter_In. split; auto.
    apply negb_true_iff. apply String.eqb_neq. congruence. }
  repeat split; simpl.
  - now apply keyed_filter.
  - unfold pagesKeyed. simpl. now apply keyed_filter.
  - now apply keyed_filter.
  - intros p q Hp Hq. simpl in Hp, Hq.
    apply filter_In in Hp. apply filter_In in Hq. apply U; tauto.
  - intros s1 s2 d H1' H2'. simpl in H1', H2'.
    apply filter_In in H1'. apply filter_In in H2'. apply D; tauto.
  - intros p Hp. simpl in Hp |- *. apply filter_In in Hp. destruct Hp as [Hp Hne].
    apply negb_true_iff in Hne. apply String.eqb_neq in Hne. auto.
  - intros m Hm. simpl in Hm |- *. apply filter_In in Hm. destruct Hm as [Hm Hne].
    apply negb_true_iff in Hne. apply String.eqb_neq in Hne. auto.
Qed.

Lemma site_delete_handler_sound u id db :
  storeSound db -> storeSound (fst (run (delete_handler u id) db)).
Proof.
  intros S. unfold delete_handler.
  simpl. destruct (find _ (sites db)) as [existing|]; auto.
  simpl. pose proof (site_delete_sound id S) as W.
  destruct (site_delete id db) as [db' [|]]; exact W.
Qed.

Lemma pageWrite_sound (db db' : DB) :
  pageWrite db db' -> pageKeys db' -> storeSound db -> storeSound db'.
Proof.
  intros (Et & Eu & Es & Em & Hp) [K U] ((Ks & Kp & Km) & _ & D & Op & Om).
  unfold storeSound, storeKeyed, domainsUnique, noOrphans, mediaHaveSites.
  rewrite Es, Em. repeat split; auto.
Qed.

Lemma mediaWrite_sound (db db' : DB) :
  mediaWrite db db' -> storeSound db -> storeSound db'.
Proof.
  intros (Et & Eu & Es & Ep & Hk & Hm) ((Ks & Kp & Km) & U & D & Op & Om).
  unfold storeSound, storeKeyed, pagesKeyed, slugsUnique, domainsUnique,
    noOrphans, pagesHaveSites in *.
  rewrite Es, Ep. repeat split; auto.
Qed.

Lemma siteWrite_sound (db db' : DB) :
  siteWrite db db' -> storeSound db -> storeSound db'.
Proof.
  intros (Et & Eu & Ep & Em & Hid & Hk) ((Ks & Kp & Km) & U & D & Op & Om).
  destruct (Hk (conj Ks D)) as [Ks' D'].
  unfold storeSound, storeKeyed, pagesKeyed, slugsUnique,
    noOrphans, pagesHaveSites, mediaHaveSites in *.
  rewrite Ep, Em. repeat split; auto.
Qed.

Lemma mutate_sound (u : ReqUser) (m : Mutation) (db : DB) :
  storeSound db -> storeSound (fst (run (mutate u m) db)).
Proof.
  intros S.
  assert (Kp : pageKeys db) by (destruct S as ((_ & Kp & _) & U & _); now split).
  destruct m as [a id|b newId now|b newId|b newId];
    [destruct a as [|b now|b now| | |b| | |b|b|]|..].
  - simpl. destruct (find _ (pages db)); exact S.
  - apply (@pageWrite_sound db (serve db (Update u id b now))); auto.
    + apply serve_write.
    + now apply serve_pageKeys.
  - apply (@pageWrite_sound db (serve db (Publish u id b now))); auto.
    + apply serve_write.
    + now apply serve_pageKeys.
  - apply (@pageWrite_sound db (serve db (Delete u id))); auto.
    + apply serve_write.
    + now apply serve_pageKeys.
  - simpl. destruct (find _ (media db)); exact S.
  - simpl. unfold MediaRoutes.put. rewrite run_requireRole.
    destruct (existsb _ _); auto.
    apply (@mediaWrite_sound db); auto. apply media_put_write.
  - simpl. unfold MediaRoutes.delete. rewrite run_requireRole.
    destruct (existsb _ _); auto.
    apply (@mediaWrite_sound db); auto. apply media_delete_handler_write.
  - simpl. destruct (find _ (sites db)); exact S.
  - simpl. unfold put. rewrite run_requireRole.
    destruct (existsb _ _); auto.
    apply (@siteWrite_sound db); auto. apply site_put_write.
  - simpl. unfold publish. rewrite run_requireRole.
    destruct (existsb _ _); auto.
    apply (@siteWrite_sound db); auto. apply site_publish_write.
  - simpl. unfold delete. rewrite run_requireRole.
    destruct (existsb _ _); auto.
    now apply site_delete_handler_sound.
  - apply (@pageWrite_sound db (serve db (Create u b newId now))); auto.
    + apply serve_write.
    + now apply serve_pageKeys.
  - simpl. unfold MediaRoutes.post. rewrite run_requireRole.
    destruct (existsb _ _); auto.
    apply (@mediaWrite_sound db); auto. apply media_post_write.
  - simpl. unfold post. rewrite run_requireRole.
    destruct (existsb _ _); auto.
    apply (@siteWrite_sound db); auto. apply site_post_write.
Qed.

(** X15.  Through every sequence of requests of the content routes,
    whoever sends them: site, page and media ids stay unique, no two
    pages of a site share a slug, no two sites share a domain, and
    every page and media row belongs to a site of the store. *)
Theorem requests_keep_the_store_sound (ms : list (ReqUser * Mutation)) (db : DB) :
  storeSound db -> storeSound (mutateAll ms db).
Proof.
  unfold mutateAll. revert db.
  induction ms as [|[u m] ms IH]; intros db S; simpl; auto.
  apply IH. now apply mutate_sound.
Qed.

End SiteWrites.

Lemma sharedStore_sound : storeSound sharedStore.
Proof.
  split; [exact sharedStore_keyed|]. split; [|split; [|split]].
  - intros p q [<-|[]] [<-|[]]; reflexivity.
  - intros s1 s2 d [<-|[<-|[]]] _; discriminate.
  - intros p [<-|[]]. left. reflexivity.
  - intros m [<-|[]]. left. reflexivity.
Qed.

Lemma requests_keep_the_store_sound_witness :
  storeSound
    (mutateAll (H := exampleCollaborators) (H0 := exampleDefaults)
       [(demoAdmin, NewSite (siteBody "Shop" "shop.example") "s3");
        (demoAdmin, NewPage (createBody "news" true) "p2" 10);
        (outsideAdmin, NewSite (siteBody "Mine" "shop.example") "s4");
        (demoAdmin, ById DeleteSite "s1")] sharedStore).
Proof.
  apply (@requests_keep_the_store_sound exampleCollaborators exampleDefaults).
  exact sharedStore_sound.
Defined.

(** ** Sites *)

Section SitesMore.
Context `{Collaborators} `{SchemaDefaults}.
Import SitesRoutes Store.

Lemma domain_found (d : string) (holder : Site) (db : DB) :
  In holder (sites db) -> site_domain holder = Some d ->
  snd (site_findUnique_domain d db) <> None.
Proof.
  intros Hin Hd. simpl. apply find_is_some with (a := holder); auto.
  rewrite Hd. apply String.eqb_refl.
Qed.

(** X16.  A domain that a site of the store holds, in whatever
    tenant, is refused to a new site and to another site that asks
    for it: the answer is a 400 and nothing is written. *)
Theorem taken_domain_is_refused (u : ReqUser) (d : string) (holder : Site) (db : DB) :
  mayAdminister u -> d <> ""%string ->
  In holder (sites db) -> site_domain holder = Some d ->
  (forall body data newId,
      CreateSiteSchema body = Some data -> cs_domain data = Some d ->
      run (post u body newId) db = (db, domain_taken))
  /\ (forall body data id existing,
        UpdateSiteSchema body = Some data -> us_domain data = Some d ->
        snd (site_findFirst id (req_user_tenantId u) db) = Some existing ->
        site_domain existing <> Some d ->
        run (put u id body) db = (db, domain_taken)).
Proof.
  intros G Hd Hin Hdom. pose proof (@domain_found d holder db Hin Hdom) as Hfound.
  assert (Hgiven : given (Some d) = Some d) by (destruct d; [congruence|reflexivity]).
  split.
  - intros body data newId Hp Hcs. unfold post. rewrite run_requireRole, G.
    unfold post_handler. rewrite Hp, Hcs, Hgiven. simpl in Hfound |- *.
    destruct (find _ (sites db)); [reflexivity|congruence].
  - intros body data id existing Hp Hus Hex Hne. unfold put.
    rewrite run_requireRole, G. unfold put_handler. rewrite Hp.
    simpl in Hex |- *. rewrite Hex, Hus, Hgiven.
    assert (Hdiff : match site_domain existing with
                    | Some d0 => negb (String.eqb d d0)
                    | None => true
                    end = true).
    { destruct (site_domain existing) as [d0|]; [|reflexivity].
      apply negb_true_iff. apply String.eqb_neq. congruence. }
    rewrite Hdiff. simpl in Hfound |- *.
    destruct (find _ (sites db)); [reflexivity|congruence].
Qed.

(** What a site create answered with 201 has done. *)
Lemma site_post_created u b newId db row :
  snd (run (post u b newId) db)
  = json 201 (SiteBody (Some "Site created successfully") row [] []) ->
  exists data,
    CreateSiteSchema b = Some data /\ row = new_site u data newId
    /\ site_id_taken newId (sites db) = false
    /\ fst (run (post u b newId) db) = with_sites db (sites db ++ [row]).
Proof.
  unfold post. rewrite run_requireRole.
  destruct (existsb _ _); [|discriminate]. unfold post_handler.
  destruct (CreateSiteSchema b) as [data|]; [|discriminate].
  assert (Hw : snd (run (let* site := await site_create (new_site u data newId) in
                         match site with
                         | None => Ret (PagesRoutes.internal "Failed to create site")
                         | Some s =>
                             Ret (json 201
                                    (SiteBody (Some "Site created successfully") s [] []))
                         end) db)
               = json 201 (SiteBody (Some "Site created successfully") row [] []) ->
          row = new_site u data newId
          /\ site_id_taken newId (sites db) = false
          /\ fst (run (let* site := await site_create (new_site u data newId) in
                       match site with
                       | None => Ret (PagesRoutes.internal "Failed to create site")
                       | Some s =>
                           Ret (json 201
                                  (SiteBody (Some "Site created successfully") s [] []))
                       end) db)
             = with_sites db (sites db ++ [row])).
  { simpl. unfold site_create. simpl site_id.
    destruct (site_id_taken newId (sites db)); simpl; [discriminate|].
    destruct (site_domain_taken _ _ _); simpl; [discriminate|].
    intros [= <-]. auto. }
  destruct (given _).
  - simpl. destruct (find _ (sites db)); [discriminate|].
    intros E. exists data. split; auto.
  - intros E. exists data. split; auto.
Qed.

(** X17.  A site that [POST /sites] has created belongs to the
    tenant of its creator and is what [GET /sites/:id] returns to its
    creator under the id the store gave it; in a store where every
    page and media row has its site, the new site has no page and no
    media. *)
Theorem created_site_is_readable u b newId db row :
  noOrphans db ->
  snd (run (post u b newId) db)
  = json 201 (SiteBody (Some "Site created successfully") row [] []) ->
  site_id row = newId /\ site_tenantId row = req_user_tenantId u
  /\ run (get_by_id u newId) (fst (run (post u b newId) db))
     = (fst (run (post u b newId) db), json 200 (SiteBody None row [] [])).
Proof.
  intros [Op Om] Hpost.
  destruct (site_post_created u b newId db Hpost) as (data & Hp & -> & Hid & ->).
  split; [reflexivity|]. split; [reflexivity|].
  assert (Hnew : ~ In newId (map site_id (sites db))) by now apply key_not_taken.
  unfold get_by_id. simpl.
  rewrite find_last.
  - simpl. unfold pagesOfSite, mediaOfSite. simpl.
    rewrite !filter_none; [reflexivity| |].
    + intros m Hm. apply String.eqb_neq. intros E. apply Hnew. rewrite <- E. auto.
    + intros p Hp'. apply String.eqb_neq. intros E. apply Hnew. rewrite <- E. auto.
  - intros s Hs. apply andb_false_iff. left. apply String.eqb_neq. intros E.
    apply Hnew. rewrite <- E. now apply in_map.
  - simpl. rewrite !String.eqb_refl. reflexivity.
Qed.

(** X18.  After a [DELETE /sites/:id] answered with 200 the site is
    gone and so is its content: reading the site, any page that was a
    page of the site and any media row that was one of its media is
    answered 404, whoever asks. *)
Theorem deleted_site_takes_its_content u id db :
  pagesKeyed db -> NoDup (map media_id (media db)) ->
  status (snd (run (delete u id) db)) = 200 ->
  run (get_by_id u id) (fst (run (delete u id) db))
  = (fst (run (delete u id) db), not_found)
  /\ (forall p v, In p (pages db) -> page_siteId p = id ->
        run (PagesRoutes.get_by_id v (page_id p)) (fst (run (delete u id) db))
        = (fst (run (delete u id) db), PagesRoutes.not_found))
  /\ (forall m v, In m (media db) -> media_siteId m = id ->
        run (MediaRoutes.get_by_id v (media_id m)) (fst (run (delete u id) db))
        = (fst (run (delete u id) db), MediaRoutes.not_found)).
Proof.
  intros Kp Km. unfold delete. rewrite run_requireRole.
  destruct (existsb _ _); [|discriminate]. unfold delete_handler.
  simpl. destruct (find _ (sites db)) as [existing|]; [|discriminate].
  simpl. unfold site_delete. destruct (existsb _ (sites db)); simpl; [|discriminate].
  intros _. split; [|split].
  - unfold get_by_id. simpl. rewrite find_none_iff; [reflexivity|].
    intros s Hs. apply filter_In in Hs. destruct Hs as [_ Hne].
    apply negb_true_iff in Hne. rewrite Hne. reflexivity.
  - intros p v Hp Hsite. unfold PagesRoutes.get_by_id. simpl.
    rewrite find_none_iff; [reflexivity|].
    intros q Hq. apply filter_In in Hq. destruct Hq as [Hq Hne].
    apply andb_false_iff. left. apply String.eqb_neq. intros E.
    assert (q = p) by (apply (keyed_unique page_id (pages db)); auto).
    subst q. rewrite Hsite, String.eqb_refl in Hne. discriminate.
  - intros m v Hm Hsite. unfold MediaRoutes.get_by_id. simpl.
    rewrite find_none_iff; [reflexivity|].
    intros q Hq. apply filter_In in Hq. destruct Hq as [Hq Hne].
    apply andb_false_iff. left. apply String.eqb_neq. intros E.
    assert (q = m) by (apply (keyed_unique media_id (media db)); auto).
    subst q. rewrite Hsite, String.eqb_refl in Hne. discriminate.
Qed.

End SitesMore.

Lemma taken_domain_is_refused_witness :
  run (SitesRoutes.post (H := exampleDefaults) demoAdmin
         (siteBody "Mine" "shop.example") "s9") domainStore
  = (domainStore, SitesRoutes.domain_taken).
Proof.
  refine (proj1 (@taken_domain_is_refused exampleDefaults demoAdmin
                   "shop.example" shopSite domainStore eq_refl _ _ eq_refl)
            (siteBody "Mine" "shop.example") _ "s9" eq_refl eq_refl).
  - discriminate.
  - right. left. reflexivity.
Defined.

Lemma created_site_is_readable_witness :
  exists row,
    snd (run (SitesRoutes.post (H := exampleDefaults) demoAdmin
                (siteBody "Shop" "shop.example") "s3") demoStore)
    = json 201 (SiteBody (Some "Site created successfully") row [] [])
    /\ snd (run (SitesRoutes.get_by_id demoAdmin "s3")
              (fst (run (SitesRoutes.post (H := exampleDefaults) demoAdmin
                           (siteBody "Shop" "shop.example") "s3") demoStore)))
       = json 200 (SiteBody None row [] []).
Proof.
  eexists. split; [reflexivity|].
  refine (f_equal snd (proj2 (proj2 (@created_site_is_readable exampleDefaults
            demoAdmin (siteBody "Shop" "shop.example") "s3" demoStore _ _ eq_refl)))).
  split; intros x [].
Defined.

Lemma deleted_site_takes_its_content_witness :
  run (PagesRoutes.get_by_id demoAdmin "p1")
    (fst (run (SitesRoutes.delete demoAdmin "s1") sharedStore))
  = (fst (run (SitesRoutes.delete demoAdmin "s1") sharedStore),
     PagesRoutes.not_found).
Proof.
  refine (proj1 (proj2 (@deleted_site_takes_its_content demoAdmin "s1" sharedStore
                          _ _ eq_refl))
            (plainPage "p1" "home") demoAdmin _ eq_refl).
  - constructor; [intros []|constructor].
  - constructor; [intros []|constructor].
  - left. reflexivity.
Defined.

(** ** Media filenames *)

Section MediaNames.
Context `{Collaborators} `{SchemaDefaults}.
Import MediaRoutes Store.

Lemma filenames_subset (db db' : DB) :
  (forall m, In m (media db') -> In m (media db)) ->
  filenamesUnique db -> filenamesUnique db'.
Proof.
  intros Hsub U m1 m2 H1' H2'. apply U; auto.
Qed.

Lemma filenames_same (db db' : DB) :
  media db' = media db -> filenamesUnique db -> filenamesUnique db'.
Proof.
  intros E. apply filenames_subset. rewrite E. auto.
Qed.

(** Writing a row whose filename stays, or is taken by no row of its
    site. *)
Lemma media_update_names (id : Id) (f : Media -> Media) (existing : Media) (db : DB) :
  NoDup (map media_id (media db)) ->
  In existing (media db) -> media_id existing = id ->
  (forall m, media_id (f m) = media_id m /\ media_siteId (f m) = media_siteId m) ->
  media_filename (f existing) = media_filename existing
  \/ (forall m, In m (media db) -> media_siteId m = media_siteId existing ->
        media_filename m <> media_filename (f existing)) ->
  filenamesUnique db -> filenamesUnique (fst (media_update id f db)).
Proof.
  intros K Hex Hid Hf Hname U. unfold media_update.
  destruct (find _ (media db)) as [old|]; auto.
  set (g := fun m => if String.eqb (media_id m) id then f m else m).
  assert (Hg : forall m, In m (media db) ->
            media_id (g m) = media_id m /\ media_siteId (g m) = media_siteId m
            /\ (media_id m <> id -> g m = m)
            /\ (media_id m = id -> m = existing /\ g m = f existing)).
  { intros m Hm. unfold g. destruct (String.eqb (media_id m) id) eqn:E.
    - apply String.eqb_eq in E.
      assert (m = existing)
        by (apply (keyed_unique media_id (media db)); auto; congruence).
      subst m. destruct (Hf existing) as [-> ->]. repeat split; auto. congruence.
    - apply String.eqb_neq in E. repeat split; auto; congruence. }
  intros m1' m2' H1' H2'. simpl in H1', H2'.
  apply in_map_iff in H1'. destruct H1' as (m1 & <- & Hm1).
  apply in_map_iff in H2'. destruct H2' as (m2 & <- & Hm2).
  fold g.
  destruct (Hg m1 Hm1) as (-> & -> & N1 & E1), (Hg m2 Hm2) as (-> & -> & N2 & E2).
  intros Es En.
  destruct (String.eqb (media_id m1) id) eqn:I1,
           (String.eqb (media_id m2) id) eqn:I2.
  - apply String.eqb_eq in I1, I2. congruence.
  - apply String.eqb_eq in I1. apply String.eqb_neq in I2.
    destruct (E1 I1) as [-> G1]. rewrite G1, (N2 I2) in En.
    destruct Hname as [Hsame|Hfree].
    + rewrite Hsame in En. now apply U.
    + exfalso. apply (Hfree m2 Hm2); congruence.
  - apply String.eqb_neq in I1. apply String.eqb_eq in I2.
    destruct (E2 I2) as [-> G2]. rewrite G2, (N1 I1) in En.
    destruct Hname as [Hsame|Hfree].
    + rewrite Hsame in En. now apply U.
    + exfalso. apply (Hfree m1 Hm1); congruence.
  - apply String.eqb_neq in I1, I2. rewrite (N1 I1), (N2 I2) in En. now apply U.
Qed.

Lemma media_put_names u id b db :
  NoDup (map media_id (media db)) -> namesEmpty (ById (PutMedia b) id) = false ->
  filenamesUnique db -> filenamesUnique (fst (run (put_handler u id b) db)).
Proof.
  intros K Hne U. rewrite run_media_put_handler. simpl in Hne.
  destruct (UpdateMediaSchema b) as [data|]; auto.
  destruct (snd (media_findFirst _ _ _)) as [existing|] eqn:Ef; auto.
  simpl in Ef. apply find_some in Ef. destruct Ef as [Hex Hc].
  apply andb_true_iff in Hc. destruct Hc as [Hid _]. apply String.eqb_eq in Hid.
  assert (Hw : media_filename (apply_data data existing) = media_filename existing
               \/ (forall m, In m (media db) ->
                     media_siteId m = media_siteId existing ->
                     media_filename m <> media_filename (apply_data data existing)) ->
               filenamesUnique (fst
                 match snd (media_update id (apply_data data) db) with
                 | None => (fst (media_update id (apply_data data) db),
                            PagesRoutes.internal "Failed to update media")
                 | Some m0 =>
                     (fst (media_update id (apply_data data) db),
                      json 200 (MediaBody (Some "Media updated successfully") m0))
                 end)).
  { intros Hname.
    pose proof (@media_update_names id (apply_data data) existing db K Hex Hid
                  (fun m => conj eq_refl eq_refl) Hname U) as W.
    destruct (snd (media_update _ _ _)); exact W. }
  cbv zeta.
  destruct (given (um_filename data)) as [name|] eqn:Eg.
  - assert (En : um_filename data = Some name)
      by (destruct (um_filename data) as [[|c rest]|]; simpl in Eg; congruence).
    destruct (negb (String.eqb name (media_filename existing))) eqn:Esame.
    + destruct (snd (media_findFirst_filename _ _ _)) as [taken|] eqn:Et; auto.
      apply Hw. right. intros m Hm Hs E. simpl in Et.
      pose proof (find_none _ _ Et m Hm) as Hn. simpl in Hn.
      rewrite Hs, String.eqb_refl, E in Hn. simpl in Hn.
      rewrite En in Hn. simpl in Hn. rewrite String.eqb_refl in Hn. discriminate.
    + apply Hw. left. simpl. rewrite En. simpl.
      apply negb_false_iff in Esame. now apply String.eqb_eq.
  - apply Hw. left. simpl.
    destruct (um_filename data) as [[|c rest]|]; simpl in Eg;
      [discriminate|discriminate|reflexivity].
Qed.

Lemma media_post_names u b newId db :
  filenamesUnique db -> filenamesUnique (fst (run (post_handler u b newId) db)).
Proof.
  intros U. unfold post_handler.
  destruct (CreateMediaSchema b) as [data|]; auto.
  simpl. destruct (find _ (sites db)) as [s|]; auto.
  simpl. destruct (find _ (media db)) as [taken|] eqn:Et; auto.
  simpl. unfold media_create.
  destruct (existsb _ (media db)) eqn:Eid; simpl; auto.
  assert (Hfree : forall m, In m (media db) ->
            media_siteId m = cm_siteId data -> media_filename m <> cm_filename data).
  { intros m Hm Hs E. pose proof (find_none _ _ Et m Hm) as Hn. simpl in Hn.
    rewrite Hs, E, !String.eqb_refl in Hn. discriminate. }
  intros m1 m2 H1' H2' Es En. simpl in H1', H2'.
  apply in_app_iff in H1'. apply in_app_iff in H2'.
  destruct H1' as [Hm1|[<-|[]]], H2' as [Hm2|[<-|[]]]; auto.
  - exfalso. now apply (Hfree m1 Hm1).
  - exfalso. apply (Hfree m2 Hm2); auto.
Qed.

(** X19.  One request at a time, the filename check of the media
    routes holds what it promises, with one exception: as long as no
    [PUT /media/:id] carries the empty filename, no two media rows of
    a site come to share a filename, whatever else is asked of the
    content routes. *)
Theorem media_filenames_stay_unique (u : ReqUser) (m : Mutation) (db : DB) :
  NoDup (map media_id (media db)) -> namesEmpty m = false ->
  filenamesUnique db -> filenamesUnique (fst (run (mutate u m) db)).
Proof.
  intros K Hne U.
  destruct m as [a id|b newId now|b newId|b newId];
    [destruct a as [|b now|b now| | |b| | |b|b|]|..].
  - simpl. destruct (find _ (pages db)); exact U.
  - apply (@filenames_same db (serve db (Update u id b now))); auto.
    apply serve_write.
  - apply (@filenames_same db (serve db (Publish u id b now))); auto.
    apply serve_write.
  - apply (@filenames_same db (serve db (Delete u id))); auto.
    apply serve_write.
  - simpl. destruct (find _ (media db)); exact U.
  - simpl mutate. unfold put. rewrite run_requireRole.
    destruct (existsb _ _); auto. now apply media_put_names.
  - simpl. unfold delete. rewrite run_requireRole.
    destruct (existsb _ _); auto. rewrite run_media_delete_handler.
    destruct (snd (media_findFirst _ _ _)); auto.
    assert (W : filenamesUnique (fst (media_delete id db))).
    { unfold media_delete. destruct (existsb _ (media db)); simpl; auto.
      apply (@filenames_subset db); auto. simpl. intros x Hx.
      apply filter_In in Hx. tauto. }
    destruct (snd (media_delete id db)); exact W.
  - simpl. destruct (find _ (sites db)); exact U.
  - simpl. unfold SitesRoutes.put. rewrite run_requireRole.
    destruct (existsb _ _); auto.
    apply (@filenames_same db); auto. apply site_put_write.
  - simpl. unfold SitesRoutes.publish. rewrite run_requireRole.
    destruct (existsb _ _); auto.
    apply (@filenames_same db); auto. apply site_publish_write.
  - simpl. unfold SitesRoutes.delete. rewrite run_requireRole.
    destruct (existsb _ _); auto. unfold SitesRoutes.delete_handler.
    simpl. destruct (find _ (sites db)); auto.
    simpl. unfold site_delete. destruct (existsb _ (sites db)); simpl; auto.
    apply (@filenames_subset db); auto. simpl. intros x Hx.
    apply filter_In in Hx. tauto.
  - apply (@filenames_same db (serve db (Create u b newId now))); auto.
    apply serve_write.
  - simpl. unfold post. rewrite run_requireRole.
    destruct (existsb _ _); auto. now apply media_post_names.
  - simpl. unfold SitesRoutes.post. rewrite run_requireRole.
    destruct (existsb _ _); auto.
    apply (@filenames_same db); auto. apply site_post_write.
Qed.

End MediaNames.

Lemma twoMediaStore_names : filenamesUnique twoMediaStore.
Proof.
  intros m1 m2 [<-|[<-|[]]] [<-|[<-|[]]] _ E; try reflexivity; discriminate.
Qed.

Lemma media_filenames_stay_unique_witness :
  filenamesUnique
    (fst (run (mutate (H := exampleCollaborators) (H0 := exampleDefaults)
                 demoAdmin (ById (PutMedia (filenameBody "hero.png")) "m1"))
            twoMediaStore)).
Proof.
  apply (@media_filenames_stay_unique exampleCollaborators exampleDefaults).
  - repeat (constructor; [simpl; intuition discriminate|]). constructor.
  - reflexivity.
  - exact twoMediaStore_names.
Defined.

Section EmptyFilename.
Import MediaRoutes Store.

Lemma find_map_stable (A : Type) (P : A -> bool) (g : A -> A) (l : list A) :
  (forall a, In a l -> P (g a) = P a) ->
  (forall a, In a l -> P a = true -> g a = a) ->
  find P (map g l) = find P l.
Proof.
  induction l as [|a l IH]; simpl; intros Hp Hg; [reflexivity|].
  rewrite (Hp a (or_introl eq_refl)).
  destruct (P a) eqn:E.
  - rewrite (Hg a (or_introl eq_refl) E). reflexivity.
  - apply IH; intros; [apply Hp|apply Hg]; auto.
Qed.

(** What [PUT /media/:id] does with the empty filename: the row the
    tenant-scoped lookup finds is written without any check. *)
Lemma put_empty_filename u id b data existing db :
  mayMutate u -> UpdateMediaSchema b = Some data -> um_filename data = Some ""%string ->
  snd (media_findFirst id (req_user_tenantId u) db) = Some existing ->
  exists row,
    run (put u id b) db
    = (with_media db
         (map (fun m => if String.eqb (media_id m) id then apply_data data m else m)
              (media db)),
       json 200 (MediaBody (Some "Media updated successfully") row)).
Proof.
  intros G Hp Hname Ef. unfold put. rewrite run_requireRole, G.
  rewrite run_media_put_handler, Hp, Ef. cbv zeta. rewrite Hname. simpl given.
  cbv iota. unfold media_update.
  simpl in Ef. apply find_some in Ef. destruct Ef as [Hin Hc].
  apply andb_true_iff in Hc. destruct Hc as [Hid _].
  destruct (find (fun m => String.eqb (media_id m) id) (media db)) as [old|] eqn:Eold.
  - simpl. eexists. reflexivity.
  - exfalso. pose proof (find_none _ _ Eold existing Hin) as Hn. simpl in Hn.
    congruence.
Qed.

(** X20.  The exception: the empty filename passes the schema of
    [PUT /media/:id] and, being falsy, skips the filename check.  Two
    media rows of one site can both be renamed to it, each request
    answered 200, and then share their filename. *)
Theorem empty_filename_skips_the_check
  (u : ReqUser) (id1 id2 : Id) (b : Json) (data : UpdateMediaData)
  (m1 m2 : Media) (db : DB) :
  mayMutate u -> NoDup (map media_id (media db)) ->
  UpdateMediaSchema b = Some data -> um_filename data = Some ""%string ->
  snd (media_findFirst id1 (req_user_tenantId u) db) = Some m1 ->
  snd (media_findFirst id2 (req_user_tenantId u) db) = Some m2 ->
  id1 <> id2 -> media_siteId m1 = media_siteId m2 ->
  status (snd (run (put u id1 b) db)) = 200
  /\ status (snd (run (put u id2 b) (fst (run (put u id1 b) db)))) = 200
  /\ ~ filenamesUnique (fst (run (put u id2 b) (fst (run (put u id1 b) db)))).
Proof.
  intros G K Hp Hname E1 E2 Hne Hsite.
  destruct (@put_empty_filename u id1 b data m1 db G Hp Hname E1) as (row1 & R1).
  rewrite R1. cbn [fst snd].
  set (g1 := fun m => if String.eqb (media_id m) id1 then apply_data data m else m).
  set (db1 := with_media db (map g1 (media db))).
  assert (F1 : In m1 (media db) /\ media_id m1 = id1).
  { simpl in E1. apply find_some in E1. destruct E1 as [Hin Hc].
    apply andb_true_iff in Hc. destruct Hc as [Hid _].
    apply String.eqb_eq in Hid. auto. }
  assert (F2 : In m2 (media db) /\ media_id m2 = id2).
  { simpl in E2. apply find_some in E2. destruct E2 as [Hin Hc].
    apply andb_true_iff in Hc. destruct Hc as [Hid _].
    apply String.eqb_eq in Hid. auto. }
  destruct F1 as [In1 Id1], F2 as [In2 Id2].
  assert (E2' : snd (media_findFirst id2 (req_user_tenantId u) db1) = Some m2).
  { simpl in E2 |- *. unfold siteInTenant, siteOf. simpl.
    unfold siteInTenant, siteOf in E2. rewrite <- E2.
    apply find_map_stable.
    - intros a Ha. unfold g1. destruct (String.eqb (media_id a) id1); reflexivity.
    - intros a Ha Hc. unfold g1. apply andb_true_iff in Hc. destruct Hc as [Hid _].
      apply String.eqb_eq in Hid.
      replace (String.eqb (media_id a) id1) with false; [reflexivity|].
      symmetry. apply String.eqb_neq. congruence. }
  destruct (@put_empty_filename u id2 b data m2 db1 G Hp Hname E2') as (row2 & R2).
  rewrite R2. cbn [fst snd].
  split; [reflexivity|]. split; [reflexivity|].
  intros U.
  set (g2 := fun m => if String.eqb (media_id m) id2 then apply_data data m else m).
  assert (H1' : In (apply_data data m1) (map g2 (media db1))).
  { apply in_map_iff. exists (apply_data data m1). split.
    - unfold g2. simpl media_id. rewrite Id1.
      replace (String.eqb id1 id2) with false; [reflexivity|].
      symmetry. now apply String.eqb_neq.
    - simpl. apply in_map_iff. exists m1. split; auto.
      unfold g1. rewrite Id1, String.eqb_refl. reflexivity. }
  assert (H2' : In (apply_data data m2) (map g2 (media db1))).
  { apply in_map_iff. exists m2. split.
    - unfold g2. rewrite Id2, String.eqb_refl. reflexivity.
    - simpl. apply in_map_iff. exists m2. split; auto.
      unfold g1. rewrite Id2.
      replace (String.eqb id2 id1) with false; [reflexivity|].
      symmetry. apply String.eqb_neq. congruence. }
  specialize (U _ _ H1' H2'). simpl in U. rewrite Hname in U. simpl in U.
  apply Hne. rewrite <- Id1, <- Id2. now apply U.
Qed.

End EmptyFilename.

Lemma empty_filename_skips_the_check_witness :
  ~ filenamesUnique
      (fst (run (MediaRoutes.put demoAdmin "m2" (filenameBody ""))
              (fst (run (MediaRoutes.put demoAdmin "m1" (filenameBody ""))
                      twoMediaStore)))).
Proof.
  refine (proj2 (proj2 (@empty_filename_skips_the_check demoAdmin "m1" "m2"
            (filenameBody "") _ demoMedia otherMedia twoMediaStore
            eq_refl _ eq_refl eq_refl eq_refl eq_refl _ eq_refl))).
  - repeat (constructor; [simpl; intuition discriminate|]). constructor.
  - discriminate.
Defined.
